(** * Wasp smart-contract core: transaction properties, VM runners, request API

    A shallow embedding of four Go sources of the repository:

    - [packages/sctransaction/properties.go]  (module [Sctransaction]),
    - the older [VM] plugin, package [runvm]   (module [VMPlugin]),
    - [plugins/runvm/plugin.go], the [RunVM] plugin (module [RunVMPlugin]),
    - [packages/apilib/request.go]             (module [Apilib]).

    Go's [int64] is a [Z] whose additions and conversions wrap explicitly
    ([Int64.wrap]); Go maps are stdpp [gmap]s; ordered ledger maps are
    association lists in iteration order; pointers to mutable objects that
    the code shares are locations of an explicit store. *)

From Stdlib Require Import ZArith Lia List.
From stdpp Require Import base option list gmap fin_maps strings.

Local Open Scope Z_scope.

(** ** Go's 64-bit integers *)

Module Int64.

Definition modulus : Z := 2 ^ 64.
Definition min_signed : Z := - 2 ^ 63.
Definition max_signed : Z := 2 ^ 63 - 1.
Definition max_unsigned : Z := 2 ^ 64 - 1.

(** [in_range z]: [z] is a value of Go's [int64]. *)
Definition in_range (z : Z) : Prop := min_signed <= z <= max_signed.

(** [wrap z] is the [int64] holding [z] modulo [2^64] (two's complement):
    the result of every [int64] operation and of the conversion [int64(x)]. *)
Definition wrap (z : Z) : Z := (z + 2 ^ 63) mod 2 ^ 64 - 2 ^ 63.

(** [a + b] on [int64]. *)
Definition add (a b : Z) : Z := wrap (a + b).

Lemma wrap_in_range z : in_range (wrap z).
Proof.
  unfold in_range, wrap, min_signed, max_signed.
  pose proof (Z.mod_pos_bound (z + 2 ^ 63) (2 ^ 64) ltac:(lia)). lia.
Qed.

Lemma wrap_id z : in_range z -> wrap z = z.
Proof.
  unfold in_range, wrap, min_signed, max_signed. intros H.
  rewrite Z.mod_small; lia.
Qed.

Lemma wrap_wrap_add a b : wrap (wrap a + b) = wrap (a + b).
Proof.
  unfold wrap.
  replace ((a + 2 ^ 63) mod 2 ^ 64 - 2 ^ 63 + b + 2 ^ 63)
    with ((a + 2 ^ 63) mod 2 ^ 64 + b) by lia.
  rewrite Zplus_mod_idemp_l. f_equal. f_equal. lia.
Qed.


Lemma wrap_idem z : wrap (wrap z) = wrap z.
Proof. apply wrap_id, wrap_in_range. Qed.

Lemma add_0_r a : in_range a -> add a 0 = a.
Proof. intros. unfold add. rewrite Z.add_0_r. by apply wrap_id. Qed.

End Int64.

(** ** Results of fallible and of panicking Go calls *)

(** A Go [error] value built by [errors.New] or [fmt.Errorf]: its message. *)
Abbreviation error := string (only parsing).

(** [(T, error)] results: exactly one of the two is non-nil. *)
Inductive result (A : Type) : Type :=
| Ok (a : A)
| Err (e : error).
Arguments Ok {A} a.
Arguments Err {A} e.

Definition is_err {A} (r : result A) : bool :=
  match r with Ok _ => false | Err _ => true end.

(** A call that either returns or panics with a message. *)
Inductive outcome (A : Type) : Type :=
| Returns (a : A)
| Panics (msg : string).
Arguments Returns {A} a.
Arguments Panics {A} msg.

(** ** Ledger primitives (goshimmer value transfers) *)

Module Ledger.

(** [address.Address] is a 33-byte array, [balance.Color] and the
    transaction id are 32-byte arrays: each is the number its bytes spell. *)
Abbreviation Address := N (only parsing).
Abbreviation Color := N (only parsing).
Abbreviation TransactionID := N (only parsing).

(** The zero value of an address (all bytes zero). *)
Definition zeroAddress : Address := 0%N.

(** [balance.ColorNew]: the reserved color of freshly minted tokens, all
    32 bytes [0xFF]. *)
Definition ColorNew : Color := (2 ^ 256 - 1)%N.

(** [balance.Balance]: an amount ([int64]) of one color. *)
Record Balance : Type := mkBalance { Value : Z; BalColor : Color }.

(** Modelled from the spec: [util.BalanceOfColor] is not among the sources.
    The data model makes a balance a (color, amount) pair with [int64]
    amounts; the helper totals, in [int64], the amounts of the given color
    in one output's balance list. *)
Fixpoint BalanceOfColor (bals : list Balance) (color : Color) : Z :=
  match bals with
  | [] => 0
  | b :: rest =>
      if decide (BalColor b = color)
      then Int64.add (Value b) (BalanceOfColor rest color)
      else BalanceOfColor rest color
  end.

End Ledger.

(** ** [packages/sctransaction/properties.go] *)

Module Sctransaction.
Import Ledger.

(** The state block of a transaction; [Color()] is what the analysis reads. *)
Record StateBlock : Type := mkStateBlock {
  sbColor : Color;
  sbStateIndex : Z;
  sbTimestamp : Z
}.

(** A request block; [Address()] is its target contract. *)
Record RequestBlock : Type := mkRequestBlock {
  rbAddress : Address;
  rbRequestCode : Z
}.

(** A sealed smart-contract transaction as the analysis reads it:
    [Inputs] lists the input addresses in the order [ForEachAddress] visits
    them, [Outputs] the (address, balances) entries in the order [ForEach]
    visits them, [State] is the optional state block ([tx.State()] and its
    [ok] flag) and [Requests] the request blocks. *)
Record Transaction : Type := mkTransaction {
  ID : TransactionID;
  Inputs : list Address;
  Outputs : list (Address * list Balance);
  State : option StateBlock;
  Requests : list RequestBlock
}.

Record Properties : Type := mkProperties {
  sender : Address;
  isState : bool;
  isOrigin : bool;
  stateAddress : Address;
  stateColor : Color;
  numMintedTokensByAddr : gmap N Z;
  numMintedTokens : Z
}.

(** [&Properties{}]: every field at its zero value (a nil map reads like
    the empty one). *)
Definition emptyProperties : Properties :=
  mkProperties zeroAddress false false zeroAddress 0%N ∅ 0.

Definition set_sender (a : Address) (p : Properties) : Properties :=
  mkProperties a (isState p) (isOrigin p) (stateAddress p) (stateColor p)
    (numMintedTokensByAddr p) (numMintedTokens p).
Definition set_isState (b : bool) (p : Properties) : Properties :=
  mkProperties (sender p) b (isOrigin p) (stateAddress p) (stateColor p)
    (numMintedTokensByAddr p) (numMintedTokens p).
Definition set_isOrigin (b : bool) (p : Properties) : Properties :=
  mkProperties (sender p) (isState p) b (stateAddress p) (stateColor p)
    (numMintedTokensByAddr p) (numMintedTokens p).
Definition set_stateAddress (a : Address) (p : Properties) : Properties :=
  mkProperties (sender p) (isState p) (isOrigin p) a (stateColor p)
    (numMintedTokensByAddr p) (numMintedTokens p).
Definition set_stateColor (c : Color) (p : Properties) : Properties :=
  mkProperties (sender p) (isState p) (isOrigin p) (stateAddress p) c
    (numMintedTokensByAddr p) (numMintedTokens p).
Definition set_minted (m : gmap N Z) (n : Z) (p : Properties) : Properties :=
  mkProperties (sender p) (isState p) (isOrigin p) (stateAddress p)
    (stateColor p) m n.

(** The messages of the [errors.New] calls, in source order. *)
Definition errOneInput : error :=
  "smart contract transaction must contain exactly 1 input address".
Definition errOneScToken : error :=
  "sc transaction must contain exactly one sc token output".
Definition errTokenToItself : error :=
  "SC token must move from the SC address to itself".
Definition errMintOneAddress : error :=
  "in the origin transaction tokens can be minted only to 1 address".
Definition errNoStateNoRequest : error :=
  "smart contract transaction which does not contain state block must contain at least one request".
Definition errOriginTargets : error :=
  "in the origin transaction all requests must have target only newly created smart contract".
(** [errors.New] of the empty message, the request-token check's error. *)
Definition errRequestTokens : error := EmptyString.

(** *** analyzeSender *)

(** The [ForEachAddress] callback run over the input addresses; it stops
    the iteration (returns false) at the second address. *)
Fixpoint analyzeSender_loop (addrs : list Address) (prop : Properties)
    (senderFound : bool) : Properties * option error :=
  match addrs with
  | [] => (prop, None)
  | addr :: rest =>
      if senderFound then (prop, Some errOneInput)
      else analyzeSender_loop rest (set_sender addr prop) true
  end.

Definition analyzeSender (prop : Properties) (tx : Transaction)
    : Properties * option error :=
  analyzeSender_loop (Inputs tx) prop false.

(** *** countMintedTokens *)

Definition countMintedTokens_visit (prop : Properties)
    (out : Address * list Balance) : Properties :=
  let v := BalanceOfColor out.2 ColorNew in
  if decide (v = 0) then prop
  else
    let va := default 0 (numMintedTokensByAddr prop !! out.1) in
    set_minted (<[out.1 := Int64.add va v]> (numMintedTokensByAddr prop))
               (Int64.add (numMintedTokens prop) v) prop.

Definition countMintedTokens (prop : Properties) (tx : Transaction)
    : Properties :=
  foldl countMintedTokens_visit
        (set_minted ∅ (numMintedTokens prop) prop) (Outputs tx).

(** *** analyzeStateBlock *)

(** The [ForEach] callback of the non-origin branch run over the outputs:
    [v] accumulates the amount of the state color, the iteration stops with
    an error as soon as [v > 1], and every output visited without error
    overwrites [prop.stateAddress]. *)
Fixpoint scTokenScan (outs : list (Address * list Balance))
    (prop : Properties) (v : Z) : Properties * option error :=
  match outs with
  | [] => (prop, None)
  | (addr, bals) :: rest =>
      let v' := Int64.add v (BalanceOfColor bals (stateColor prop)) in
      if decide (1 < v') then (prop, Some errOneScToken)
      else scTokenScan rest (set_stateAddress addr prop) v'
  end.

(** [for stateAddr := range m { prop.stateAddress = stateAddr; break }]:
    the first key the iteration yields, if any. *)
Definition firstKey (m : gmap N Z) (dflt : Address) : Address :=
  match map_to_list m with
  | [] => dflt
  | (a, _) :: _ => a
  end.

Definition analyzeStateBlock (prop : Properties) (tx : Transaction)
    : Properties * option error :=
  match State tx with
  | None => (set_isState false prop, None)
  | Some stateBlock =>
      let prop := set_isState true prop in
      if decide (sbColor stateBlock ≠ ColorNew) then
        let prop := set_stateColor (sbColor stateBlock) prop in
        match scTokenScan (Outputs tx) prop 0 with
        | (prop, Some err) => (prop, Some err)
        | (prop, None) =>
            if decide (stateAddress prop ≠ sender prop)
            then (prop, Some errTokenToItself)
            else (prop, None)
        end
      else if decide (1 < size (numMintedTokensByAddr prop))%nat then
        (prop, Some errMintOneAddress)
      else
        let prop :=
          set_stateAddress
            (firstKey (numMintedTokensByAddr prop) (stateAddress prop)) prop in
        let prop := set_isOrigin true prop in
        (set_stateColor (ID tx) prop, None)
  end.

(** *** analyzeRequestBlocks *)

(** [numReqByAddr]: one [int64] counter per target address. *)
Definition countRequest (numReqByAddr : gmap N Z) (reqBlk : RequestBlock)
    : gmap N Z :=
  let n := default 0 (numReqByAddr !! rbAddress reqBlk) in
  <[rbAddress reqBlk := Int64.add n 1]> numReqByAddr.

Definition numReqByAddr (reqs : list RequestBlock) : gmap N Z :=
  foldl countRequest ∅ reqs.

(** The final [range numReqByAddr] loop over the entries in the order the
    iteration yields them; it returns at the first target that has fewer
    minted tokens than requests. *)
Fixpoint requestTokenCheck (minted : gmap N Z) (entries : list (N * Z))
    : option error :=
  match entries with
  | [] => None
  | (targetAddr, numReq) :: rest =>
      let numMinted := default 0 (minted !! targetAddr) in
      if decide (numMinted < numReq) then Some errRequestTokens
      else requestTokenCheck minted rest
  end.

Definition analyzeRequestBlocks (prop : Properties) (tx : Transaction)
    : Properties * option error :=
  if negb (isState prop) && bool_decide (length (Requests tx) = 0%nat) then
    (prop, Some errNoStateNoRequest)
  else if bool_decide (length (Requests tx) = 0%nat) then (prop, None)
  else
    let reqByAddr := numReqByAddr (Requests tx) in
    let wrong :=
      if isOrigin prop then
        if decide (size reqByAddr ≠ 1%nat) then true
        else if decide (is_Some (reqByAddr !! stateAddress prop)) then false
        else true
      else false in
    if wrong then (prop, Some errOriginTargets)
    else (prop, requestTokenCheck (numMintedTokensByAddr prop)
                                  (map_to_list reqByAddr)).

(** *** calcProperties *)

Definition calcProperties (tx : Transaction) : result Properties :=
  let ret := emptyProperties in
  match analyzeSender ret tx with
  | (_, Some err) => Err err
  | (ret, None) =>
      let ret := countMintedTokens ret tx in
      match analyzeStateBlock ret tx with
      | (_, Some err) => Err err
      | (ret, None) =>
          match analyzeRequestBlocks ret tx with
          | (_, Some err) => Err err
          | (ret, None) => Ok ret
          end
      end
  end.

(** *** Accessors *)

Definition Sender (prop : Properties) : Address := sender prop.

Definition IsState (prop : Properties) : bool := isState prop.

(** The source returns [prop.isState] here, not [prop.isOrigin]. *)
Definition IsOrigin (prop : Properties) : bool := isState prop.

Definition MustStateAddress (prop : Properties) : outcome Address :=
  if negb (isState prop)
  then Panics "MustStateAddress: must be a state transaction"
  else Returns (stateAddress prop).

Definition MustStateColor (prop : Properties) : outcome Color :=
  if negb (isState prop)
  then Panics "MustStateColor: must be a state transaction"
  else Returns (stateColor prop).

End Sctransaction.

(** ** Packages [state] and [vm]: what the two runner plugins share *)

Module State.
Import Ledger.

(** [hashing.HashValue]: a 32-byte array. *)
Abbreviation HashValue := N (only parsing).

(** [sctransaction.RequestId]: transaction id and request index. *)
Abbreviation RequestId := (N * Z)%type (only parsing).

(** [sctransaction.RequestRef]: a request block of a transaction. *)
Record RequestRef : Type := mkRequestRef {
  Tx : Sctransaction.Transaction;
  Index : Z
}.

Definition RequestIdOf (reqRef : RequestRef) : RequestId :=
  (Sctransaction.ID (Tx reqRef), Index reqRef).

(** [sctransaction.TakeRequestIds]. *)
Definition TakeRequestIds (reqs : list RequestRef) : list RequestId :=
  map RequestIdOf reqs.

Section Updates.
(** [Mut]: one mutation of the key/value state. *)
Context {Mut : Type}.

(** Modelled from the spec: package [state] is not among the sources.  A
    state update is the ordered delta that processing one request produces,
    tagged with the id of the request and a timestamp ([int64]
    nanoseconds); a new one has no mutations and timestamp zero. *)
Record StateUpdate : Type := mkStateUpdate {
  suRequestId : RequestId;
  suTimestamp : Z;
  suMutations : list Mut
}.

Definition NewStateUpdate (reqid : RequestId) : StateUpdate :=
  mkStateUpdate reqid 0 [].

Definition WithTimestamp (ts : Z) (su : StateUpdate) : StateUpdate :=
  mkStateUpdate (suRequestId su) ts (suMutations su).

Record Batch : Type := mkBatch {
  batchUpdates : list StateUpdate;
  batchStateIndex : Z
}.

(** Modelled from the spec: [state.NewBatch] is not among the sources.  The
    spec makes a batch an ordered, non-empty sequence of state updates; the
    constructor rejects the empty sequence and keeps the order. *)
Definition NewBatch (stateUpdates : list StateUpdate) : result Batch :=
  match stateUpdates with
  | [] => Err "batch can't be empty"
  | _ :: _ => Ok (mkBatch stateUpdates 0)
  end.

Definition WithStateIndex (idx : Z) (b : Batch) : Batch :=
  mkBatch (batchUpdates b) idx.

Definition Size (b : Batch) : nat := length (batchUpdates b).

End Updates.
Arguments StateUpdate : clear implicits.
Arguments Batch : clear implicits.

(** Modelled from the spec: the [state.VirtualState] interface (called
    [VariableState] by the older plugin) is not among the sources.  A
    virtual state has a state index, a timestamp and a hash, and state
    updates and batches are applied to it; the methods are given on the
    value a state object holds, [ApplyBatch] reporting an error beside the
    value it leaves in the object. *)
Class VirtualState (VS Mut : Type) : Type := {
  StateIndex : VS -> Z;
  Timestamp : VS -> Z;
  Hash : VS -> HashValue;
  ApplyStateUpdate : VS -> StateUpdate Mut -> VS;
  ApplyBatch : VS -> Batch Mut -> VS * option error
}.

(** State objects are shared by pointer: a store of objects, a pointer
    being an index into it.  [Clone] (and the older [NewVariableState])
    allocates a new object holding a copy. *)
Definition alloc {VS : Type} (σ : list VS) (v : VS) : list VS * nat :=
  (σ ++ [v], length σ).

(** The line feed of the format strings. *)
Definition newline : string := String (Ascii.ascii_of_nat 10) EmptyString.

(** What a run leaves behind besides its results. *)
Inductive Event : Type :=
| EvNewTxBuilder
| EvBackgroundWorker (taskName : string)
| EvLog (msg : string)
| EvOnFinish (err : option error).

End State.

(** ** The older [VM] plugin (package [runvm], plugin name ["VM"]) *)

Module VMPlugin.
Import Ledger State.

Section Plugin.
Context {VS Mut TxB ResultTx Balances : Type} `{!VirtualState VS Mut}.

(** [vm.VMContext].  [VariableState] points at the working state object. *)
Record VMContext : Type := mkVMContext {
  vmAddress : Address;
  vmColor : Color;
  vmTxBuilder : TxB;
  vmTimestamp : Z;
  vmVariableState : nat;
  vmRequest : option RequestRef;
  vmStateUpdate : option (StateUpdate Mut)
}.

(** [vm.Processor]: [Run] works on the context it is handed and on the
    state object the context points at; it leaves a builder, a content of
    that object and a state update behind. *)
Definition Processor : Type :=
  VMContext -> VS -> TxB * VS * StateUpdate Mut.

(** [vm.VMTask]. *)
Record VMTask : Type := mkVMTask {
  ProgramHash : string;
  TaskAddress : Address;
  TaskColor : Color;
  TaskBalances : Balances;
  Requests : list RequestRef;
  TaskTimestamp : Z;
  VariableState : nat;
  ResultBatch : option (Batch Mut);
  ResultTransaction : option ResultTx
}.

Definition set_results (b : option (Batch Mut)) (t : option ResultTx)
    (ctx : VMTask) : VMTask :=
  mkVMTask (ProgramHash ctx) (TaskAddress ctx) (TaskColor ctx)
    (TaskBalances ctx) (Requests ctx) (TaskTimestamp ctx)
    (VariableState ctx) b t.

(** The transaction builder of package [vm] and the daemon are not among
    the sources; the plugin is stated over their operations. *)
Context (NewTxBuilder : Balances -> Color -> Address -> result TxB)
        (EraseColor : TxB -> Address -> Color -> Z -> result TxB)
        (Finalize : TxB -> Z -> HashValue -> ResultTx)
        (AddressString : Address -> string)
        (BatchHash : list RequestId -> Z -> HashValue)
        (HashString : HashValue -> string)
        (BackgroundWorker : string -> option error).

(** The name under which the daemon runs the task. *)
Definition taskName (ctx : VMTask) : string :=
  let reqids := TakeRequestIds (Requests ctx) in
  let bh := BatchHash reqids (TaskTimestamp ctx) in
  AddressString (TaskAddress ctx) +:+ "." +:+ HashString bh.

(** [getProcessor] over the registry [processors]. *)
Definition getProcessor (processors : gmap string Processor)
    (programHash : string) : result Processor :=
  match processors !! programHash with
  | None => Err "no such processor"
  | Some ret => Ok ret
  end.

(** [RunComputationsAsync]: the error it returns, the events it leaves and,
    when the daemon took the worker, the builder and processor the worker
    will run [runVM] with. *)
Definition RunComputationsAsync (processors : gmap string Processor)
    (ctx : VMTask)
    : option error * list Event * option (TxB * Processor) :=
  match getProcessor processors (ProgramHash ctx) with
  | Err err => (Some err, [], None)
  | Ok processor =>
      match NewTxBuilder (TaskBalances ctx) (TaskColor ctx) (TaskAddress ctx) with
      | Err err => (Some err, [], None)
      | Ok txbuilder =>
          let name := taskName ctx in
          match BackgroundWorker name with
          | Some err => (Some err, [EvNewTxBuilder], None)
          | None =>
              (None, [EvNewTxBuilder; EvBackgroundWorker name],
               Some (txbuilder, processor))
          end
      end
  end.

(** The state of the request loop of [runVM]. *)
Record LoopState : Type := mkLoopState {
  loopCtx : VMContext;
  loopStore : list VS;
  loopUpdates : list (StateUpdate Mut)
}.

(** What one iteration of a request loop does next. [NilPanic] is the
    nil-pointer panic of a call through a state pointer that is not in the
    store. *)
Inductive Step : Type :=
| Continue (st : LoopState)
| Break
| NilPanic.

(** One iteration of the loop of [runVM]; [Break] is taken when
    [EraseColor] fails. *)
Definition loopBody (ctx : VMTask) (processor : Processor)
    (st : LoopState) (reqRef : RequestRef) : Step :=
  let vmctx := loopCtx st in
  match EraseColor (vmTxBuilder vmctx) (TaskAddress ctx)
          (Sctransaction.ID (Tx reqRef)) 1 with
  | Err _ => Break
  | Ok txb =>
      let vmctx :=
        mkVMContext (vmAddress vmctx) (vmColor vmctx) txb (vmTimestamp vmctx)
          (vmVariableState vmctx) (Some reqRef)
          (Some (NewStateUpdate (RequestIdOf reqRef))) in
      match loopStore st !! vmVariableState vmctx with
      | None => NilPanic
      | Some vs =>
          let '(txb', vs', su) := processor vmctx vs in
          let vmctx :=
            mkVMContext (vmAddress vmctx) (vmColor vmctx) txb'
              (vmTimestamp vmctx) (vmVariableState vmctx) (Some reqRef)
              (Some su) in
          Continue (mkLoopState vmctx
                      (<[vmVariableState vmctx := ApplyStateUpdate vs' su]>
                         (loopStore st))
                      (loopUpdates st ++ [su]))
      end
  end.

(** [for _, reqRef := range ctx.Requests { ... }] with its [break];
    [None] when an iteration panics. *)
Fixpoint requestLoop (ctx : VMTask) (processor : Processor)
    (reqs : list RequestRef) (st : LoopState) : option LoopState :=
  match reqs with
  | [] => Some st
  | reqRef :: rest =>
      match loopBody ctx processor st reqRef with
      | Break => Some st
      | NilPanic => None
      | Continue st' => requestLoop ctx processor rest st'
      end
  end.

(** [runVM]: the task with its results, the store, the events (the
    [OnFinish] callback) and the error returned.  [None] stands for the
    nil-pointer panic of a task whose state pointer is not in the store. *)
Definition runVM (ctx : VMTask) (txbuilder : TxB) (processor : Processor)
    (σ : list VS) : option (VMTask * list VS * list Event * option error) :=
  match σ !! VariableState ctx with
  | None => None
  | Some orig =>
      let (σ, clone) := alloc σ orig in
      let vmctx :=
        mkVMContext (TaskAddress ctx) (TaskColor ctx) txbuilder
          (TaskTimestamp ctx) clone None None in
      match requestLoop ctx processor (Requests ctx)
              (mkLoopState vmctx σ []) with
      | None => None
      | Some st =>
          let vmctx := loopCtx st in
          let σ := loopStore st in
          match NewBatch (loopUpdates st) with
          | Err err =>
              Some (set_results None (ResultTransaction ctx) ctx, σ, [],
                    Some err)
          | Ok batch =>
              match σ !! VariableState ctx with
              | None => None
              | Some vs =>
                  let batch := WithStateIndex (StateIndex vs + 1) batch in
                  let ctx :=
                    set_results (Some batch) (ResultTransaction ctx) ctx in
                  let (vs', err) := ApplyBatch vs batch in
                  let σ := <[VariableState ctx := vs']> σ in
                  match err with
                  | Some err => Some (ctx, σ, [], Some err)
                  | None =>
                      let tx := Finalize (vmTxBuilder vmctx) (StateIndex vs')
                                  (Hash vs') in
                      Some (set_results (ResultBatch ctx) (Some tx) ctx, σ,
                            [EvOnFinish None], None)
                  end
              end
          end
      end
  end.

End Plugin.
End VMPlugin.

(** *** The registry of processors of the older plugin *)

Module Registry.
Import Ledger State VMPlugin.

Section Registry.
Context {VS Mut TxB : Type}.
(** [vmnil.New()], the one processor the plugin can create; package
    [vmnil] is not among the sources. *)
Context (vmnilNew : @Processor VS Mut TxB).

(** The program hashes that [RegisterProcessor] knows. *)
Definition sc1 : string := "KSoWFbHwZuHG8B8HVcYVKR4WYVQ7MpoqeaXgKWfkBMF".
Definition sc2 : string := "7xmPcECfZsSQq5eq7GCucuxmL2QpsgYwTjusuQcoK9GE".
Definition sc3 : string := "2tx7z36m9EhX3xBRGmEUD4FwTyP6R66zGPYY53EWc87k".

(** [RegisterProcessor]: what its goroutine does while it holds the write
    lock of the registry: the registry it leaves and the argument of its
    one call of [onFinish]. *)
Definition RegisterProcessor (programHash : string)
    (processors : gmap string (@Processor VS Mut TxB))
    : gmap string (@Processor VS Mut TxB) * option error :=
  if decide (programHash = sc1) then
    (<[programHash := vmnilNew]> processors, None)
  else if decide (programHash = sc2) then
    (processors, Some "VM not implemented")
  else if decide (programHash = sc3) then
    (processors, Some "VM not implemented")
  else
    (processors,
     Some ("can't create processor for progam hash " +:+ programHash)).

(** The registry after a sequence of registrations, in the order in which
    their goroutines took the lock. *)
Definition registerAll (hashes : list string)
    (processors : gmap string (@Processor VS Mut TxB))
    : gmap string (@Processor VS Mut TxB) :=
  foldl (λ procs h, (RegisterProcessor h procs).1) processors hashes.

End Registry.
End Registry.

(** ** The [RunVM] plugin, [plugins/runvm/plugin.go] *)

Module RunVMPlugin.
Import Ledger State.

Section Plugin.
Context {VS Mut TxB Balances : Type} `{!VirtualState VS Mut}.

(** [vm.VMContext].  [VirtualState] points at the working state object. *)
Record VMContext : Type := mkVMContext {
  vmAddress : Address;
  vmTxBuilder : TxB;
  vmTimestamp : Z;
  vmEntropy : HashValue;
  vmVirtualState : nat;
  vmRequestRef : option RequestRef;
  vmStateUpdate : option (StateUpdate Mut)
}.

(** [vm.VMTask]; [VirtualState] points at the task's state object. *)
Record VMTask : Type := mkVMTask {
  TaskAddress : Address;
  TaskBalances : Balances;
  Requests : list RequestRef;
  TaskTimestamp : Z;
  LeaderPeerIndex : Z;
  TaskEntropy : HashValue;
  VirtualState : nat;
  ResultBatch : option (Batch Mut);
  ResultTransaction : option Sctransaction.Transaction
}.

Definition set_results (b : option (Batch Mut))
    (t : option Sctransaction.Transaction) (ctx : VMTask) : VMTask :=
  mkVMTask (TaskAddress ctx) (TaskBalances ctx) (Requests ctx)
    (TaskTimestamp ctx) (LeaderPeerIndex ctx) (TaskEntropy ctx)
    (VirtualState ctx) b t.

(** Package [txbuilder], the daemon, [hashing.HashData] (on the 32 bytes of
    an entropy value) and the sibling file of this package that holds
    [createVMContext] and [runTheRequest] are not among the sources.
    [prepareBuilder] is what [createVMContext] does to the builder (and may
    fail); [runTheRequest] works on the context it is handed and on the
    working state object, and leaves a builder, a content of that object
    and a state update behind. *)
Context (NewFromAddressBalances : Address -> Balances -> result TxB)
        (BalancesToString : Balances -> string)
        (AddressString : Address -> string)
        (BatchHash : list RequestId -> Z -> Z -> HashValue)
        (HashString : HashValue -> string)
        (BackgroundWorker : string -> option error)
        (prepareBuilder : VMTask -> TxB -> result TxB)
        (runTheRequest : VMContext -> VS -> TxB * VS * StateUpdate Mut)
        (HashData : HashValue -> HashValue)
        (SetStateParams : TxB -> Z -> HashValue -> Z -> result TxB)
        (Build : TxB -> bool -> result Sctransaction.Transaction).

(** The name under which the daemon runs the task. *)
Definition taskName (ctx : VMTask) : string :=
  let reqids := TakeRequestIds (Requests ctx) in
  let bh := BatchHash reqids (TaskTimestamp ctx) (LeaderPeerIndex ctx) in
  AddressString (TaskAddress ctx) +:+ "." +:+ HashString bh.

(** [RunComputationsAsync]: the error it returns, the events it leaves and,
    when the daemon took the worker, the builder the worker will run
    [runTask] with. *)
Definition RunComputationsAsync (ctx : VMTask)
    : option error * list Event * option TxB :=
  if bool_decide (length (Requests ctx) = 0%nat) then
    (Some "must be at least 1 request", [], None)
  else
    match NewFromAddressBalances (TaskAddress ctx) (TaskBalances ctx) with
    | Err err =>
        (Some err,
         [EvLog ("NewTxBuilder: " +:+ err +:+ newline
                   +:+ BalancesToString (TaskBalances ctx))],
         None)
    | Ok txb =>
        let name := taskName ctx in
        match BackgroundWorker name with
        | Some err => (Some err, [EvNewTxBuilder], None)
        | None => (None, [EvNewTxBuilder; EvBackgroundWorker name], Some txb)
        end
    end.

(** Modelled from the spec: [createVMContext] is not among the sources.
    The runner replays the requests against a clone of the task's virtual
    state, starting from the task's timestamp and entropy, with the builder
    it was given. [None] is the nil-pointer panic. *)
Definition createVMContext (ctx : VMTask) (txb : TxB) (σ : list VS)
    : option (result VMContext * list VS) :=
  match prepareBuilder ctx txb with
  | Err err => Some (Err err, σ)
  | Ok txb =>
      match σ !! VirtualState ctx with
      | None => None
      | Some orig =>
          let (σ, clone) := alloc σ orig in
          Some (Ok (mkVMContext (TaskAddress ctx) txb (TaskTimestamp ctx)
                      (TaskEntropy ctx) clone None None), σ)
      end
  end.

(** The state of the request loop of [runTask]. *)
Record LoopState : Type := mkLoopState {
  loopCtx : VMContext;
  loopStore : list VS;
  loopUpdates : list (StateUpdate Mut)
}.

(** One iteration of the loop of [runTask]; [None] is the nil-pointer
    panic. *)
Definition loopBody (st : LoopState) (reqRef : RequestRef)
    : option LoopState :=
  let vmctx := loopCtx st in
  let vmctx :=
    mkVMContext (vmAddress vmctx) (vmTxBuilder vmctx) (vmTimestamp vmctx)
      (vmEntropy vmctx) (vmVirtualState vmctx) (Some reqRef)
      (Some (WithTimestamp (vmTimestamp vmctx)
               (NewStateUpdate (RequestIdOf reqRef)))) in
  match loopStore st !! vmVirtualState vmctx with
  | None => None
  | Some vs =>
      let '(txb, vs', su) := runTheRequest vmctx vs in
      let timestamp :=
        if decide (vmTimestamp vmctx ≠ 0)
        then Int64.add (vmTimestamp vmctx) 1
        else vmTimestamp vmctx in
      let vmctx :=
        mkVMContext (vmAddress vmctx) txb timestamp
          (HashData (vmEntropy vmctx)) (vmVirtualState vmctx)
          (Some reqRef) (Some su) in
      Some (mkLoopState vmctx
              (<[vmVirtualState vmctx := ApplyStateUpdate vs' su]>
                 (loopStore st))
              (loopUpdates st ++ [su]))
  end.

(** [for _, reqRef := range ctx.Requests { ... }]. *)
Fixpoint requestLoop (reqs : list RequestRef) (st : LoopState)
    : option LoopState :=
  match reqs with
  | [] => Some st
  | reqRef :: rest =>
      match loopBody st reqRef with
      | None => None
      | Some st' => requestLoop rest st'
      end
  end.

(** "calculate resulting state hash": clone the task's state object, apply
    the batch to the clone, hash the clone.  Yields the store, the clone's
    pointer and either the error of [ApplyBatch] or the hash. *)
Definition resultingStateHash (ctx : VMTask) (batch : Batch Mut)
    (σ : list VS) : option (list VS * nat * result HashValue) :=
  match σ !! VirtualState ctx with
  | None => None
  | Some vs =>
      let (σ, vsClone) := alloc σ vs in
      let (vs', err) := ApplyBatch vs batch in
      let σ := <[vsClone := vs']> σ in
      match err with
      | Some err => Some (σ, vsClone, Err err)
      | None => Some (σ, vsClone, Ok (Hash vs'))
      end
  end.

(** [ctx.OnFinish(err); return]. *)
Definition finish (ctx : VMTask) (σ : list VS) (err : option error)
    : option (VMTask * list VS * list Event) :=
  Some (ctx, σ, [EvOnFinish err]).

(** [runTask]: the task with its results, the store and the events (the
    one [OnFinish] call).  [None] is a panic: a call through a state
    pointer that is not in the store, or [MustState] on a result
    transaction without state block.  Of the two debug logs only what can
    panic is kept: the entry log reads the state index of the task's state,
    the exit log the timestamp of the result's state block.  The semantic
    check [Properties()] is [calcProperties]. *)
Definition runTask (ctx : VMTask) (txb : TxB) (σ : list VS)
    : option (VMTask * list VS * list Event) :=
  _ ← σ !! VirtualState ctx;
  '(created, σ) ← createVMContext ctx txb σ;
  match created with
  | Err err => finish ctx σ (Some ("createVMContext: " +:+ err))
  | Ok vmctx =>
      st ← requestLoop (Requests ctx) (mkLoopState vmctx σ []);
      let vmctx := loopCtx st in
      let σ := loopStore st in
      let stateUpdates := loopUpdates st in
      if bool_decide (length stateUpdates = 0%nat) then
        finish ctx σ (Some "RunVM: no state updates were produced")
      else
        match NewBatch stateUpdates with
        | Err err =>
            finish (set_results None (ResultTransaction ctx) ctx) σ
                   (Some ("RunVM: " +:+ err))
        | Ok batch =>
            vs ← σ !! VirtualState ctx;
            let batch := WithStateIndex (StateIndex vs + 1) batch in
            let ctx := set_results (Some batch) (ResultTransaction ctx) ctx in
            '(σ, vsClone, hashed) ← resultingStateHash ctx batch σ;
            match hashed with
            | Err err => finish ctx σ (Some ("RunVM: " +:+ err))
            | Ok stateHash =>
                vs ← σ !! VirtualState ctx;
                cloned ← σ !! vsClone;
                match SetStateParams (vmTxBuilder vmctx) (StateIndex vs + 1)
                        stateHash (Timestamp cloned) with
                | Err err =>
                    finish ctx σ
                      (Some ("RunVM.txbuilder.SetStateParams: " +:+ err))
                | Ok txb =>
                    match Build txb false with
                    | Err err =>
                        finish (set_results (ResultBatch ctx) None ctx) σ
                          (Some ("RunVM.txbuilder.Build: " +:+ err))
                    | Ok tx =>
                        let ctx :=
                          set_results (ResultBatch ctx) (Some tx) ctx in
                        match Sctransaction.calcProperties tx with
                        | Err err =>
                            finish ctx σ
                              (Some ("RunVM.txbuilder.Properties: " +:+ err))
                        | Ok _ =>
                            _ ← Sctransaction.State tx;
                            finish ctx σ None
                        end
                    end
                end
            end
        end
  end.

End Plugin.
End RunVMPlugin.

(** ** [packages/apilib/request.go] *)

Module Apilib.
Import Ledger.

(** The dynamic values an [interface{}] of the [Vars] map may hold: the
    thirteen types the type switch of [convertArgs] names ([byte] is
    [uint8]), Go's two remaining sized-or-native integer types, and values
    of any other type.  A value of one of the three pointer types is the
    nil pointer of that type ([None]) or points to a pointee ([Some]). *)
Inductive GoValue : Type :=
| VInt (n : Z)
| VByte (n : Z)
| VInt16 (n : Z)
| VInt32 (n : Z)
| VInt64 (n : Z)
| VUint16 (n : Z)
| VUint32 (n : Z)
| VUint64 (n : Z)
| VString (s : string)
| VBytes (b : list Byte.byte)
| VHashValue (p : option State.HashValue)
| VAddress (p : option Address)
| VColor (p : option Color)
| VInt8 (n : Z)
| VUint (n : Z)
| VBool (b : bool)
| VNil
| VOther (typeName : string).

(** The range of each integer type ([int] and [uint] are 64 bits wide). *)
Definition wellTyped (v : GoValue) : Prop :=
  match v with
  | VInt n | VInt64 n => Int64.in_range n
  | VByte n => 0 <= n < 2 ^ 8
  | VInt8 n => - 2 ^ 7 <= n < 2 ^ 7
  | VInt16 n => - 2 ^ 15 <= n < 2 ^ 15
  | VInt32 n => - 2 ^ 31 <= n < 2 ^ 31
  | VUint16 n => 0 <= n < 2 ^ 16
  | VUint32 n => 0 <= n < 2 ^ 32
  | VUint64 n | VUint n => 0 <= n <= Int64.max_unsigned
  | _ => True
  end.

(** Values of one of Go's integer types. *)
Definition isInteger (v : GoValue) : bool :=
  match v with
  | VInt _ | VByte _ | VInt8 _ | VInt16 _ | VInt32 _ | VInt64 _
  | VUint _ | VUint16 _ | VUint32 _ | VUint64 _ => true
  | _ => false
  end.

(** Values whose type is one of the cases of the type switch; a nil
    pointer of one of the three pointer types has such a type. *)
Definition recognized (v : GoValue) : bool :=
  match v with
  | VInt _ | VByte _ | VInt16 _ | VInt32 _ | VInt64 _
  | VUint16 _ | VUint32 _ | VUint64 _
  | VString _ | VBytes _ | VHashValue _ | VAddress _ | VColor _ => true
  | VInt8 _ | VUint _ | VBool _ | VNil | VOther _ => false
  end.

(** The nil pointers of the three pointer types of the switch. *)
Definition nilPointer (v : GoValue) : bool :=
  match v with
  | VHashValue None | VAddress None | VColor None => true
  | _ => false
  end.

(** The message of Go's run-time panic on the use of a nil pointer. *)
Definition nilDereference : string :=
  "runtime error: invalid memory address or nil pointer dereference".

(** Modelled from the spec: package [kv] is not among the sources.  The
    argument map of a request block takes a key to a typed value: a signed
    64-bit integer, a string, or raw bytes (ledger primitives are stored as
    their bytes). *)
Inductive ArgValue : Type :=
| AInt64 (n : Z)
| AString (s : string)
| ABytes (b : list Byte.byte).

(** The [len] bytes that spell [n], most significant first. *)
Fixpoint bytesOf (len : nat) (n : N) : list Byte.byte :=
  match len with
  | O => []
  | S k => bytesOf k (n / 256) ++ [default Byte.x00 (Byte.of_N (n mod 256))]
  end.

(** Modelled from the spec: the setters of the codec of package [kv], one
    per kind of typed value; a hash value is stored as its 32 bytes, which
    [SetHashValue] reads through the pointer it is given. *)
Definition SetInt64 (key : string) (n : Z) (args : gmap string ArgValue)
    : gmap string ArgValue := <[key := AInt64 n]> args.
Definition SetString (key : string) (s : string) (args : gmap string ArgValue)
    : gmap string ArgValue := <[key := AString s]> args.
Definition Set_ (key : string) (b : list Byte.byte)
    (args : gmap string ArgValue) : gmap string ArgValue :=
  <[key := ABytes b]> args.
Definition SetHashValue (key : string) (h : State.HashValue)
    (args : gmap string ArgValue) : gmap string ArgValue :=
  <[key := ABytes (bytesOf 32 h)]> args.

(** One pass of the [switch vt := v.(type)]: the map after the case taken,
    [Returns None] for [default: return nil], and the panic of the cases
    that read through a nil pointer ([vt.Bytes()] on a nil address or
    color, the 32 bytes of a nil hash value). *)
Definition convertArg (key : string) (v : GoValue)
    (args : gmap string ArgValue)
    : outcome (option (gmap string ArgValue)) :=
  match v with
  | VInt vt => Returns (Some (SetInt64 key (Int64.wrap vt) args))
  | VByte vt => Returns (Some (SetInt64 key (Int64.wrap vt) args))
  | VInt16 vt => Returns (Some (SetInt64 key (Int64.wrap vt) args))
  | VInt32 vt => Returns (Some (SetInt64 key (Int64.wrap vt) args))
  | VInt64 vt => Returns (Some (SetInt64 key vt args))
  | VUint16 vt => Returns (Some (SetInt64 key (Int64.wrap vt) args))
  | VUint32 vt => Returns (Some (SetInt64 key (Int64.wrap vt) args))
  | VUint64 vt => Returns (Some (SetInt64 key (Int64.wrap vt) args))
  | VString vt => Returns (Some (SetString key vt args))
  | VBytes vt => Returns (Some (Set_ key vt args))
  | VHashValue (Some vt) => Returns (Some (SetHashValue key vt args))
  | VHashValue None => Panics nilDereference
  | VAddress (Some vt) => Returns (Some (Set_ key (bytesOf 33 vt) args))
  | VAddress None => Panics nilDereference
  | VColor (Some vt) => Returns (Some (Set_ key (bytesOf 32 vt) args))
  | VColor None => Panics nilDereference
  | _ => Returns None
  end.

(** [for k, v := range vars { ... }] over the entries in the order the
    iteration yields them. *)
Fixpoint convertArgs_loop (entries : list (string * GoValue))
    (args : gmap string ArgValue)
    : outcome (option (gmap string ArgValue)) :=
  match entries with
  | [] => Returns (Some args)
  | (k, v) :: rest =>
      match convertArg k v args with
      | Panics msg => Panics msg
      | Returns None => Returns None
      | Returns (Some args) => convertArgs_loop rest args
      end
  end.

(** [convertArgs]; [Returns None] is the nil map. Go leaves the iteration
    order of a map open: [convertArgs_in] runs the loop in a given order,
    [convertArgs] in the order of [map_to_list]. *)
Definition convertArgs_in (entries : list (string * GoValue))
    : outcome (option (gmap string ArgValue)) :=
  convertArgs_loop entries ∅.

Definition convertArgs (vars : gmap string GoValue)
    : outcome (option (gmap string ArgValue)) :=
  convertArgs_in (map_to_list vars).

(** [TargetSCAddress] is a pointer: [None] is nil. *)
Record RequestBlockParams : Type := mkRequestBlockParams {
  TargetSCAddress : option Address;
  RequestCode : Z;
  Timelock : Z;
  Transfer : gmap N Z;
  Vars : gmap string GoValue
}.

(** [sctransaction.RequestBlock] as this file builds it. *)
Record RequestBlock : Type := mkRequestBlock {
  rbAddress : Address;
  rbRequestCode : Z;
  rbTimelock : Z;
  rbArgs : gmap string ArgValue
}.

Definition NewRequestBlock (addr : Address) (code : Z) : RequestBlock :=
  mkRequestBlock addr code 0 ∅.
Definition WithTimelock (tl : Z) (b : RequestBlock) : RequestBlock :=
  mkRequestBlock (rbAddress b) (rbRequestCode b) tl (rbArgs b).
Definition SetArgs (args : gmap string ArgValue) (b : RequestBlock)
    : RequestBlock :=
  mkRequestBlock (rbAddress b) (rbRequestCode b) (rbTimelock b) args.

Section Api.
Context {TxB Outs SigScheme Subscription : Type}.

(** [nodeclient.NodeClient]. *)
Record NodeClient : Type := mkNodeClient {
  GetConfirmedAccountOutputs : Address -> result Outs;
  PostTransaction : Sctransaction.Transaction -> option error;
  PostAndWaitForConfirmation : Sctransaction.Transaction -> option error
}.

Record CreateRequestTransactionParams : Type := mkParams {
  Client : NodeClient;
  SenderSigScheme : SigScheme;
  BlockParams : list RequestBlockParams;
  Post : bool;
  WaitForConfirmation : bool;
  WaitForCompletion : bool;
  PublisherHosts : list string;
  PublisherQuorum : Z;
  Timeout : Z
}.

(** The calls of [CreateRequestTransaction] to its collaborators, in the
    order it makes them: those that leave the process (ledger-node requests
    and the publisher subscription, [Net...]) and those to the transaction
    builder and the signature scheme ([Call...]). *)
Inductive NetEvent : Type :=
| NetGetConfirmedAccountOutputs (addr : Address)
| NetPostTransaction (tx : Sctransaction.Transaction)
| NetPostAndWaitForConfirmation (tx : Sctransaction.Transaction)
| NetSubscribeMulti (hosts : list string)
| NetWaitForPatterns (patterns : list (list string))
| NetClose
| CallNewFromOutputBalances
| CallAddRequestBlockWithTransfer (reqBlk : RequestBlock) (target : Address)
    (transfer : gmap N Z)
| CallBuild
| CallSign.

(** The signature scheme, package [txbuilder], package [subscribe] and the
    string conversions are not among the sources. *)
Context (SchemeAddress : SigScheme -> Address)
        (Sign : Sctransaction.Transaction -> SigScheme ->
                Sctransaction.Transaction)
        (NewFromOutputBalances : Outs -> result TxB)
        (AddRequestBlockWithTransfer :
           TxB -> RequestBlock -> Address -> gmap N Z -> result TxB)
        (Build : TxB -> bool -> result Sctransaction.Transaction)
        (SubscribeMulti : list string -> string -> Z -> result Subscription)
        (WaitForPatterns :
           Subscription -> list (list string) -> Z -> Z -> bool)
        (AddressString : Address -> string)
        (IDString : TransactionID -> string)
        (Itoa : nat -> string)
        (DurationString : Z -> string).

(** [for _, blockPar := range par.BlockParams { ... }]: the builder or the
    error the loop ends with, or its panic, and the builder calls made.
    [*blockPar.TargetSCAddress] panics on a nil target before the
    arguments are looked at. *)
Fixpoint addRequestBlocks (blocks : list RequestBlockParams) (txb : TxB)
    : outcome (result TxB) * list NetEvent :=
  match blocks with
  | [] => (Returns (Ok txb), [])
  | blockPar :: rest =>
      match TargetSCAddress blockPar with
      | None => (Panics nilDereference, [])
      | Some target =>
          let reqBlk :=
            WithTimelock (Timelock blockPar)
              (NewRequestBlock target (RequestCode blockPar)) in
          match convertArgs (Vars blockPar) with
          | Panics msg => (Panics msg, [])
          | Returns None => (Returns (Err "wrong arguments"), [])
          | Returns (Some args) =>
              let reqBlk := SetArgs args reqBlk in
              let called :=
                CallAddRequestBlockWithTransfer reqBlk target
                  (Transfer blockPar) in
              match AddRequestBlockWithTransfer txb reqBlk target
                      (Transfer blockPar) with
              | Err err => (Returns (Err err), [called])
              | Ok txb =>
                  let (res, calls) := addRequestBlocks rest txb in
                  (res, called :: calls)
              end
          end
      end
  end.

(** [patterns[i]] for the blocks from index [i] on;
    [TargetSCAddress.String()] panics on a nil target. *)
Fixpoint completionPatterns (blocks : list RequestBlockParams)
    (tx : Sctransaction.Transaction) (i : nat)
    : outcome (list (list string)) :=
  match blocks with
  | [] => Returns []
  | blockPar :: rest =>
      match TargetSCAddress blockPar with
      | None => Panics nilDereference
      | Some target =>
          match completionPatterns rest tx (S i) with
          | Panics msg => Panics msg
          | Returns patterns =>
              Returns (["request_out"; AddressString target;
                        IDString (Sctransaction.ID tx); Itoa i] :: patterns)
          end
      end
  end.

(** The part of [CreateRequestTransaction] after the semantic check:
    posting and waiting.  The deferred [subs.Close()] runs on every way
    out once the subscription is open, a panic included. *)
Definition postAndWait (par : CreateRequestTransactionParams)
    (tx : Sctransaction.Transaction)
    : outcome (result Sctransaction.Transaction) * list NetEvent :=
  if negb (Post par) then (Returns (Ok tx), [])
  else if negb (WaitForConfirmation par) then
    match PostTransaction (Client par) tx with
    | Some err => (Returns (Err err), [NetPostTransaction tx])
    | None => (Returns (Ok tx), [NetPostTransaction tx])
    end
  else
    let subscribed :=
      if WaitForCompletion par
      then match SubscribeMulti (PublisherHosts par) "request_out"
                   (PublisherQuorum par) with
           | Err err => Err err
           | Ok subs => Ok (Some subs)
           end
      else Ok None in
    match subscribed with
    | Err err => (Returns (Err err), [NetSubscribeMulti (PublisherHosts par)])
    | Ok subs =>
        let opened :=
          match subs with
          | Some _ => [NetSubscribeMulti (PublisherHosts par)]
          | None => []
          end in
        let closed :=
          match subs with Some _ => [NetClose] | None => [] end in
        match PostAndWaitForConfirmation (Client par) tx with
        | Some err =>
            (Returns (Err err),
             opened ++ [NetPostAndWaitForConfirmation tx] ++ closed)
        | None =>
            match subs with
            | Some subs =>
                match completionPatterns (BlockParams par) tx 0 with
                | Panics msg =>
                    (Panics msg,
                     opened ++ [NetPostAndWaitForConfirmation tx] ++ closed)
                | Returns patterns =>
                    if negb (WaitForPatterns subs patterns (Timeout par)
                               (PublisherQuorum par))
                    then
                      (Returns
                         (Err ("didn't receive completion message after "
                                 +:+ DurationString (Timeout par))),
                       opened ++ [NetPostAndWaitForConfirmation tx;
                                  NetWaitForPatterns patterns] ++ closed)
                    else
                      (Returns (Ok tx),
                       opened ++ [NetPostAndWaitForConfirmation tx;
                                  NetWaitForPatterns patterns] ++ closed)
                end
            | None =>
                (Returns (Ok tx),
                 opened ++ [NetPostAndWaitForConfirmation tx] ++ closed)
            end
        end
    end.

(** [CreateRequestTransaction]: what it returns, or its panic, and the
    calls it made, in order. *)
Definition CreateRequestTransaction (par : CreateRequestTransactionParams)
    : outcome (result Sctransaction.Transaction) * list NetEvent :=
  let senderAddr := SchemeAddress (SenderSigScheme par) in
  let fetched := [NetGetConfirmedAccountOutputs senderAddr] in
  match GetConfirmedAccountOutputs (Client par) senderAddr with
  | Err err =>
      (Returns (Err ("can't get outputs from the node: " +:+ err)), fetched)
  | Ok allOuts =>
      let events := fetched ++ [CallNewFromOutputBalances] in
      match NewFromOutputBalances allOuts with
      | Err err => (Returns (Err err), events)
      | Ok txb =>
          let (added, calls) := addRequestBlocks (BlockParams par) txb in
          let events := events ++ calls in
          match added with
          | Panics msg => (Panics msg, events)
          | Returns (Err err) => (Returns (Err err), events)
          | Returns (Ok txb) =>
              let events := events ++ [CallBuild] in
              match Build txb false with
              | Err err => (Returns (Err err), events)
              | Ok tx =>
                  let tx := Sign tx (SenderSigScheme par) in
                  let events := events ++ [CallSign] in
                  match Sctransaction.calcProperties tx with
                  | Err err => (Returns (Err err), events)
                  | Ok _ =>
                      let (res, posts) := postAndWait par tx in
                      (res, events ++ posts)
                  end
              end
          end
      end
  end.

End Api.
End Apilib.

(** ** The notions the statements below are phrased in *)

Module Notions.
Import Ledger State.

(** *** Transactions *)

(** The number of request blocks addressed to [a]. *)
Definition requestCount (reqs : list Sctransaction.RequestBlock)
    (a : Address) : Z :=
  Z.of_nat (length (filter (λ r, Sctransaction.rbAddress r = a) reqs)).

Definition sumZ (l : list Z) : Z := foldr Z.add 0 l.

(** The amount of new-color tokens that the outputs carry to [a], as the
    [int64] that holds the sum. *)
Definition mintedTo (outs : list (Address * list Balance)) (a : Address)
    : Z :=
  Int64.wrap
    (sumZ (map (λ out, BalanceOfColor out.2 ColorNew)
               (filter (λ out : Address * list Balance, out.1 = a) outs))).

(** The outputs that carry tokens of color [c], with the amount. *)
Definition outputsOfColor (tx : Sctransaction.Transaction) (c : Color)
    : list (Address * Z) :=
  map (λ out, (out.1, BalanceOfColor out.2 c))
      (filter (λ out : Address * list Balance, BalanceOfColor out.2 c ≠ 0)
              (Sctransaction.Outputs tx)).

(** The last element of a list, [d] for the empty list. *)
Definition last_default {A : Type} (d : A) (l : list A) : A :=
  default d (last l).

(** *** Timestamps *)

(** The timestamp after a request that ran at timestamp [t]: one more,
    unless [t] is zero. *)
Definition tick (t : Z) : Z :=
  if decide (t ≠ 0) then Int64.add t 1 else t.

(** *** The loop of the older plugin *)

Section VM.
Context {VS Mut TxB ResultTx Balances : Type} `{!VirtualState VS Mut}.
Context (EraseColor : TxB -> Address -> Color -> Z -> result TxB).

(** The loop state [runVM] starts from: the working clone is the newest
    object of the store. *)
Definition startState (ctx : @VMPlugin.VMTask Mut ResultTx Balances)
    (txbuilder : TxB) (σ : list VS) (orig : VS)
    : @VMPlugin.LoopState VS Mut TxB :=
  VMPlugin.mkLoopState
    (VMPlugin.mkVMContext (VMPlugin.TaskAddress ctx) (VMPlugin.TaskColor ctx)
       txbuilder (VMPlugin.TaskTimestamp ctx) (length σ) None None)
    (σ ++ [orig]) [].

(** [Processed ctx p reqs st st']: from [st], the loop body ran to its end
    for every request of [reqs], in order, and left [st']. *)
Inductive Processed (ctx : @VMPlugin.VMTask Mut ResultTx Balances)
    (processor : @VMPlugin.Processor VS Mut TxB)
    : list RequestRef -> @VMPlugin.LoopState VS Mut TxB ->
      @VMPlugin.LoopState VS Mut TxB -> Prop :=
| Processed_nil st : Processed ctx processor [] st st
| Processed_cons reqRef reqs st st' st'' :
    @VMPlugin.loopBody VS Mut TxB ResultTx Balances _ EraseColor ctx processor
      st reqRef = VMPlugin.Continue st' ->
    Processed ctx processor reqs st' st'' ->
    Processed ctx processor (reqRef :: reqs) st st''.

End VM.

(** *** The loop of the [RunVM] plugin *)

(** The working state pointer of a loop state is in its store. *)
Definition validLoopState {VS Mut TxB : Type}
    (st : @RunVMPlugin.LoopState VS Mut TxB) : Prop :=
  (RunVMPlugin.vmVirtualState (RunVMPlugin.loopCtx st)
   < length (RunVMPlugin.loopStore st))%nat.

(** *** Request arguments *)

(** The integer types that the type switch of [convertArgs] lists. *)
Definition switchInteger (v : Apilib.GoValue) : bool :=
  Apilib.isInteger v && Apilib.recognized v.

End Notions.

(** ** Further notions: totals, stored arguments, posting calls *)

Module Derived.
Import Ledger State Notions Apilib.



(** The transaction with its input addresses replaced. *)
Definition withInputs (addrs : list Address) (tx : Sctransaction.Transaction)
    : Sctransaction.Transaction :=
  Sctransaction.mkTransaction (Sctransaction.ID tx) addrs
    (Sctransaction.Outputs tx) (Sctransaction.State tx)
    (Sctransaction.Requests tx).

(** The [int64] total of the new color over all outputs. *)
Definition mintedTotal (outs : list (Address * list Balance)) : Z :=
  Int64.wrap (sumZ (map (λ out, BalanceOfColor out.2 ColorNew) outs)).

(** The number an integer value holds. *)
Definition intValue (v : GoValue) : Z :=
  match v with
  | VInt n | VByte n | VInt8 n | VInt16 n | VInt32 n | VInt64 n
  | VUint n | VUint16 n | VUint32 n | VUint64 n => n
  | _ => 0
  end.

(** The typed value that stands for a value of a recognized type in an
    argument map. *)
Definition stored (v : GoValue) : option ArgValue :=
  match v with
  | VInt n | VByte n | VInt16 n | VInt32 n | VUint16 n | VUint32 n
  | VUint64 n => Some (AInt64 (Int64.wrap n))
  | VInt64 n => Some (AInt64 n)
  | VString s => Some (AString s)
  | VBytes b => Some (ABytes b)
  | VHashValue (Some h) => Some (ABytes (bytesOf 32 h))
  | VAddress (Some a) => Some (ABytes (bytesOf 33 a))
  | VColor (Some c) => Some (ABytes (bytesOf 32 c))
  | _ => None
  end.

(** The values at which the loop of [convertArgs] ends: those of an
    unrecognized type and the nil pointers. *)
Definition stops (v : GoValue) : bool := negb (recognized v) || nilPointer v.

(** The calls that leave the process. *)
Definition isNet (e : NetEvent) : bool :=
  match e with
  | NetGetConfirmedAccountOutputs _ | NetPostTransaction _
  | NetPostAndWaitForConfirmation _ | NetSubscribeMulti _
  | NetWaitForPatterns _ | NetClose => true
  | _ => false
  end.

(** The calls that hand a transaction to the ledger node. *)
Definition isPost (e : NetEvent) : bool :=
  match e with
  | NetPostTransaction _ | NetPostAndWaitForConfirmation _ => true
  | _ => false
  end.

(** The transaction a posting call hands over. *)
Definition posted (e : NetEvent) : option Sctransaction.Transaction :=
  match e with
  | NetPostTransaction tx | NetPostAndWaitForConfirmation tx => Some tx
  | _ => None
  end.

End Derived.

(** ** Concrete transactions, states and collaborators

    Small instances of the types and interfaces above, on which the
    theorems below are exercised. *)

Module Scenario.
Import Ledger State.

(** *** Transactions *)

(** A state transaction of chain color 9 sent from address 5 whose outputs
    carry no token of color 9 at all. *)
Definition txNoStateToken : Sctransaction.Transaction :=
  Sctransaction.mkTransaction 77%N [5%N]
    [(5%N, [mkBalance 3 0%N])]
    (Some (Sctransaction.mkStateBlock 9%N 1 0)) [].

(** The same, with the one token of color 9 sent to address 6 and another
    output back to the sender 5. *)
Definition txStateTokenElsewhere : Sctransaction.Transaction :=
  Sctransaction.mkTransaction 77%N [5%N]
    [(6%N, [mkBalance 1 9%N]); (5%N, [mkBalance 3 0%N])]
    (Some (Sctransaction.mkStateBlock 9%N 1 0)) [].

(** A well-formed state transaction: the token of color 9 returns to 5. *)
Definition txState : Sctransaction.Transaction :=
  Sctransaction.mkTransaction 77%N [5%N]
    [(5%N, [mkBalance 1 9%N; mkBalance 3 0%N])]
    (Some (Sctransaction.mkStateBlock 9%N 1 0)) [].

Definition txStateProperties : Sctransaction.Properties :=
  Sctransaction.mkProperties 5%N true false 5%N 9%N ∅ 0.

(** An origin transaction: state block of the new color, two tokens
    minted to address 6, one request to 6. *)
Definition txOrigin : Sctransaction.Transaction :=
  Sctransaction.mkTransaction 79%N [5%N]
    [(6%N, [mkBalance 2 ColorNew]); (5%N, [mkBalance 3 0%N])]
    (Some (Sctransaction.mkStateBlock ColorNew 0 0))
    [Sctransaction.mkRequestBlock 6%N 1].

Definition txOriginProperties : Sctransaction.Properties :=
  Sctransaction.mkProperties 5%N true true 6%N 79%N {[6%N := 2]} 2.

(** Two input addresses. *)
Definition txTwoSenders : Sctransaction.Transaction :=
  Sctransaction.mkTransaction 80%N [5%N; 6%N]
    [(5%N, [mkBalance 1 9%N])]
    (Some (Sctransaction.mkStateBlock 9%N 1 0)) [].

(** Neither state block nor request block. *)
Definition txPlain : Sctransaction.Transaction :=
  Sctransaction.mkTransaction 81%N [5%N] [(6%N, [mkBalance 3 0%N])] None [].

(** Three requests to contract 6, with [minted] new tokens sent to it. *)
Definition txRequests (minted : Z) : Sctransaction.Transaction :=
  Sctransaction.mkTransaction 78%N [5%N]
    [(6%N, [mkBalance minted ColorNew]); (5%N, [mkBalance 3 0%N])]
    None
    [Sctransaction.mkRequestBlock 6%N 1; Sctransaction.mkRequestBlock 6%N 2;
     Sctransaction.mkRequestBlock 6%N 3].


(** Three funded requests to contract 6 in a transaction without input
    address. *)
Definition txNoInputs : Sctransaction.Transaction :=
  Sctransaction.mkTransaction 83%N []
    [(6%N, [mkBalance 3 ColorNew])]
    None
    [Sctransaction.mkRequestBlock 6%N 1; Sctransaction.mkRequestBlock 6%N 2;
     Sctransaction.mkRequestBlock 6%N 3].

(** The request with index 0 of a transaction with id [id]. *)
Definition request (id : TransactionID) : RequestRef :=
  mkRequestRef (Sctransaction.mkTransaction id [5%N] [] None
                  [Sctransaction.mkRequestBlock 6%N 1]) 0.

(** *** A virtual state that logs what is applied to it *)

Record LogState : Type := mkLogState {
  lsIndex : Z;
  lsTimestamp : Z;
  lsApplied : list RequestId
}.

Definition logApply (vs : LogState) (su : StateUpdate unit) : LogState :=
  mkLogState (lsIndex vs) (suTimestamp su) (lsApplied vs ++ [suRequestId su]).

Definition logApplyBatch (vs : LogState) (b : Batch unit)
    : LogState * option error :=
  if decide (batchStateIndex b = lsIndex vs + 1)
  then (foldl logApply
          (mkLogState (lsIndex vs + 1) (lsTimestamp vs) (lsApplied vs))
          (batchUpdates b), None)
  else (vs, Some "batch is not for the next state index").

Definition logHash (vs : LogState) : HashValue :=
  (Z.to_N (lsIndex vs) * 1000 + N.of_nat (length (lsApplied vs)))%N.

#[export] Instance logState_VirtualState : VirtualState LogState unit := {|
  StateIndex := lsIndex;
  Timestamp := lsTimestamp;
  Hash := logHash;
  ApplyStateUpdate := logApply;
  ApplyBatch := logApplyBatch
|}.

Definition genesis : LogState := mkLogState 0 0 [].

(** *** Collaborators of the older [VM] plugin *)

(** A builder that only tracks the token balance per color. *)
Definition eraseColor (txb : gmap N Z) (addr : Address) (color : Color)
    (amount : Z) : result (gmap N Z) :=
  let have := default 0 (txb !! color) in
  if decide (amount <= have) then Ok (<[color := have - amount]> txb)
  else Err "not enough balance".

Definition finalize (txb : gmap N Z) (idx : Z) (h : HashValue)
    : Z * HashValue := (idx, h).

(** A processor that leaves the state update it was handed. *)
Definition echoProcessor : @VMPlugin.Processor LogState unit (gmap N Z) :=
  λ vmctx vs,
    (VMPlugin.vmTxBuilder vmctx, vs,
     default (NewStateUpdate (0%N, 0)) (VMPlugin.vmStateUpdate vmctx)).

Definition vmTask (reqs : list RequestRef)
    : @VMPlugin.VMTask unit (Z * HashValue) (gmap N Z) :=
  VMPlugin.mkVMTask "KSoWFbHwZuHG8B8HVcYVKR4WYVQ7MpoqeaXgKWfkBMF" 5%N 9%N
    {[101%N := 1; 102%N := 1]} reqs 1000 0%nat None None.

(** Tokens of the requests 101 and 102 only. *)
Definition twoTokens : gmap N Z := {[101%N := 1; 102%N := 1]}.

Definition registry : gmap string (@VMPlugin.Processor LogState unit (gmap N Z)) :=
  {["KSoWFbHwZuHG8B8HVcYVKR4WYVQ7MpoqeaXgKWfkBMF" := echoProcessor]}.

(** A builder made of the balances as they are, constant names, and a
    daemon that takes every worker. *)
Definition newTxBuilder (balances : gmap N Z) (color : Color)
    (addr : Address) : result (gmap N Z) := Ok balances.
Definition addressName (addr : Address) : string := "chain".
Definition batchHash (reqids : list RequestId) (timestamp : Z) : HashValue :=
  N.of_nat (length reqids).
Definition hashName (h : HashValue) : string := "batch".
Definition backgroundWorker (name : string) : option error := None.

(** *** Collaborators of the [RunVM] plugin *)

Definition newFromAddressBalances (addr : Address) (balances : unit)
    : result unit := Ok tt.
Definition balancesToString (balances : unit) : string := "none".
Definition batchHashLeader (reqids : list RequestId) (timestamp leader : Z)
    : HashValue := N.of_nat (length reqids).
Definition keepBuilder (ctx : @RunVMPlugin.VMTask unit unit) (txb : unit)
    : result unit := Ok txb.
Definition setStateParams (txb : unit) (idx : Z) (h : HashValue)
    (timestamp : Z) : result unit := Ok txb.
Definition buildState (txb : unit) (validate : bool)
    : result Sctransaction.Transaction := Ok txState.

Definition echoRequest
    : @RunVMPlugin.VMContext unit unit -> LogState ->
      unit * LogState * StateUpdate unit :=
  λ vmctx vs,
    (tt, vs, default (NewStateUpdate (0%N, 0)) (RunVMPlugin.vmStateUpdate vmctx)).

Definition runVMTask (timestamp : Z) (reqs : list RequestRef)
    : @RunVMPlugin.VMTask unit unit :=
  RunVMPlugin.mkVMTask 5%N tt reqs timestamp 0 7%N 0%nat None None.

(** The loop state [runTask] starts from for a task at [timestamp]. *)
Definition runVMStart (timestamp : Z)
    : @RunVMPlugin.LoopState LogState unit unit :=
  RunVMPlugin.mkLoopState
    (RunVMPlugin.mkVMContext 5%N tt timestamp 7%N 1%nat None None)
    [genesis; genesis] [].

(** *** Collaborators of the request API *)

Definition nodeClient : @Apilib.NodeClient (gmap N Z) :=
  Apilib.mkNodeClient (λ _, Ok twoTokens) (λ _, None) (λ _, None).

Definition schemeAddress (scheme : Address) : Address := scheme.
Definition sign (tx : Sctransaction.Transaction) (scheme : Address)
    : Sctransaction.Transaction := tx.
Definition newFromOutputBalances (outs : gmap N Z) : result (gmap N Z) :=
  Ok outs.
Definition addRequestBlockWithTransfer (txb : gmap N Z)
    (reqBlk : Apilib.RequestBlock) (target : Address) (transfer : gmap N Z)
    : result (gmap N Z) := Ok txb.
Definition buildRequest (txb : gmap N Z) (validate : bool)
    : result Sctransaction.Transaction := Ok (txRequests 3).
Definition subscribeMulti (hosts : list string) (topic : string)
    (quorum : Z) : result unit := Ok tt.
Definition waitForPatterns (subs : unit) (patterns : list (list string))
    (timeout quorum : Z) : bool := true.
Definition addressString (addr : Address) : string := "address".
Definition idString (id : TransactionID) : string := "id".
Definition itoa (i : nat) : string := "i".
Definition durationString (d : Z) : string := "d".

Definition requestParams (vars : gmap string Apilib.GoValue)
    : @Apilib.CreateRequestTransactionParams (gmap N Z) Address :=
  Apilib.mkParams nodeClient 5%N
    [Apilib.mkRequestBlockParams (Some 6%N) 1 0 ∅ vars]
    true false false [] 0 0.

End Scenario.

(** * Theorems *)

(** ** Transaction properties *)

Module PropertiesTheory.
Import Ledger Sctransaction Notions Derived.

(** *** Counting requests *)

Lemma numReqByAddr_snoc reqs r :
  numReqByAddr (reqs ++ [r]) = countRequest (numReqByAddr reqs) r.
Proof. unfold numReqByAddr. by rewrite foldl_snoc. Qed.

Lemma requestCount_snoc reqs r a :
  requestCount (reqs ++ [r]) a =
    requestCount reqs a + (if decide (rbAddress r = a) then 1 else 0).
Proof.
  unfold requestCount. rewrite filter_app, length_app.
  destruct (decide (rbAddress r = a)).
  - rewrite filter_cons_True by done. simpl. lia.
  - rewrite filter_cons_False by done. simpl. lia.
Qed.

Lemma requestCount_bounds reqs a :
  0 <= requestCount reqs a <= Z.of_nat (length reqs).
Proof.
  unfold requestCount.
  pose proof (length_filter (λ r, rbAddress r = a) reqs). lia.
Qed.

Lemma requestCount_pos reqs a :
  a ∈ map rbAddress reqs <-> 0 < requestCount reqs a.
Proof.
  unfold requestCount. induction reqs as [|r reqs IH].
  - cbn. split; [by intros ?%elem_of_nil | lia].
  - cbn [map]. rewrite elem_of_cons.
    destruct (decide (rbAddress r = a)) as [Heq|Hne].
    + rewrite filter_cons_True by done. cbn [length]. split; [lia | auto].
    + rewrite filter_cons_False by done. rewrite <- IH. intuition congruence.
Qed.

(** A slice holds fewer than [2^63] blocks, so the [int64] counters of
    [numReqByAddr] never wrap: the map holds the exact count of every
    target and no entry for any other address. *)
Lemma numReqByAddr_lookup reqs a :
  Z.of_nat (length reqs) <= Int64.max_signed ->
  numReqByAddr reqs !! a =
    if decide (requestCount reqs a = 0) then None
    else Some (requestCount reqs a).
Proof.
  induction reqs as [|r reqs IH] using rev_ind; intros Hlen.
  - done.
  - rewrite length_app in Hlen. simpl in Hlen.
    rewrite numReqByAddr_snoc, requestCount_snoc. unfold countRequest.
    pose proof (requestCount_bounds reqs a) as Hb.
    destruct (decide (rbAddress r = a)) as [->|Hne].
    + rewrite lookup_insert_eq, IH by lia.
      rewrite (decide_False (P := requestCount reqs a + 1 = 0)) by lia.
      f_equal. unfold Int64.add.
      assert (default 0 (if decide (requestCount reqs a = 0) then None
                         else Some (requestCount reqs a)) = requestCount reqs a)
        as -> by (case_decide; simpl; lia).
      apply Int64.wrap_id.
      unfold Int64.in_range, Int64.min_signed, Int64.max_signed in *. lia.
    + rewrite lookup_insert_ne by done. rewrite IH by lia.
      by rewrite Z.add_0_r.
Qed.

(** *** Minted tokens *)

Lemma sumZ_app l k : sumZ (l ++ k) = sumZ l + sumZ k.
Proof. unfold sumZ. induction l as [|x l IH]; cbn [app foldr]; lia. Qed.

Lemma mintedTo_snoc outs out a :
  mintedTo (outs ++ [out]) a =
    if decide (out.1 = a)
    then Int64.add (mintedTo outs a) (BalanceOfColor out.2 ColorNew)
    else mintedTo outs a.
Proof.
  unfold mintedTo. rewrite filter_app.
  destruct (decide (out.1 = a)).
  - rewrite filter_cons_True by done. rewrite filter_nil, map_app, sumZ_app.
    unfold Int64.add. rewrite Int64.wrap_wrap_add.
    f_equal. unfold sumZ at 2. cbn [map foldr]. lia.
  - rewrite filter_cons_False by done. by rewrite filter_nil, app_nil_r.
Qed.

(** The map built by [countMintedTokens] holds, for every address, the
    minted amount (0 where there is no entry). *)
Lemma foldl_countMinted_lookup outs prop0 a :
  numMintedTokensByAddr prop0 = ∅ ->
  default 0 (numMintedTokensByAddr
               (foldl countMintedTokens_visit prop0 outs) !! a)
  = mintedTo outs a.
Proof.
  intros H0. induction outs as [|out outs IH] using rev_ind.
  - cbn. by rewrite H0, lookup_empty.
  - rewrite foldl_snoc, mintedTo_snoc.
    unfold countMintedTokens_visit at 1.
    set (prop := foldl countMintedTokens_visit prop0 outs) in *.
    destruct (decide (BalanceOfColor out.2 ColorNew = 0)) as [Hz|Hnz].
    + rewrite Hz, IH. case_decide; [|done].
      unfold Int64.add, mintedTo. by rewrite Z.add_0_r, Int64.wrap_idem.
    + cbn [numMintedTokensByAddr set_minted].
      case_decide as Ha.
      * rewrite <- Ha, lookup_insert_eq. cbn. by rewrite Ha, IH.
      * by rewrite lookup_insert_ne.
Qed.

Lemma countMintedTokens_lookup prop tx a :
  default 0 (numMintedTokensByAddr (countMintedTokens prop tx) !! a)
  = mintedTo (Outputs tx) a.
Proof. unfold countMintedTokens. by apply foldl_countMinted_lookup. Qed.

(** *** The stages of the analysis *)


Lemma scTokenScan_minted outs prop v :
  numMintedTokensByAddr (scTokenScan outs prop v).1
  = numMintedTokensByAddr prop.
Proof.
  revert prop v.
  induction outs as [|[addr bals] outs IH]; intros prop v; [done|].
  cbn [scTokenScan]. case_decide; [done|]. by rewrite IH.
Qed.


Lemma analyzeStateBlock_minted prop tx :
  numMintedTokensByAddr (analyzeStateBlock prop tx).1
  = numMintedTokensByAddr prop.
Proof.
  unfold analyzeStateBlock. destruct (State tx) as [sb|]; [|done].
  case_decide.
  - pose proof (scTokenScan_minted (Outputs tx)
                  (set_stateColor (sbColor sb) (set_isState true prop)) 0) as H1.
    destruct (scTokenScan _ _ _) as [p [e|]]; [done|].
    by case_decide.
  - by case_decide.
Qed.


Lemma requestTokenCheck_Some minted entries :
  requestTokenCheck minted entries = Some errRequestTokens <->
  exists a n, (a, n) ∈ entries /\ default 0 (minted !! a) < n.
Proof.
  induction entries as [|[a n] entries IH]; cbn [requestTokenCheck].
  - split; [done|]. by intros (? & ? & ?%elem_of_nil & _).
  - case_decide as Hlt.
    + split; [|done]. intros _. exists a, n. split; [left|done].
    + rewrite IH. split.
      * intros (a' & n' & Hin & Hlt'). exists a', n'. split; [by right|done].
      * intros (a' & n' & Hin & Hlt'). apply elem_of_cons in Hin as [Heq|Hin].
        -- congruence.
        -- eauto.
Qed.

Lemma requestTokenCheck_cases minted entries :
  requestTokenCheck minted entries = None \/
  requestTokenCheck minted entries = Some errRequestTokens.
Proof.
  induction entries as [|[a n] entries IH]; cbn [requestTokenCheck]; [by left|].
  case_decide; [by right|done].
Qed.

(** The verdict of the token check does not depend on the order in which
    Go iterates over [numReqByAddr]. *)
Lemma requestTokenCheck_perm minted entries entries' :
  entries ≡ₚ entries' ->
  requestTokenCheck minted entries = requestTokenCheck minted entries'.
Proof.
  intros Hp.
  destruct (requestTokenCheck_cases minted entries) as [Hn|Hs],
           (requestTokenCheck_cases minted entries') as [Hn'|Hs'];
    try congruence.
  - apply requestTokenCheck_Some in Hs' as (a & n & Hin & Hlt).
    rewrite <- Hp in Hin.
    assert (requestTokenCheck minted entries = Some errRequestTokens)
      by (apply requestTokenCheck_Some; eauto).
    congruence.
  - apply requestTokenCheck_Some in Hs as (a & n & Hin & Hlt).
    rewrite Hp in Hin.
    assert (requestTokenCheck minted entries' = Some errRequestTokens)
      by (apply requestTokenCheck_Some; eauto).
    congruence.
Qed.

(** What the last stage decides once the transaction has a request block. *)
Lemma analyzeRequestBlocks_nonempty prop tx :
  Requests tx ≠ [] ->
  analyzeRequestBlocks prop tx = (prop, Some errOriginTargets) \/
  analyzeRequestBlocks prop tx =
    (prop, requestTokenCheck (numMintedTokensByAddr prop)
             (map_to_list (numReqByAddr (Requests tx)))).
Proof.
  intros Hne. unfold analyzeRequestBlocks.
  rewrite bool_decide_eq_false_2
    by (destruct (Requests tx); [done | cbn; lia]).
  rewrite andb_false_r.
  destruct (isOrigin prop); [|by right].
  repeat case_decide; auto.
Qed.

(** *** The accessors *)

(** C1. For every [Properties] value that [calcProperties] computes from a
    transaction, [IsOrigin()] returns what [IsState()] returns: both read
    the field [isState]. *)
Theorem C1_IsOrigin_returns_IsState (tx : Transaction) (prop : Properties) :
  calcProperties tx = Ok prop -> IsOrigin prop = IsState prop.
Proof. intros _. reflexivity. Qed.

(** On the state transaction [txState], which is no origin transaction
    (its field [isOrigin] is false), [IsOrigin()] answers true like
    [IsState()]. *)
Lemma C1_witness :
  IsOrigin Scenario.txStateProperties = IsState Scenario.txStateProperties /\
  IsOrigin Scenario.txStateProperties = true /\
  isOrigin Scenario.txStateProperties = false.
Proof.
  split; [|split; reflexivity].
  apply (C1_IsOrigin_returns_IsState Scenario.txState).
  vm_compute. reflexivity.
Defined.

(** C8. On a [Properties] value with [IsState()] false, [MustStateAddress]
    and [MustStateColor] panic; with [IsState()] true they return the state
    address and the state color. *)
Theorem C8_state_accessors_panic_unless_state (prop : Properties) :
  (IsState prop = false ->
   MustStateAddress prop
     = Panics "MustStateAddress: must be a state transaction" /\
   MustStateColor prop
     = Panics "MustStateColor: must be a state transaction") /\
  (IsState prop = true ->
   MustStateAddress prop = Returns (stateAddress prop) /\
   MustStateColor prop = Returns (stateColor prop)).
Proof.
  unfold IsState, MustStateAddress, MustStateColor.
  split; intros ->; split; reflexivity.
Qed.

Lemma C8_witness :
  (MustStateAddress emptyProperties
     = Panics "MustStateAddress: must be a state transaction" /\
   MustStateColor emptyProperties
     = Panics "MustStateColor: must be a state transaction") /\
  (MustStateAddress Scenario.txStateProperties = Returns 5%N /\
   MustStateColor Scenario.txStateProperties = Returns 9%N).
Proof.
  split.
  - apply (proj1 (C8_state_accessors_panic_unless_state emptyProperties)).
    reflexivity.
  - apply (proj2 (C8_state_accessors_panic_unless_state
                    Scenario.txStateProperties)).
    reflexivity.
Defined.

(** *** The state token *)

(** What the scan does enforce: when it accepts, the [int64] total of the
    state color over all outputs is at most one (zero included), and the
    address it leaves in [stateAddress] is that of the last output, whatever
    that output carries. *)
Lemma scTokenScan_accepts outs prop v p :
  Int64.in_range v -> v <= 1 ->
  scTokenScan outs prop v = (p, None) ->
  Int64.wrap
    (v + sumZ (map (λ out, BalanceOfColor out.2 (stateColor prop)) outs)) <= 1 /\
  stateAddress p = last_default (stateAddress prop) (map fst outs).
Proof.
  revert prop v.
  induction outs as [|[addr bals] outs IH]; intros prop v Hr Hv;
    cbn [scTokenScan map sumZ foldr].
  - intros [= <-]. rewrite Z.add_0_r, Int64.wrap_id by done. by split.
  - case_decide as Hlt; [done|]. intros Hscan.
    apply IH in Hscan as [Htot Haddr];
      [|apply Int64.wrap_in_range|lia].
    cbn [stateColor set_stateAddress stateAddress] in *.
    unfold Int64.add in Htot. rewrite Int64.wrap_wrap_add in Htot.
    rewrite Z.add_assoc. split; [done|].
    rewrite Haddr. unfold last_default.
    destruct outs as [|[a' b'] outs']; cbn [map fst]; [done|].
    rewrite !last_cons. by destruct (last (map fst outs')).
Qed.

(** C2, evaluated. The analysis accepts a state transaction of color 9
    whose outputs carry no token of color 9, and one whose only token of
    color 9 goes to address 6 while the sender is 5: the scan only bounds
    the running total by one and records the address of the last output it
    visited, whatever that output carries. *)
Lemma C2_state_token_rule_not_enforced :
  (calcProperties Scenario.txNoStateToken = Ok Scenario.txStateProperties /\
   outputsOfColor Scenario.txNoStateToken 9%N = []) /\
  (calcProperties Scenario.txStateTokenElsewhere
     = Ok Scenario.txStateProperties /\
   outputsOfColor Scenario.txStateTokenElsewhere 9%N = [(6%N, 1)] /\
   sender Scenario.txStateProperties = 5%N).
Proof. vm_compute. repeat split. Qed.

Lemma numReqByAddr_is_Some reqs a :
  is_Some (numReqByAddr reqs !! a) <-> a ∈ map rbAddress reqs.
Proof.
  induction reqs as [|r reqs IH] using rev_ind.
  - cbn. rewrite lookup_empty. split; [by intros [? ?] | by intros ?%elem_of_nil].
  - rewrite numReqByAddr_snoc, map_app. cbn [map]. unfold countRequest.
    rewrite elem_of_app, list_elem_of_singleton, <- IH.
    destruct (decide (rbAddress r = a)) as [->|Hne].
    + rewrite lookup_insert_eq. split; [by right | by eauto].
    + rewrite lookup_insert_ne by done. split; [by left|]. by intros [?|?].
Qed.





(** *** Request tokens *)




Lemma analyzeSender_loop_fields addrs prop found :
  let p := (analyzeSender_loop addrs prop found).1 in
  isState p = isState prop /\ isOrigin p = isOrigin prop /\
  stateAddress p = stateAddress prop /\ stateColor p = stateColor prop /\
  numMintedTokensByAddr p = numMintedTokensByAddr prop.
Proof.
  revert prop found. induction addrs as [|a addrs IH]; intros prop found; cbn.
  - done.
  - destruct found; [done|]. apply (IH (set_sender a prop) true).
Qed.

Lemma countMintedTokens_visit_fields prop out :
  let p := countMintedTokens_visit prop out in
  sender p = sender prop /\ isState p = isState prop /\
  isOrigin p = isOrigin prop /\ stateAddress p = stateAddress prop /\
  stateColor p = stateColor prop.
Proof. unfold countMintedTokens_visit. by case_decide. Qed.

Lemma countMintedTokens_fields prop tx :
  let p := countMintedTokens prop tx in
  sender p = sender prop /\ isState p = isState prop /\
  isOrigin p = isOrigin prop /\ stateAddress p = stateAddress prop /\
  stateColor p = stateColor prop.
Proof.
  unfold countMintedTokens.
  assert (forall outs p0,
            let p := foldl countMintedTokens_visit p0 outs in
            sender p = sender p0 /\ isState p = isState p0 /\
            isOrigin p = isOrigin p0 /\ stateAddress p = stateAddress p0 /\
            stateColor p = stateColor p0) as Hfold.
  { induction outs as [|out outs IH]; intros p0; [done|]. cbn [foldl].
    destruct (IH (countMintedTokens_visit p0 out)) as (-> & -> & -> & -> & ->).
    apply countMintedTokens_visit_fields. }
  apply (Hfold (Outputs tx) (set_minted ∅ (numMintedTokens prop) prop)).
Qed.

Lemma scTokenScan_fields outs prop v :
  let p := (scTokenScan outs prop v).1 in
  sender p = sender prop /\ isState p = isState prop /\
  isOrigin p = isOrigin prop /\ stateColor p = stateColor prop.
Proof.
  revert prop v. induction outs as [|[a b] outs IH]; intros prop v; [done|].
  cbn [scTokenScan]. case_decide; [done|].
  apply (IH (set_stateAddress a prop)).
Qed.

Lemma analyzeRequestBlocks_prop prop tx :
  (analyzeRequestBlocks prop tx).1 = prop.
Proof.
  unfold analyzeRequestBlocks.
  repeat (case_match; try done).
Qed.

(** *** Further properties of the analysis *)

(** More than one input address: the analysis fails with the error of
    [analyzeSender]. *)
Theorem calcProperties_multiple_inputs (tx : Transaction) :
  (2 <= length (Inputs tx))%nat -> calcProperties tx = Err errOneInput.
Proof.
  intros Hlen. unfold calcProperties, analyzeSender.
  destruct (Inputs tx) as [|a [|b rest]]; cbn in Hlen; try lia.
  reflexivity.
Qed.

(** Neither state block nor request block: the analysis fails. *)
Theorem calcProperties_empty_transaction (tx : Transaction) :
  (length (Inputs tx) <= 1)%nat -> State tx = None -> Requests tx = [] ->
  calcProperties tx = Err errNoStateNoRequest.
Proof.
  intros Hlen Hs Hr. unfold calcProperties, analyzeSender.
  destruct (Inputs tx) as [|a [|b rest]]; cbn in Hlen; try lia;
    cbn [analyzeSender_loop];
    unfold analyzeStateBlock, analyzeRequestBlocks; rewrite Hs, Hr; reflexivity.
Qed.

(** What the analysis does enforce of the state token when it accepts a
    state transaction of an assigned color. *)
Theorem calcProperties_state_token (tx : Transaction) sb prop :
  State tx = Some sb -> sbColor sb ≠ ColorNew ->
  calcProperties tx = Ok prop ->
  Int64.wrap (sumZ (map (λ out, BalanceOfColor out.2 (sbColor sb))
                        (Outputs tx))) <= 1 /\
  isState prop = true /\ isOrigin prop = false /\
  stateColor prop = sbColor sb /\
  stateAddress prop = sender prop /\
  stateAddress prop = last_default zeroAddress (map fst (Outputs tx)).
Proof.
  intros Hs Hc. unfold calcProperties, analyzeSender.
  pose proof (analyzeSender_loop_fields (Inputs tx) emptyProperties false) as Hf1.
  destruct (analyzeSender_loop _ _ _) as [p1 [e|]]; [done|]. cbn in Hf1.
  destruct Hf1 as (_ & Ho1 & Ha1 & _).
  pose proof (countMintedTokens_fields p1 tx) as (_ & _ & Ho2 & Ha2 & _).
  unfold analyzeStateBlock. rewrite Hs. rewrite decide_True by done.
  set (p3 := set_stateColor _ _).
  pose proof (scTokenScan_fields (Outputs tx) p3 0) as Hf3.
  pose proof (scTokenScan_accepts (Outputs tx) p3 0) as Hacc.
  destruct (scTokenScan (Outputs tx) p3 0) as [p4 [e|]]; [done|].
  cbn in Hf3. destruct Hf3 as (Hse & Hst & Hor & Hco).
  case_decide as Hne; [done|].
  pose proof (analyzeRequestBlocks_prop p4 tx) as Hf5.
  destruct (analyzeRequestBlocks p4 tx) as [p5 [e|]]; [done|]. cbn in Hf5.
  intros [= <-]. subst p5.
  destruct (Hacc p4) as [Htot Haddr]; [by vm_compute | lia | done |].
  cbn in Htot. rewrite Z.add_0_l in Htot.
  split; [done|]. split; [by rewrite Hst|]. split.
  { rewrite Hor. cbn. by rewrite Ho2, Ho1. }
  split; [by rewrite Hco|]. split.
  { destruct (decide (stateAddress p4 = sender p4)); [done|]. by destruct Hne. }
  rewrite Haddr. cbn. by rewrite Ha2, Ha1.
Qed.

(** What the analysis enforces when it accepts an origin transaction. *)
Theorem calcProperties_origin (tx : Transaction) sb prop :
  State tx = Some sb -> sbColor sb = ColorNew ->
  calcProperties tx = Ok prop ->
  isState prop = true /\ isOrigin prop = true /\
  stateColor prop = ID tx /\
  (size (numMintedTokensByAddr prop) <= 1)%nat /\
  (forall r, r ∈ Requests tx -> rbAddress r = stateAddress prop).
Proof.
  intros Hs Hc. unfold calcProperties.
  destruct (analyzeSender emptyProperties tx) as [p1 [e|]]; [done|].
  unfold analyzeStateBlock. rewrite Hs, Hc.
  rewrite decide_False by (by intros ?).
  case_decide as Hsize; [done|].
  set (p3 := set_stateColor _ _).
  pose proof (analyzeRequestBlocks_prop p3 tx) as Hp.
  destruct (analyzeRequestBlocks p3 tx) as [p4 [e|]] eqn:Hreq; [done|].
  cbn in Hp. subst p4. intros [= <-].
  split; [done|]. split; [done|]. split; [done|].
  split; [cbn in Hsize |- *; lia|].
  intros r Hr. unfold analyzeRequestBlocks in Hreq. cbn [isState isOrigin p3 set_stateColor set_isOrigin] in Hreq.
  cbn [negb andb] in Hreq.
  case_bool_decide as Hlen.
  { destruct (Requests tx); [by apply elem_of_nil in Hr | done]. }
  case_decide as Hone; [done|].
  case_decide as Hin; [|done].
  assert (size (numReqByAddr (Requests tx)) = 1%nat) as Hone'
    by (destruct (decide (size (numReqByAddr (Requests tx)) = 1%nat)); [done|by destruct Hone]).
  rewrite <- size_dom in Hone'.
  apply (size_singleton_inv _ _ _ Hone').
  - apply elem_of_dom, numReqByAddr_is_Some.
    apply list_elem_of_In, in_map, list_elem_of_In, Hr.
  - by apply elem_of_dom.
Qed.

Lemma calcProperties_multiple_inputs_witness :
  calcProperties Scenario.txTwoSenders = Err errOneInput.
Proof.
  apply calcProperties_multiple_inputs. cbn. lia.
Defined.

Lemma calcProperties_empty_transaction_witness :
  calcProperties Scenario.txPlain = Err errNoStateNoRequest.
Proof.
  apply calcProperties_empty_transaction; [cbn; lia | reflexivity | reflexivity].
Defined.

Lemma calcProperties_state_token_witness :
  Int64.wrap (sumZ (map (λ out : Address * list Balance,
                           BalanceOfColor out.2 9%N)
                        (Outputs Scenario.txState))) <= 1 /\
  isState Scenario.txStateProperties = true /\
  isOrigin Scenario.txStateProperties = false /\
  stateColor Scenario.txStateProperties = 9%N /\
  stateAddress Scenario.txStateProperties
    = sender Scenario.txStateProperties /\
  stateAddress Scenario.txStateProperties
    = last_default zeroAddress (map fst (Outputs Scenario.txState)).
Proof.
  apply (calcProperties_state_token Scenario.txState
           (mkStateBlock 9%N 1 0) Scenario.txStateProperties).
  - reflexivity.
  - vm_compute. discriminate.
  - vm_compute. reflexivity.
Defined.

Lemma calcProperties_origin_witness :
  isState Scenario.txOriginProperties = true /\
  isOrigin Scenario.txOriginProperties = true /\
  stateColor Scenario.txOriginProperties
    = ID Scenario.txOrigin /\
  (size (numMintedTokensByAddr
           Scenario.txOriginProperties) <= 1)%nat /\
  (forall r, r ∈ Requests Scenario.txOrigin ->
             rbAddress r
             = stateAddress Scenario.txOriginProperties).
Proof.
  apply (calcProperties_origin Scenario.txOrigin (mkStateBlock ColorNew 0 0)).
  - reflexivity.
  - reflexivity.
  - vm_compute. reflexivity.
Defined.

End PropertiesTheory.

(** ** The older [VM] plugin *)

Module VMTheory.
Import Ledger State VMPlugin Notions.

Section Runner.
Context {VS Mut TxB ResultTx Balances : Type} `{!State.VirtualState VS Mut}.
Context (NewTxBuilder : Balances -> Color -> Address -> result TxB)
        (EraseColor : TxB -> Address -> Color -> Z -> result TxB)
        (Finalize : TxB -> Z -> HashValue -> ResultTx)
        (AddressString : Address -> string)
        (BatchHash : list RequestId -> Z -> HashValue)
        (HashString : HashValue -> string)
        (BackgroundWorker : string -> option error).

Local Abbreviation Task := (@VMTask Mut ResultTx Balances).
Local Abbreviation body :=
  (@loopBody VS Mut TxB ResultTx Balances _ EraseColor).
Local Abbreviation loop :=
  (@requestLoop VS Mut TxB ResultTx Balances _ EraseColor).
Local Abbreviation processed :=
  (@Processed VS Mut TxB ResultTx Balances _ EraseColor).
Local Abbreviation run :=
  (@runVM VS Mut TxB ResultTx Balances _ EraseColor Finalize).
Local Abbreviation submit :=
  (@RunComputationsAsync VS Mut TxB ResultTx Balances NewTxBuilder
     AddressString BatchHash HashString BackgroundWorker).
Local Abbreviation nameOf :=
  (@taskName Mut ResultTx Balances AddressString BatchHash HashString).

Lemma loopBody_Continue ctx processor st reqRef st' :
  body ctx processor st reqRef = Continue st' ->
  vmVariableState (loopCtx st') = vmVariableState (loopCtx st) /\
  length (loopStore st') = length (loopStore st) /\
  (forall l, l ≠ vmVariableState (loopCtx st) ->
             loopStore st' !! l = loopStore st !! l) /\
  exists su, vmStateUpdate (loopCtx st') = Some su /\
             loopUpdates st' = loopUpdates st ++ [su].
Proof.
  unfold loopBody. destruct (EraseColor _ _ _ _) as [txb|]; [|done]. cbn.
  destruct (loopStore st !! _) as [vs|]; [|done].
  destruct (processor _ vs) as [[txb' vs'] su]. intros [= <-]. cbn.
  rewrite length_insert. repeat split; try done.
  - intros l Hl. by rewrite list_lookup_insert_ne.
  - by exists su.
Qed.

Lemma Processed_spec ctx processor reqs st st' :
  processed ctx processor reqs st st' ->
  vmVariableState (loopCtx st') = vmVariableState (loopCtx st) /\
  length (loopStore st') = length (loopStore st) /\
  (forall l, l ≠ vmVariableState (loopCtx st) ->
             loopStore st' !! l = loopStore st !! l) /\
  length (loopUpdates st') = (length (loopUpdates st) + length reqs)%nat.
Proof.
  induction 1 as [st | r reqs st st' st'' Hb _ (Hp & Hl & Hf & Hu)].
  - repeat split; try done; cbn; lia.
  - apply loopBody_Continue in Hb as (Hp' & Hl' & Hf' & su & _ & Hu').
    repeat split; try congruence.
    + intros l Hne. rewrite Hf by congruence. by apply Hf'.
    + rewrite Hu, Hu', length_app. cbn. lia.
Qed.

(** Whatever the loop does, it writes the working clone only. *)
Lemma requestLoop_frame ctx processor reqs st st' :
  loop ctx processor reqs st = Some st' ->
  vmVariableState (loopCtx st') = vmVariableState (loopCtx st) /\
  length (loopStore st') = length (loopStore st) /\
  (forall l, l ≠ vmVariableState (loopCtx st) ->
             loopStore st' !! l = loopStore st !! l).
Proof.
  revert st. induction reqs as [|r reqs IH]; intros st; cbn [requestLoop].
  - by intros [= <-].
  - destruct (body ctx processor st r) as [st1| |] eqn:Hb; [|by intros [= <-]|done].
    intros (Hp & Hl & Hf)%IH.
    apply loopBody_Continue in Hb as (Hp' & Hl' & Hf' & _).
    repeat split; try congruence.
    intros l Hne. rewrite Hf by congruence. by apply Hf'.
Qed.

Lemma Processed_timestamp ctx processor reqs st st' :
  processed ctx processor reqs st st' ->
  vmTimestamp (loopCtx st') = vmTimestamp (loopCtx st).
Proof.
  induction 1 as [st | r reqs st st1 st2 Hb _ IH]; [done|].
  rewrite IH. unfold loopBody in Hb.
  destruct (EraseColor _ _ _ _) as [txb|]; [|done]. cbn in Hb.
  destruct (loopStore st !! _) as [vs|]; [|done].
  destruct (processor _ vs) as [[txb' vs'] su]. by injection Hb as <-.
Qed.

(** After the requests of [pre] were processed, the loop continues with
    the rest. *)
Lemma requestLoop_Processed ctx processor pre rest st st_i :
  processed ctx processor pre st st_i ->
  loop ctx processor (pre ++ rest) st = loop ctx processor rest st_i.
Proof.
  induction 1 as [st | r reqs st st1 st2 Hb _ IH]; [done|].
  cbn [app requestLoop]. by rewrite Hb.
Qed.

(** The older loop runs every request at the task's timestamp: the loop
    never changes the timestamp of its context, and whenever it reaches a
    request after processing the ones before it, it either stops there
    ([EraseColor] failed) or calls the processor on the working state with
    a context that carries the timestamp the loop started with, the
    request and a new state update; what the processor returns becomes the
    builder, the working state and the next state update. *)
Theorem requestLoop_keeps_timestamp (ctx : Task) processor reqs st st' :
  requestLoop EraseColor ctx processor reqs st = Some st' ->
  vmTimestamp (loopCtx st') = vmTimestamp (loopCtx st) /\
  forall pre reqRef post st_i,
    reqs = pre ++ reqRef :: post ->
    processed ctx processor pre st st_i ->
    vmTimestamp (loopCtx st_i) = vmTimestamp (loopCtx st) /\
    match EraseColor (vmTxBuilder (loopCtx st_i)) (TaskAddress ctx)
            (Sctransaction.ID (Tx reqRef)) 1 with
    | Err _ => st' = st_i
    | Ok txb =>
        exists vs,
          loopStore st_i !! vmVariableState (loopCtx st_i) = Some vs /\
          let seen :=
            mkVMContext (vmAddress (loopCtx st_i)) (vmColor (loopCtx st_i))
              txb (vmTimestamp (loopCtx st)) (vmVariableState (loopCtx st_i))
              (Some reqRef) (Some (NewStateUpdate (RequestIdOf reqRef))) in
          loopBody EraseColor ctx processor st_i reqRef =
            Continue
              (mkLoopState
                 (mkVMContext (vmAddress (loopCtx st_i))
                    (vmColor (loopCtx st_i)) (processor seen vs).1.1
                    (vmTimestamp (loopCtx st))
                    (vmVariableState (loopCtx st_i)) (Some reqRef)
                    (Some (processor seen vs).2))
                 (<[vmVariableState (loopCtx st_i) :=
                      ApplyStateUpdate (processor seen vs).1.2
                        (processor seen vs).2]> (loopStore st_i))
                 (loopUpdates st_i ++ [(processor seen vs).2]))
    end.
Proof.
  intros Hloop. split.
  - revert st Hloop.
    induction reqs as [|r reqs IH]; intros st; cbn [requestLoop].
    + by intros [= <-].
    + destruct (body ctx processor st r) as [st1| |] eqn:Hb;
        [|by intros [= <-]|done].
      intros ->%IH. unfold loopBody in Hb.
      destruct (EraseColor _ _ _ _) as [txb|]; [|done]. cbn in Hb.
      destruct (loopStore st !! _) as [vs|]; [|done].
      destruct (processor _ vs) as [[txb' vs'] su]. by injection Hb as <-.
  - intros pre reqRef post st_i -> HP.
    pose proof (Processed_timestamp _ _ _ _ _ HP) as Hts.
    split; [done|].
    rewrite (requestLoop_Processed _ _ _ (reqRef :: post) _ _ HP) in Hloop.
    cbn [requestLoop] in Hloop. unfold loopBody in *. cbn zeta in *.
    destruct (EraseColor _ _ _ _) as [txb|e]; [|by injection Hloop as <-].
    cbn [vmVariableState vmTimestamp vmAddress vmColor] in *.
    destruct (loopStore st_i !! vmVariableState (loopCtx st_i)) as [vs|];
      [|done].
    exists vs. split; [done|]. rewrite <- Hts.
    by destruct (processor _ vs) as [[txb' vs'] su].
Qed.

(** The loop stops at the first request whose token cannot be erased and
    keeps what the earlier requests left. *)
Lemma requestLoop_truncates ctx processor pre reqRef post st st' e :
  processed ctx processor pre st st' ->
  EraseColor (vmTxBuilder (loopCtx st')) (TaskAddress ctx)
    (Sctransaction.ID (Tx reqRef)) 1 = Err e ->
  loop ctx processor (pre ++ reqRef :: post) st = Some st' /\
  loop ctx processor pre st = Some st'.
Proof.
  intros HP He. induction HP as [st | r reqs st st1 st2 Hb _ IH]; cbn.
  - unfold loopBody. by rewrite He.
  - rewrite Hb. by apply IH.
Qed.

(** [runVM] after the loop. *)
Lemma runVM_after_loop (ctx : Task) txbuilder processor σ orig st :
  σ !! VariableState ctx = Some orig ->
  loop ctx processor (Requests ctx) (startState ctx txbuilder σ orig)
    = Some st ->
  run ctx txbuilder processor σ =
    match loopUpdates st with
    | [] => Some (set_results None (ResultTransaction ctx) ctx, loopStore st,
                  [], Some "batch can't be empty")
    | _ :: _ =>
        let batch := mkBatch (loopUpdates st) (StateIndex orig + 1) in
        let σ' :=
          <[VariableState ctx := (ApplyBatch orig batch).1]> (loopStore st) in
        match (ApplyBatch orig batch).2 with
        | Some err =>
            Some (set_results (Some batch) (ResultTransaction ctx) ctx, σ', [],
                  Some err)
        | None =>
            Some (set_results (Some batch)
                    (Some (Finalize (vmTxBuilder (loopCtx st))
                             (StateIndex (ApplyBatch orig batch).1)
                             (Hash (ApplyBatch orig batch).1))) ctx,
                  σ', [EvOnFinish None], None)
        end
    end.
Proof.
  intros Ho Hloop. pose proof (lookup_lt_Some _ _ _ Ho) as Hlt.
  assert (loopStore st !! VariableState ctx = Some orig) as Hvs.
  { apply requestLoop_frame in Hloop as (_ & _ & Hf).
    rewrite Hf by (cbn; lia). cbn. by rewrite lookup_app_l. }
  unfold runVM. rewrite Ho. cbn [alloc].
  unfold startState in Hloop. rewrite Hloop.
  unfold NewBatch. destruct (loopUpdates st) as [|su sus] eqn:Hu; [done|].
  rewrite Hvs. unfold WithStateIndex. cbn [batchUpdates].
  destruct (ApplyBatch orig _) as [vs' [err|]]; done.
Qed.

(** The older plugin applies the batch to the task's own state object. *)
Lemma runVM_applies_batch_in_place (ctx : Task) txbuilder processor σ orig st :
  σ !! VariableState ctx = Some orig ->
  loop ctx processor (Requests ctx) (startState ctx txbuilder σ orig)
    = Some st ->
  loopUpdates st ≠ [] ->
  let batch := mkBatch (loopUpdates st) (StateIndex orig + 1) in
  exists ctx' σ' events err,
    run ctx txbuilder processor σ = Some (ctx', σ', events, err) /\
    ResultBatch ctx' = Some batch /\
    σ' !! VariableState ctx = Some (ApplyBatch orig batch).1 /\
    (err = None ->
     ResultTransaction ctx' =
       Some (Finalize (vmTxBuilder (loopCtx st))
               (StateIndex (ApplyBatch orig batch).1)
               (Hash (ApplyBatch orig batch).1))).
Proof.
  intros Ho Hloop Hne batch.
  rewrite (runVM_after_loop _ _ _ _ _ _ Ho Hloop).
  assert (VariableState ctx < length (loopStore st))%nat as Hlt.
  { apply requestLoop_frame in Hloop as (_ & -> & _). cbn.
    rewrite length_app. apply lookup_lt_Some in Ho. lia. }
  destruct (loopUpdates st) as [|su sus] eqn:Hu; [done|].
  subst batch. cbn zeta.
  set (batch := mkBatch (su :: sus) (StateIndex orig + 1)).
  destruct (ApplyBatch orig batch) as [vs' [err|]]; cbn [fst snd];
    eexists _, _, _, _; (split; [reflexivity|]);
    cbn [ResultBatch ResultTransaction set_results VariableState];
    rewrite list_lookup_insert_eq by done; done.
Qed.

(** The older plugin does not look at the number of requests when a task
    is submitted. *)
Lemma RunComputationsAsync_without_request_check processors (ctx : Task)
    processor txbuilder :
  processors !! ProgramHash ctx = Some processor ->
  NewTxBuilder (TaskBalances ctx) (TaskColor ctx) (TaskAddress ctx)
    = Ok txbuilder ->
  submit processors ctx =
    match BackgroundWorker (nameOf ctx) with
    | Some err => (Some err, [EvNewTxBuilder], None)
    | None => (None, [EvNewTxBuilder; EvBackgroundWorker (nameOf ctx)],
               Some (txbuilder, processor))
    end.
Proof.
  intros Hp Hb. unfold RunComputationsAsync, getProcessor. by rewrite Hp, Hb.
Qed.

(** C3, amended. When [EraseColor] fails at a request, after the loop body
    ran to its end for the [k-1] requests before it, the loop stops there
    with the state those requests left, which holds exactly [k-1] state
    updates.  If [k-1 > 0], [runVM] makes of them a batch for the next
    state index, and the error it returns is the one [ApplyBatch] reports
    for that batch, if any.  If [k = 1] there is no state update, no batch
    is made and [runVM] returns the error of the empty batch. *)
Theorem C3_truncation_keeps_earlier_updates (ctx : Task) txbuilder processor
    σ orig pre reqRef post st e :
  Requests ctx = pre ++ reqRef :: post ->
  σ !! VariableState ctx = Some orig ->
  processed ctx processor pre (startState ctx txbuilder σ orig) st ->
  EraseColor (vmTxBuilder (loopCtx st)) (TaskAddress ctx)
    (Sctransaction.ID (Tx reqRef)) 1 = Err e ->
  loop ctx processor (Requests ctx) (startState ctx txbuilder σ orig)
    = Some st /\
  loop ctx processor pre (startState ctx txbuilder σ orig) = Some st /\
  length (loopUpdates st) = length pre /\
  exists ctx' σ' events err,
    run ctx txbuilder processor σ = Some (ctx', σ', events, err) /\
    match pre with
    | [] =>
        ResultBatch ctx' = None /\ events = [] /\
        err = Some "batch can't be empty"
    | _ :: _ =>
        exists batch,
          ResultBatch ctx' = Some batch /\
          batchUpdates batch = loopUpdates st /\
          Size batch = length pre /\
          batchStateIndex batch = StateIndex orig + 1 /\
          err = (ApplyBatch orig batch).2 /\
          (err = None -> events = [EvOnFinish None])
    end.
Proof.
  intros Hreqs Ho HP He.
  destruct (requestLoop_truncates _ _ _ _ post _ _ _ HP He) as [Hall Hpre].
  rewrite <- Hreqs in Hall.
  apply Processed_spec in HP as (_ & _ & _ & Hlen). cbn in Hlen.
  split; [done|]. split; [done|]. split; [done|].
  rewrite (runVM_after_loop _ _ _ _ _ _ Ho Hall).
  destruct (loopUpdates st) as [|su sus] eqn:Hu.
  - destruct pre; [|done]. by eexists _, _, _, _.
  - destruct pre as [|r pre']; [done|]. cbn zeta.
    set (batch := mkBatch (su :: sus) (StateIndex orig + 1)).
    destruct (ApplyBatch orig batch) as [vs' [err|]] eqn:Hab; cbn [fst snd];
      eexists _, _, _, _; (split; [reflexivity|]); exists batch;
      cbn [ResultBatch set_results]; rewrite Hab; by repeat split.
Qed.

End Runner.

#[local] Existing Instance Scenario.logState_VirtualState.

Lemma requestLoop_keeps_timestamp_witness :
  (λ st, vmTimestamp (loopCtx st)) <$>
    requestLoop Scenario.eraseColor
      (Scenario.vmTask [Scenario.request 101; Scenario.request 102])
      Scenario.echoProcessor [Scenario.request 101; Scenario.request 102]
      (startState
         (Scenario.vmTask [Scenario.request 101; Scenario.request 102])
         Scenario.twoTokens [Scenario.genesis] Scenario.genesis)
  = Some 1000.
Proof.
  destruct (requestLoop Scenario.eraseColor
              (Scenario.vmTask [Scenario.request 101; Scenario.request 102])
              Scenario.echoProcessor
              [Scenario.request 101; Scenario.request 102]
              (startState
                 (Scenario.vmTask [Scenario.request 101; Scenario.request 102])
                 Scenario.twoTokens [Scenario.genesis] Scenario.genesis))
    as [st'|] eqn:Hloop; [|by vm_compute in Hloop].
  cbn [fmap option_fmap option_map]. f_equal.
  apply (proj1 (requestLoop_keeps_timestamp Scenario.eraseColor _ _ _ _ _
                  Hloop)).
Defined.

(** Three requests, tokens for the first two: the batch holds two state
    updates and [runVM] returns no error. *)
Lemma C3_witness :
  (λ r, (Size <$> ResultBatch r.1.1.1, r.1.2, r.2)) <$>
    runVM Scenario.eraseColor Scenario.finalize
      (Scenario.vmTask [Scenario.request 101; Scenario.request 102;
                        Scenario.request 103])
      Scenario.twoTokens Scenario.echoProcessor [Scenario.genesis]
  = Some (Some 2%nat, [EvOnFinish None], None).
Proof.
  assert (exists st,
            Processed Scenario.eraseColor
              (Scenario.vmTask [Scenario.request 101; Scenario.request 102;
                                Scenario.request 103])
              Scenario.echoProcessor
              [Scenario.request 101; Scenario.request 102]
              (startState
                 (Scenario.vmTask [Scenario.request 101; Scenario.request 102;
                                   Scenario.request 103])
                 Scenario.twoTokens [Scenario.genesis] Scenario.genesis) st /\
            Scenario.eraseColor (vmTxBuilder (loopCtx st)) 5%N 103%N 1
            = Err "not enough balance") as (st & HP & He).
  { eexists. split.
    - eapply Processed_cons; [vm_compute; reflexivity|].
      eapply Processed_cons; [vm_compute; reflexivity|].
      apply Processed_nil.
    - vm_compute. reflexivity. }
  destruct (C3_truncation_keeps_earlier_updates
              Scenario.eraseColor Scenario.finalize
              (Scenario.vmTask [Scenario.request 101; Scenario.request 102;
                                Scenario.request 103])
              Scenario.twoTokens Scenario.echoProcessor [Scenario.genesis]
              Scenario.genesis
              [Scenario.request 101; Scenario.request 102]
              (Scenario.request 103) [] st "not enough balance"
              eq_refl eq_refl HP He)
    as (_ & _ & _ & ctx' & σ' & events & err & Hrun & batch & Hb & _ & Hsize
        & Hidx & Herr & Hev).
  assert (err = None) as Hnone.
  { rewrite Herr. cbn. unfold Scenario.logApplyBatch.
    by rewrite decide_True by (by rewrite Hidx). }
  rewrite Hrun. cbn. by rewrite Hb, (Hev Hnone), Hnone; cbn; rewrite Hsize.
Defined.

(** C3 as stated fails for [k = 1]: when the token of the first request
    cannot be erased, no batch results and [runVM] returns an error. *)
Lemma C3_first_request_unfunded :
  Scenario.eraseColor Scenario.twoTokens 5%N 103%N 1
    = Err "not enough balance" /\
  (λ r, (ResultBatch r.1.1.1, r.1.2, r.2)) <$>
    runVM Scenario.eraseColor Scenario.finalize
      (Scenario.vmTask [Scenario.request 103])
      Scenario.twoTokens Scenario.echoProcessor [Scenario.genesis]
  = Some (None, [], Some "batch can't be empty").
Proof. vm_compute. split; reflexivity. Qed.

End VMTheory.

(** ** The [RunVM] plugin *)

Module RunVMTheory.
Import Ledger State RunVMPlugin Notions.

Lemma tick_in_range t : Int64.in_range t -> Int64.in_range (tick t).
Proof.
  unfold tick. case_decide; [intros _; apply Int64.wrap_in_range | done].
Qed.

(** While the count has not passed through zero, [i] ticks from [t] give
    [t + i] in [int64]. *)
Lemma iter_tick_no_zero t i :
  Int64.in_range t ->
  (forall j, (j < i)%nat -> Int64.wrap (t + Z.of_nat j) ≠ 0) ->
  Nat.iter i tick t = Int64.wrap (t + Z.of_nat i).
Proof.
  intros Ht. induction i as [|i IH]; intros Hnz.
  - cbn. rewrite Z.add_0_r. by rewrite Int64.wrap_id.
  - rewrite Nat.iter_succ, IH by (intros j Hj; apply Hnz; lia).
    unfold tick. rewrite decide_True by (apply Hnz; lia).
    unfold Int64.add. rewrite Int64.wrap_wrap_add. f_equal. lia.
Qed.

(** Once zero, always zero. *)
Lemma iter_tick_zero i : Nat.iter i tick 0 = 0.
Proof. induction i as [|i IH]; [done|]. by rewrite Nat.iter_succ, IH. Qed.

(** From a positive timestamp, as long as [int64] does not overflow. *)
Lemma iter_tick_positive t i :
  0 < t -> t + Z.of_nat i <= Int64.max_signed ->
  Nat.iter i tick t = t + Z.of_nat i.
Proof.
  intros Hpos Hmax.
  assert (forall k, (k <= i)%nat -> Int64.wrap (t + Z.of_nat k) = t + Z.of_nat k)
    as Hid.
  { intros k Hk. apply Int64.wrap_id.
    unfold Int64.in_range, Int64.min_signed, Int64.max_signed in *. lia. }
  rewrite iter_tick_no_zero.
  - by apply Hid.
  - unfold Int64.in_range, Int64.min_signed, Int64.max_signed in *. lia.
  - intros j Hj. rewrite Hid by lia. lia.
Qed.

Section Loop.
Context {VS Mut TxB : Type} `{!State.VirtualState VS Mut}.
Context (runTheRequest :
           @VMContext Mut TxB -> VS -> TxB * VS * StateUpdate Mut)
        (HashData : HashValue -> HashValue).

Local Abbreviation body := (loopBody runTheRequest HashData).
Local Abbreviation loop := (requestLoop runTheRequest HashData).

Lemma loopBody_spec st reqRef :
  validLoopState st ->
  exists st',
    body st reqRef = Some st' /\
    validLoopState st' /\
    vmTimestamp (loopCtx st') = tick (vmTimestamp (loopCtx st)) /\
    vmEntropy (loopCtx st') = HashData (vmEntropy (loopCtx st)) /\
    vmVirtualState (loopCtx st') = vmVirtualState (loopCtx st) /\
    length (loopStore st') = length (loopStore st) /\
    (forall l, l ≠ vmVirtualState (loopCtx st) ->
               loopStore st' !! l = loopStore st !! l) /\
    length (loopUpdates st') = S (length (loopUpdates st)).
Proof.
  intros Hv. unfold validLoopState in Hv. unfold loopBody. cbn.
  destruct (lookup_lt_is_Some_2 _ _ Hv) as [vs Hvs]. rewrite Hvs.
  destruct (runTheRequest _ vs) as [[txb vs'] su].
  eexists. split; [reflexivity|]. unfold validLoopState. cbn.
  rewrite length_insert, length_app. cbn.
  repeat split; try done; try lia.
  intros l Hl. by rewrite list_lookup_insert_ne.
Qed.

Lemma requestLoop_snoc reqs r st :
  loop (reqs ++ [r]) st = loop reqs st ≫= λ st', body st' r.
Proof.
  revert st. induction reqs as [|q reqs IH]; intros st; cbn.
  - by destruct (body st r).
  - destruct (body st q); [apply IH | done].
Qed.

(** The loop state in which request number [i] starts, for every [i] up
    to the number of requests. *)
Lemma requestLoop_prefix reqs st i :
  validLoopState st -> (i <= length reqs)%nat ->
  exists st_i,
    loop (take i reqs) st = Some st_i /\
    validLoopState st_i /\
    vmTimestamp (loopCtx st_i) = Nat.iter i tick (vmTimestamp (loopCtx st)) /\
    vmEntropy (loopCtx st_i) = Nat.iter i HashData (vmEntropy (loopCtx st)) /\
    vmVirtualState (loopCtx st_i) = vmVirtualState (loopCtx st) /\
    length (loopStore st_i) = length (loopStore st) /\
    (forall l, l ≠ vmVirtualState (loopCtx st) ->
               loopStore st_i !! l = loopStore st !! l) /\
    length (loopUpdates st_i) = (length (loopUpdates st) + i)%nat.
Proof.
  intros Hv. induction i as [|i IH]; intros Hi.
  - rewrite take_0. exists st. cbn. repeat split; try done; lia.
  - destruct IH as (st_i & Hrun & Hvi & Hts & Hen & Hptr & Hlen & Hfr & Hup);
      [lia|].
    destruct (lookup_lt_is_Some_2 reqs i ltac:(lia)) as [r Hr].
    rewrite (take_S_r _ _ _ Hr), requestLoop_snoc, Hrun.
    cbn [mbind option_bind].
    destruct (loopBody_spec st_i r Hvi)
      as (st' & Hb & Hv' & Hts' & Hen' & Hptr' & Hlen' & Hfr' & Hup').
    exists st'. rewrite Hb, !Nat.iter_succ.
    repeat split; try congruence.
    + intros l Hl. rewrite Hfr' by congruence. by apply Hfr.
    + lia.
Qed.

Lemma requestLoop_all reqs st :
  validLoopState st ->
  exists st',
    loop reqs st = Some st' /\
    validLoopState st' /\
    vmVirtualState (loopCtx st') = vmVirtualState (loopCtx st) /\
    length (loopStore st') = length (loopStore st) /\
    (forall l, l ≠ vmVirtualState (loopCtx st) ->
               loopStore st' !! l = loopStore st !! l) /\
    length (loopUpdates st') = (length (loopUpdates st) + length reqs)%nat.
Proof.
  intros Hv.
  destruct (requestLoop_prefix reqs st (length reqs) Hv ltac:(lia))
    as (st' & Hrun & Hv' & _ & _ & Hptr & Hlen & Hfr & Hup).
  rewrite firstn_all in Hrun. exists st'. by repeat split.
Qed.

(** C4, amended. In the loop of [runTask], request number [i] (from 0)
    starts in a state reached without panic whose timestamp is the starting
    timestamp ticked [i] times and whose entropy is the starting entropy
    hashed [i] times.  That is what the request observes: [runTheRequest]
    is called on the working state with a context that carries this
    timestamp, this entropy, the request and a new state update stamped
    with this timestamp, and what it returns becomes the builder, the
    working state and the next state update.  The request leaves the
    timestamp ticked once more (one more in [int64] unless it is zero, zero
    staying zero) and the entropy hashed once more.  Hence request [i] runs at [t + i], wrapped to
    [int64], provided none of [t], [t+1], ..., [t+i-1] is zero in [int64];
    at exactly [t + i] for [t > 0] while [t + i] fits [int64]; and at zero
    for [t = 0]. *)
Theorem C4_timestamp_and_entropy_per_request reqs st i :
  validLoopState st -> (i <= length reqs)%nat ->
  exists st_i,
    loop (take i reqs) st = Some st_i /\
    vmTimestamp (loopCtx st_i) = Nat.iter i tick (vmTimestamp (loopCtx st)) /\
    vmEntropy (loopCtx st_i) = Nat.iter i HashData (vmEntropy (loopCtx st)) /\
    (forall reqRef, exists st' vs,
        loopStore st_i !! vmVirtualState (loopCtx st_i) = Some vs /\
        let seen :=
          mkVMContext (vmAddress (loopCtx st_i)) (vmTxBuilder (loopCtx st_i))
            (Nat.iter i tick (vmTimestamp (loopCtx st)))
            (Nat.iter i HashData (vmEntropy (loopCtx st)))
            (vmVirtualState (loopCtx st_i)) (Some reqRef)
            (Some (WithTimestamp
                     (Nat.iter i tick (vmTimestamp (loopCtx st)))
                     (NewStateUpdate (RequestIdOf reqRef)))) in
        body st_i reqRef = Some st' /\
        vmTxBuilder (loopCtx st') = (runTheRequest seen vs).1.1 /\
        loopStore st' =
          <[vmVirtualState (loopCtx st_i) :=
              ApplyStateUpdate (runTheRequest seen vs).1.2
                (runTheRequest seen vs).2]> (loopStore st_i) /\
        loopUpdates st' = loopUpdates st_i ++ [(runTheRequest seen vs).2] /\
        vmTimestamp (loopCtx st') = tick (vmTimestamp (loopCtx st_i)) /\
        vmEntropy (loopCtx st') = HashData (vmEntropy (loopCtx st_i))) /\
    (Int64.in_range (vmTimestamp (loopCtx st)) ->
     (forall j, (j < i)%nat ->
                Int64.wrap (vmTimestamp (loopCtx st) + Z.of_nat j) ≠ 0) ->
     vmTimestamp (loopCtx st_i)
       = Int64.wrap (vmTimestamp (loopCtx st) + Z.of_nat i)) /\
    (0 < vmTimestamp (loopCtx st) ->
     vmTimestamp (loopCtx st) + Z.of_nat i <= Int64.max_signed ->
     vmTimestamp (loopCtx st_i) = vmTimestamp (loopCtx st) + Z.of_nat i) /\
    (vmTimestamp (loopCtx st) = 0 -> vmTimestamp (loopCtx st_i) = 0).
Proof.
  intros Hv Hi.
  destruct (requestLoop_prefix reqs st i Hv Hi)
    as (st_i & Hrun & Hvi & Hts & Hen & _).
  exists st_i. split; [done|]. split; [done|]. split; [done|].
  split; [|split; [|split]].
  - intros r. unfold validLoopState in Hvi.
    destruct (lookup_lt_is_Some_2 _ _ Hvi) as [vs Hvs].
    rewrite <- Hts, <- Hen. unfold loopBody. cbn zeta.
    cbn [vmVirtualState vmTimestamp vmEntropy vmAddress vmTxBuilder].
    rewrite Hvs.
    destruct (runTheRequest _ vs) as [[txb vs'] su] eqn:Hreq.
    eexists _, vs. split; [done|]. split; [reflexivity|].
    rewrite Hreq. by cbn.
  - intros Hr Hnz. rewrite Hts. by apply iter_tick_no_zero.
  - intros Hpos Hmax. rewrite Hts. by apply iter_tick_positive.
  - intros Hz. rewrite Hts, Hz. apply iter_tick_zero.
Qed.

End Loop.

#[local] Existing Instance Scenario.logState_VirtualState.

(** From timestamp 5 and entropy 7, hashing being the successor, the third
    request (number 2) is handed timestamp 7, which the state update it
    returns carries, and leaves timestamp 8 and entropy 10. *)
Lemma C4_witness :
  (λ st, (suTimestamp <$> last (loopUpdates st),
          vmTimestamp (loopCtx st), vmEntropy (loopCtx st))) <$>
    requestLoop Scenario.echoRequest N.succ
      [Scenario.request 101; Scenario.request 102; Scenario.request 103]
      (Scenario.runVMStart 5)
  = Some (Some 7, 8, 10%N).
Proof.
  destruct (C4_timestamp_and_entropy_per_request Scenario.echoRequest N.succ
              [Scenario.request 101; Scenario.request 102;
               Scenario.request 103]
              (Scenario.runVMStart 5) 2
              ltac:(unfold validLoopState; cbn; lia) ltac:(cbn; lia))
    as (st_i & Hrun & Hts & Hen & Hobs & _).
  destruct (Hobs (Scenario.request 103))
    as (st' & vs & _ & Hbody & _ & _ & Hup & Hts' & Hen').
  change [Scenario.request 101; Scenario.request 102; Scenario.request 103]
    with (take 2 [Scenario.request 101; Scenario.request 102;
                  Scenario.request 103] ++ [Scenario.request 103]).
  rewrite requestLoop_snoc, Hrun. cbn [mbind option_bind].
  rewrite Hbody. cbn [fmap option_fmap option_map].
  rewrite Hup, last_snoc, Hts', Hen', Hts, Hen. reflexivity.
Defined.

(** C4 as stated fails for a negative start: from timestamp -1 the three
    requests are handed the timestamps -1, 0 and 0 (the state updates they
    return carry them), not -1, 0 and 1. *)
Lemma C4_negative_start_sticks_at_zero :
  (λ st, map suTimestamp (loopUpdates st)) <$>
    requestLoop Scenario.echoRequest N.succ
      [Scenario.request 101; Scenario.request 102; Scenario.request 103]
      (Scenario.runVMStart (-1))
  = Some [-1; 0; 0] /\
  [-1; 0; 0] <> [-1; -1 + 1; -1 + 2].
Proof. vm_compute. split; [reflexivity | discriminate]. Qed.

Section Task.
Context {VS Mut TxB Balances : Type} `{!State.VirtualState VS Mut}.
Context (prepareBuilder : @VMTask Mut Balances -> TxB -> result TxB)
        (runTheRequest :
           @VMContext Mut TxB -> VS -> TxB * VS * StateUpdate Mut)
        (HashData : HashValue -> HashValue)
        (SetStateParams : TxB -> Z -> HashValue -> Z -> result TxB)
        (Build : TxB -> bool -> result Sctransaction.Transaction).

Local Abbreviation Task := (@VMTask Mut Balances).
Local Abbreviation run :=
  (@runTask VS Mut TxB Balances _ prepareBuilder runTheRequest HashData
     SetStateParams Build).

(** The hash computation allocates one new object, a copy of the task's
    state object, applies the batch to it and hashes it; no object that
    existed before is written. *)
Lemma resultingStateHash_spec (ctx : Task) batch (σ : list VS) vs :
  σ !! VirtualState ctx = Some vs ->
  resultingStateHash ctx batch σ =
    Some (σ ++ [(ApplyBatch vs batch).1], length σ,
          match (ApplyBatch vs batch).2 with
          | Some err => Err err
          | None => Ok (Hash (ApplyBatch vs batch).1)
          end).
Proof.
  intros Hvs. unfold resultingStateHash, alloc. rewrite Hvs.
  assert (forall x : VS, <[length σ := x]> (σ ++ [vs]) = σ ++ [x]) as Hins.
  { intros x. rewrite insert_app_r_alt by lia. by rewrite Nat.sub_diag. }
  destruct (ApplyBatch vs batch) as [vs' [err|]]; cbn [fst snd];
    by rewrite Hins.
Qed.

(** With a builder whose transactions carry a state block, [runTask]
    calls [OnFinish] exactly once, writes no state object that existed
    before it ran, and, when it reports success, has put into the builder
    the hash of the value that [ApplyBatch] leaves in a copy of the task's
    state as it was when the task started; that copy is the object after
    the working clone. *)
Lemma runTask_spec (ctx : Task) txb (σ : list VS) orig :
  (forall t tx, Build t false = Ok tx -> is_Some (Sctransaction.State tx)) ->
  σ !! VirtualState ctx = Some orig ->
  exists ctx' σ' err,
    run ctx txb σ = Some (ctx', σ', [EvOnFinish err]) /\
    (forall l, (l < length σ)%nat -> σ' !! l = σ !! l) /\
    (err = None ->
     exists batch vs' txb0 txb1 tx,
       ResultBatch ctx' = Some batch /\
       batchStateIndex batch = StateIndex orig + 1 /\
       ApplyBatch orig batch = (vs', None) /\
       SetStateParams txb0 (StateIndex orig + 1) (Hash vs') (Timestamp vs')
         = Ok txb1 /\
       Build txb1 false = Ok tx /\
       ResultTransaction ctx' = Some tx /\
       σ' !! S (length σ) = Some vs').
Proof.
  intros HBuild Ho. pose proof (lookup_lt_Some _ _ _ Ho) as Hlt.
  unfold runTask, createVMContext. rewrite Ho. cbn [mbind option_bind].
  destruct (prepareBuilder ctx txb) as [txb1|e]; cbn [mbind option_bind].
  2:{ unfold finish. eexists _, _, _. split; [reflexivity|]. by split. }
  cbn [alloc mbind option_bind].
  set (st0 := mkLoopState _ _ _).
  assert (validLoopState st0) as Hv0.
  { unfold validLoopState, st0. cbn. rewrite length_app. cbn. lia. }
  destruct (requestLoop_all runTheRequest HashData (Requests ctx) st0 Hv0)
    as (st & Hrun & Hv & Hptr & Hlen & Hfr & Hup).
  rewrite Hrun. cbn [mbind option_bind].
  assert (forall l, (l < length σ)%nat -> loopStore st !! l = σ !! l) as Hframe.
  { intros l Hl. rewrite Hfr by (unfold st0; cbn; lia).
    unfold st0. cbn. by rewrite lookup_app_l. }
  assert (length (loopStore st) = S (length σ)) as Hlen'.
  { rewrite Hlen. unfold st0. cbn. rewrite length_app. cbn. lia. }
  case_bool_decide as Hempty.
  { unfold finish. eexists _, _, _. split; [reflexivity|]. by split. }
  unfold NewBatch. destruct (loopUpdates st) as [|su sus] eqn:Hu; [done|].
  rewrite Hframe, Ho by done. cbn [mbind option_bind].
  erewrite resultingStateHash_spec; [|cbn; by rewrite Hframe].
  cbn [mbind option_bind].
  set (batch := WithStateIndex _ _).
  assert (forall x : VS, forall l, (l < length σ)%nat ->
            (loopStore st ++ [x]) !! l = σ !! l) as Hframe2.
  { intros x l Hl. rewrite lookup_app_l by lia. by apply Hframe. }
  destruct (ApplyBatch orig batch) as [vs' [e|]] eqn:Hab; cbn [fst snd].
  { unfold finish. eexists _, _, _. split; [reflexivity|]. split; [by auto|done]. }
  cbn [VirtualState set_results]. rewrite (Hframe2 vs' _ Hlt), Ho.
  cbn [mbind option_bind].
  rewrite lookup_app_r, Nat.sub_diag by lia.
  cbn [lookup list_lookup mbind option_bind].
  destruct (SetStateParams _ _ _ _) as [txb2|e] eqn:Hset.
  2:{ unfold finish. eexists _, _, _. split; [reflexivity|]. split; [by auto|done]. }
  destruct (Build txb2 false) as [tx|e] eqn:Hbuild.
  2:{ unfold finish. eexists _, _, _. split; [reflexivity|]. split; [by auto|done]. }
  destruct (Sctransaction.calcProperties tx) as [props|e].
  2:{ unfold finish. eexists _, _, _. split; [reflexivity|]. split; [by auto|done]. }
  destruct (HBuild _ _ Hbuild) as [sb ->]. cbn [mbind option_bind].
  unfold finish. eexists _, _, _. split; [reflexivity|]. split; [by auto|].
  intros _. exists batch, vs', (vmTxBuilder (loopCtx st)), txb2, tx.
  repeat split; try done.
  rewrite <- Hlen', lookup_app_r, Nat.sub_diag by lia. done.
Qed.

End Task.
End RunVMTheory.

(** ** The two runners side by side *)

Module RunnerTheory.
Import Ledger State Notions.

Section Runners.
Context {VS Mut TxB TxB' ResultTx Balances Balances' : Type}
        `{!State.VirtualState VS Mut}.
(** The collaborators of the [RunVM] plugin. *)
Context (NewFromAddressBalances : Address -> Balances -> result TxB)
        (BalancesToString : Balances -> string)
        (AddressString : Address -> string)
        (BatchHash : list RequestId -> Z -> Z -> HashValue)
        (HashString : HashValue -> string)
        (BackgroundWorker : string -> option error)
        (prepareBuilder : @RunVMPlugin.VMTask Mut Balances -> TxB -> result TxB)
        (runTheRequest :
           @RunVMPlugin.VMContext Mut TxB -> VS -> TxB * VS * StateUpdate Mut)
        (HashData : HashValue -> HashValue)
        (SetStateParams : TxB -> Z -> HashValue -> Z -> result TxB)
        (Build : TxB -> bool -> result Sctransaction.Transaction).
(** The collaborators of the older [VM] plugin. *)
Context (NewTxBuilder : Balances' -> Color -> Address -> result TxB')
        (EraseColor : TxB' -> Address -> Color -> Z -> result TxB')
        (Finalize : TxB' -> Z -> HashValue -> ResultTx)
        (AddressString' : Address -> string)
        (BatchHash' : list RequestId -> Z -> HashValue)
        (HashString' : HashValue -> string)
        (BackgroundWorker' : string -> option error).

Local Abbreviation runTask :=
  (@RunVMPlugin.runTask VS Mut TxB Balances _ prepareBuilder runTheRequest
     HashData SetStateParams Build).
Local Abbreviation submit :=
  (@RunVMPlugin.RunComputationsAsync Mut TxB Balances NewFromAddressBalances
     BalancesToString AddressString BatchHash HashString BackgroundWorker).
Local Abbreviation runVM :=
  (@VMPlugin.runVM VS Mut TxB' ResultTx Balances' _ EraseColor Finalize).
Local Abbreviation loop' :=
  (@VMPlugin.requestLoop VS Mut TxB' ResultTx Balances' _ EraseColor).
Local Abbreviation submit' :=
  (@VMPlugin.RunComputationsAsync VS Mut TxB' ResultTx Balances' NewTxBuilder
     AddressString' BatchHash' HashString' BackgroundWorker').
Local Abbreviation nameOf' :=
  (@VMPlugin.taskName Mut ResultTx Balances' AddressString' BatchHash'
     HashString').

(** C5, amended. In the [RunVM] plugin the hash computation copies the
    task's state object into a new object (neither the task's object nor
    the working clone), applies the batch to the copy and hashes it;
    [runTask] as a whole (with a builder whose transactions carry a state
    block, so that the exit log does not panic) writes no state object that
    existed when it started, and on success the hash it hands to the
    builder is that of the batch applied to the task's state as it was.  In the older [VM] plugin
    [runVM] applies the batch to the task's own state object, which holds
    the new state afterwards, and hashes that object. *)
Theorem C5_hash_from_copy_of_task_state :
  (forall (ctx : @RunVMPlugin.VMTask Mut Balances) batch (σ : list VS) vs,
     σ !! RunVMPlugin.VirtualState ctx = Some vs ->
     RunVMPlugin.resultingStateHash ctx batch σ =
       Some (σ ++ [(ApplyBatch vs batch).1], length σ,
             match (ApplyBatch vs batch).2 with
             | Some err => Err err
             | None => Ok (Hash (ApplyBatch vs batch).1)
             end)) /\
  (forall (ctx : @RunVMPlugin.VMTask Mut Balances) txb (σ : list VS) orig,
     (forall t tx, Build t false = Ok tx ->
                   is_Some (Sctransaction.State tx)) ->
     σ !! RunVMPlugin.VirtualState ctx = Some orig ->
     exists ctx' σ' err,
       runTask ctx txb σ = Some (ctx', σ', [EvOnFinish err]) /\
       (forall l, (l < length σ)%nat -> σ' !! l = σ !! l) /\
       (err = None ->
        exists batch vs' txb0 txb1 tx,
          RunVMPlugin.ResultBatch ctx' = Some batch /\
          batchStateIndex batch = StateIndex orig + 1 /\
          ApplyBatch orig batch = (vs', None) /\
          SetStateParams txb0 (StateIndex orig + 1) (Hash vs') (Timestamp vs')
            = Ok txb1 /\
          Build txb1 false = Ok tx /\
          RunVMPlugin.ResultTransaction ctx' = Some tx /\
          σ' !! S (length σ) = Some vs')) /\
  (forall (ctx : @VMPlugin.VMTask Mut ResultTx Balances') txbuilder processor
          (σ : list VS) orig st,
     σ !! VMPlugin.VariableState ctx = Some orig ->
     loop' ctx processor (VMPlugin.Requests ctx)
       (startState ctx txbuilder σ orig) = Some st ->
     VMPlugin.loopUpdates st ≠ [] ->
     let batch := mkBatch (VMPlugin.loopUpdates st) (StateIndex orig + 1) in
     exists ctx' σ' events err,
       runVM ctx txbuilder processor σ = Some (ctx', σ', events, err) /\
       VMPlugin.ResultBatch ctx' = Some batch /\
       σ' !! VMPlugin.VariableState ctx = Some (ApplyBatch orig batch).1 /\
       (err = None ->
        VMPlugin.ResultTransaction ctx' =
          Some (Finalize (VMPlugin.vmTxBuilder (VMPlugin.loopCtx st))
                  (StateIndex (ApplyBatch orig batch).1)
                  (Hash (ApplyBatch orig batch).1)))).
Proof.
  split; [|split].
  - intros ctx batch σ vs. apply RunVMTheory.resultingStateHash_spec.
  - intros ctx txb σ orig. apply RunVMTheory.runTask_spec.
  - intros ctx txbuilder processor σ orig st.
    apply VMTheory.runVM_applies_batch_in_place.
Qed.

(** C6, amended. The [RunVM] plugin refuses a task without requests: it
    returns an error, constructs no builder and hands no worker to the
    daemon, so [runTask] and its callback never run for the task.  The
    older [VM] plugin has no such check: with a registered processor, a
    builder that can be made and a daemon that takes the worker, a task
    without requests is handed to the daemon and no error is returned. *)
Theorem C6_empty_task_refused_at_submission :
  (forall ctx : @RunVMPlugin.VMTask Mut Balances,
     RunVMPlugin.Requests ctx = [] ->
     submit ctx = (Some "must be at least 1 request", [], None)) /\
  (forall processors (ctx : @VMPlugin.VMTask Mut ResultTx Balances')
          processor txbuilder,
     VMPlugin.Requests ctx = [] ->
     processors !! VMPlugin.ProgramHash ctx = Some processor ->
     NewTxBuilder (VMPlugin.TaskBalances ctx) (VMPlugin.TaskColor ctx)
       (VMPlugin.TaskAddress ctx) = Ok txbuilder ->
     BackgroundWorker' (nameOf' ctx) = None ->
     submit' processors ctx =
       (None, [EvNewTxBuilder; EvBackgroundWorker (nameOf' ctx)],
        Some (txbuilder, processor))).
Proof.
  split.
  - intros ctx Hreq. unfold RunVMPlugin.RunComputationsAsync.
    by rewrite Hreq.
  - intros processors ctx processor txbuilder Hreq Hp Hb Hw.
    rewrite (VMTheory.RunComputationsAsync_without_request_check
               NewTxBuilder AddressString' BatchHash' HashString'
               BackgroundWorker' _ _ _ _ Hp Hb).
    by rewrite Hw.
Qed.

End Runners.

#[local] Existing Instance Scenario.logState_VirtualState.

(** Two requests run by the [RunVM] plugin on a store holding the task's
    state: the run succeeds and the task's state object is as it was. *)
Lemma C5_witness :
  (λ r, (r.1.2 !! 0%nat, r.2)) <$>
    RunVMPlugin.runTask Scenario.keepBuilder Scenario.echoRequest N.succ
      Scenario.setStateParams Scenario.buildState
      (Scenario.runVMTask 5 [Scenario.request 101; Scenario.request 102])
      tt [Scenario.genesis]
  = Some (Some Scenario.genesis, [EvOnFinish None]).
Proof.
  destruct (proj1 (proj2 (C5_hash_from_copy_of_task_state
                            (ResultTx := Z * HashValue)
                            (Balances' := gmap N Z)
                            Scenario.keepBuilder Scenario.echoRequest N.succ
                            Scenario.setStateParams Scenario.buildState
                            Scenario.eraseColor Scenario.finalize))
              (Scenario.runVMTask 5 [Scenario.request 101; Scenario.request 102])
              tt [Scenario.genesis] Scenario.genesis
              ltac:(by intros t tx [= <-]) eq_refl)
    as (ctx' & σ' & err & Hrun & Hframe & _).
  rewrite Hrun. cbn [fmap option_fmap option_map fst snd].
  rewrite (Hframe 0%nat) by (cbn; lia).
  vm_compute in Hrun. injection Hrun as _ _ <-. reflexivity.
Defined.

(** C5 as stated fails on the older plugin: after [runVM] the task's own
    state object holds the state that the batch produced. *)
Lemma C5_older_runner_advances_task_state :
  (λ r, r.1.1.2 !! 0%nat) <$>
    VMPlugin.runVM Scenario.eraseColor Scenario.finalize
      (Scenario.vmTask [Scenario.request 101])
      Scenario.twoTokens Scenario.echoProcessor [Scenario.genesis]
  = Some (Some (Scenario.mkLogState 1 0 [(101%N, 0)])) /\
  Scenario.mkLogState 1 0 [(101%N, 0)] <> Scenario.genesis.
Proof. vm_compute. split; [reflexivity | discriminate]. Qed.

(** A task without requests is refused by the [RunVM] plugin and taken by
    the older plugin. *)
Lemma C6_witness :
  RunVMPlugin.RunComputationsAsync Scenario.newFromAddressBalances
    Scenario.balancesToString Scenario.addressName Scenario.batchHashLeader
    Scenario.hashName Scenario.backgroundWorker
    (Scenario.runVMTask 5 [])
  = (Some "must be at least 1 request", [], None) /\
  VMPlugin.RunComputationsAsync Scenario.newTxBuilder Scenario.addressName
    Scenario.batchHash Scenario.hashName Scenario.backgroundWorker
    Scenario.registry (Scenario.vmTask [])
  = (None, [EvNewTxBuilder; EvBackgroundWorker "chain.batch"],
     Some (Scenario.twoTokens, Scenario.echoProcessor)).
Proof.
  split.
  - apply (proj1 (C6_empty_task_refused_at_submission
                    (VS := Scenario.LogState) (ResultTx := Z * HashValue)
                    (Mut := unit) (Balances' := gmap N Z)
                    Scenario.newFromAddressBalances Scenario.balancesToString
                    Scenario.addressName Scenario.batchHashLeader
                    Scenario.hashName Scenario.backgroundWorker
                    Scenario.newTxBuilder Scenario.addressName
                    Scenario.batchHash Scenario.hashName
                    Scenario.backgroundWorker)).
    reflexivity.
  - apply (proj2 (C6_empty_task_refused_at_submission
                    (Mut := unit) (Balances := unit) (TxB := unit)
                    Scenario.newFromAddressBalances Scenario.balancesToString
                    Scenario.addressName Scenario.batchHashLeader
                    Scenario.hashName Scenario.backgroundWorker
                    Scenario.newTxBuilder Scenario.addressName
                    Scenario.batchHash Scenario.hashName
                    Scenario.backgroundWorker)
             Scenario.registry (Scenario.vmTask []) Scenario.echoProcessor
             Scenario.twoTokens);
      reflexivity.
Defined.

(** C6 as stated fails on the older plugin: a task without requests gets a
    builder and a background worker, and no error is returned. *)
Lemma C6_older_plugin_schedules_empty_task :
  VMPlugin.Requests (Scenario.vmTask []) = [] /\
  (VMPlugin.RunComputationsAsync Scenario.newTxBuilder Scenario.addressName
     Scenario.batchHash Scenario.hashName Scenario.backgroundWorker
     Scenario.registry (Scenario.vmTask [])).1
  = (None, [EvNewTxBuilder; EvBackgroundWorker "chain.batch"]).
Proof. split; reflexivity. Qed.

End RunnerTheory.

(** ** The request API *)

Module ApilibTheory.
Import Ledger State Apilib Notions Derived.

(** One pass of the switch stores the typed value of its argument, panics
    on a nil pointer and returns nil on every other value. *)
Lemma convertArg_stored key v args :
  convertArg key v args =
    match stored v with
    | Some a => Returns (Some (<[key := a]> args))
    | None => if nilPointer v then Panics nilDereference else Returns None
    end.
Proof. destruct v as [| | | | | | | | | |[?|]|[?|]|[?|]| | | | |]; done. Qed.

Lemma stops_stored v : stops v = true <-> stored v = None.
Proof. destruct v as [| | | | | | | | | |[?|]|[?|]|[?|]| | | | |]; done. Qed.

Lemma stops_false_stored v : stops v = false -> is_Some (stored v).
Proof.
  destruct v as [| | | | | | | | | |[?|]|[?|]|[?|]| | | | |]; by eauto.
Qed.

Lemma stops_cases v :
  stops v = true <-> recognized v = false \/ nilPointer v = true.
Proof.
  unfold stops. rewrite orb_true_iff, negb_true_iff. done.
Qed.

Lemma recognized_false_not_nil v :
  recognized v = false -> nilPointer v = false.
Proof. by destruct v as [| | | | | | | | | |[?|]|[?|]|[?|]| | | | |]. Qed.

Lemma switchInteger_stops v : switchInteger v = true -> stops v = false.
Proof. by destruct v as [| | | | | | | | | |[?|]|[?|]|[?|]| | | | |]. Qed.

(** The loop of [convertArgs] ends at the first entry it visits whose
    value is of an unrecognized type or a nil pointer, with nil or with a
    panic; without such an entry it stores every entry. *)
Lemma convertArgs_loop_spec entries args :
  convertArgs_loop entries args =
    match list_find (λ kv : string * GoValue, stops kv.2 = true) entries with
    | Some (_, (_, v)) =>
        if nilPointer v then Panics nilDereference else Returns None
    | None =>
        Returns
          (Some (foldl (λ acc (kv : string * GoValue),
                          from_option (λ a, <[kv.1 := a]> acc) acc
                            (stored kv.2))
                       args entries))
    end.
Proof.
  revert args. induction entries as [|[k v] entries IH]; intros args; [done|].
  cbn [convertArgs_loop list_find foldl fst snd].
  rewrite convertArg_stored.
  destruct (decide (stops v = true)) as [Hs|Hs].
  - apply stops_stored in Hs. rewrite Hs. by destruct (nilPointer v).
  - apply not_true_is_false, stops_false_stored in Hs as [a Ha].
    rewrite Ha. cbn [from_option]. rewrite IH.
    by destruct (list_find _ entries) as [[i [k' v']]|].
Qed.

(** When every entry is stored, the result holds each key of the entries
    with the typed value of its argument. *)
Lemma stored_entries_lookup entries (args : gmap string ArgValue) k :
  NoDup entries.*1 ->
  Forall (λ kv : string * GoValue, stops kv.2 = false) entries ->
  foldl (λ acc (kv : string * GoValue),
           from_option (λ a, <[kv.1 := a]> acc) acc (stored kv.2))
        args entries !! k =
    match (list_to_map entries : gmap string GoValue) !! k with
    | Some v => stored v
    | None => args !! k
    end.
Proof.
  revert args. induction entries as [|[k0 v0] entries IH]; intros args Hnd Hall;
    [done|].
  apply NoDup_cons in Hnd as [Hk0 Hnd].
  apply Forall_cons in Hall as [Hv0 Hall]. cbn [snd] in Hv0.
  apply stops_false_stored in Hv0 as [a0 Ha0].
  cbn [foldl fst snd]. rewrite Ha0. cbn [from_option].
  rewrite (IH _ Hnd Hall). cbn [list_to_map foldr curry fst snd].
  destruct (decide (k = k0)) as [->|Hne].
  - rewrite lookup_insert_eq.
    rewrite (not_elem_of_list_to_map_1 _ _ Hk0). by rewrite lookup_insert_eq.
  - by rewrite !lookup_insert_ne by done.
Qed.

(** The outcome of [convertArgs], for whatever order Go visits the map in:
    the closed form of the loop read on the map. *)
Lemma convertArgs_in_spec (vars : gmap string GoValue) entries :
  entries ≡ₚ map_to_list vars ->
  convertArgs_in entries =
    match list_find (λ kv : string * GoValue, stops kv.2 = true) entries with
    | Some (_, (_, v)) =>
        if nilPointer v then Panics nilDereference else Returns None
    | None => Returns (Some (omap stored vars))
    end.
Proof.
  intros Hp. unfold convertArgs_in. rewrite convertArgs_loop_spec.
  destruct (list_find _ entries) as [[i [k v]]|] eqn:Hfind; [done|].
  do 2 f_equal. apply map_eq. intros k.
  apply list_find_None in Hfind.
  assert (NoDup entries.*1) as Hnd.
  { rewrite Hp. apply NoDup_fst_map_to_list. }
  rewrite stored_entries_lookup; [|done|].
  2:{ eapply Forall_impl; [exact Hfind|]. intros [k' v'] Hn. cbn in *.
      by apply not_true_is_false. }
  assert ((list_to_map entries : gmap string GoValue) = vars) as ->.
  { rewrite (list_to_map_proper _ _ Hnd Hp). apply list_to_map_to_list. }
  rewrite lookup_omap, lookup_empty. by destruct (vars !! k).
Qed.

(** Without a nil pointer in the map, one value of an unrecognized type
    makes [convertArgs] return nil, in whatever order the map is
    visited. *)
Lemma convertArgs_in_rejects (vars : gmap string GoValue) entries k v :
  entries ≡ₚ map_to_list vars ->
  map_Forall (λ _ w, nilPointer w = false) vars ->
  vars !! k = Some v -> recognized v = false ->
  convertArgs_in entries = Returns None.
Proof.
  intros Hp Hnil Hk Hr. rewrite (convertArgs_in_spec vars) by done.
  destruct (list_find _ entries) as [[i [k' v']]|] eqn:Hfind.
  - apply list_find_Some in Hfind as (Hi & _ & _).
    apply list_elem_of_lookup_2 in Hi. rewrite Hp in Hi.
    apply elem_of_map_to_list in Hi. by rewrite (Hnil _ _ Hi).
  - apply list_find_None in Hfind. rewrite Forall_forall in Hfind.
    destruct (Hfind (k, v)).
    + rewrite Hp. by apply elem_of_map_to_list.
    + cbn. apply stops_cases. by left.
Qed.

(** A map whose values all have recognized types and are no nil pointers
    is converted, in whatever order the map is visited. *)
Lemma convertArgs_in_accepts (vars : gmap string GoValue) entries :
  entries ≡ₚ map_to_list vars ->
  map_Forall (λ _ w, stops w = false) vars ->
  convertArgs_in entries = Returns (Some (omap stored vars)).
Proof.
  intros Hp Hall. rewrite (convertArgs_in_spec vars) by done.
  destruct (list_find _ entries) as [[i [k' v']]|] eqn:Hfind; [|done].
  apply list_find_Some in Hfind as (Hi & Hs & _).
  apply list_elem_of_lookup_2 in Hi. rewrite Hp in Hi.
  apply elem_of_map_to_list in Hi. cbn in Hs.
  rewrite (Hall _ _ Hi) in Hs. discriminate.
Qed.

(** A map whose values all have recognized types and that holds a nil
    pointer makes [convertArgs] panic, in whatever order it is visited. *)
Lemma convertArgs_in_panics (vars : gmap string GoValue) entries k v :
  entries ≡ₚ map_to_list vars ->
  map_Forall (λ _ w, recognized w = true) vars ->
  vars !! k = Some v -> nilPointer v = true ->
  convertArgs_in entries = Panics nilDereference.
Proof.
  intros Hp Hrec Hk Hn. rewrite (convertArgs_in_spec vars) by done.
  destruct (list_find _ entries) as [[i [k' v']]|] eqn:Hfind.
  - apply list_find_Some in Hfind as (Hi & Hs & _).
    apply list_elem_of_lookup_2 in Hi. rewrite Hp in Hi.
    apply elem_of_map_to_list in Hi. cbn in Hs.
    apply stops_cases in Hs as [Hs|Hs]; [|by rewrite Hs].
    rewrite (Hrec _ _ Hi) in Hs. discriminate.
  - apply list_find_None in Hfind. rewrite Forall_forall in Hfind.
    destruct (Hfind (k, v)).
    + rewrite Hp. by apply elem_of_map_to_list.
    + cbn. apply stops_cases. by right.
Qed.

(** Without a nil pointer in the map, [convertArgs] returns. *)
Lemma convertArgs_in_returns (vars : gmap string GoValue) entries :
  entries ≡ₚ map_to_list vars ->
  map_Forall (λ _ w, nilPointer w = false) vars ->
  exists res, convertArgs_in entries = Returns res.
Proof.
  intros Hp Hnil. rewrite (convertArgs_in_spec vars) by done.
  destruct (list_find _ entries) as [[i [k' v']]|] eqn:Hfind; [|by eauto].
  apply list_find_Some in Hfind as (Hi & _ & _).
  apply list_elem_of_lookup_2 in Hi. rewrite Hp in Hi.
  apply elem_of_map_to_list in Hi. rewrite (Hnil _ _ Hi). by eauto.
Qed.

(** [int64(x)] of a [uint64]: the upper half of the range turns negative. *)
Lemma wrap_uint64 n :
  0 <= n <= Int64.max_unsigned ->
  Int64.wrap n = if decide (n < 2 ^ 63) then n else n - 2 ^ 64.
Proof.
  unfold Int64.max_unsigned, Int64.wrap. intros Hn. case_decide.
  - rewrite Z.mod_small; lia.
  - replace (n + 2 ^ 63) with ((n - 2 ^ 63) + 1 * 2 ^ 64) by lia.
    rewrite Z_mod_plus_full, Z.mod_small; lia.
Qed.

Section Api.
Context {TxB Outs SigScheme Subscription : Type}.
Context (SchemeAddress : SigScheme -> Address)
        (Sign : Sctransaction.Transaction -> SigScheme ->
                Sctransaction.Transaction)
        (NewFromOutputBalances : Outs -> result TxB)
        (AddRequestBlockWithTransfer :
           TxB -> RequestBlock -> Address -> gmap N Z -> result TxB)
        (Build : TxB -> bool -> result Sctransaction.Transaction)
        (SubscribeMulti : list string -> string -> Z -> result Subscription)
        (WaitForPatterns :
           Subscription -> list (list string) -> Z -> Z -> bool)
        (AddressString : Address -> string)
        (IDString : TransactionID -> string)
        (Itoa : nat -> string)
        (DurationString : Z -> string).

Local Abbreviation Params := (@CreateRequestTransactionParams Outs SigScheme).
Local Abbreviation addBlocks := (addRequestBlocks AddRequestBlockWithTransfer).
Local Abbreviation create :=
  (@CreateRequestTransaction TxB Outs SigScheme Subscription SchemeAddress Sign
     NewFromOutputBalances AddRequestBlockWithTransfer Build SubscribeMulti
     WaitForPatterns AddressString IDString Itoa DurationString).

(** The loop over the blocks calls the builder's
    [AddRequestBlockWithTransfer] and nothing else. *)
Lemma addRequestBlocks_calls blocks (txb : TxB) :
  Forall (λ e, exists reqBlk target transfer,
                 e = CallAddRequestBlockWithTransfer reqBlk target transfer)
         (addBlocks blocks txb).2.
Proof.
  revert txb. induction blocks as [|b blocks IH]; intros txb;
    cbn [addRequestBlocks]; [by constructor|].
  destruct (TargetSCAddress b) as [target|]; [|by constructor].
  destruct (convertArgs (Vars b)) as [[args|]|msg]; try by constructor.
  destruct (AddRequestBlockWithTransfer _ _ _ _) as [txb'|e].
  - specialize (IH txb'). destruct (addBlocks blocks txb') as [res calls].
    constructor; [by eauto | done].
  - constructor; [by eauto | constructor].
Qed.

(** With no nil pointer among the targets and the arguments, the loop over
    the blocks ends with an error when it meets a block whose arguments
    [convertArgs] refuses, if not before. *)
Lemma addRequestBlocks_rejects blocks blockPar (txb : TxB) :
  blockPar ∈ blocks -> convertArgs (Vars blockPar) = Returns None ->
  Forall (λ b, is_Some (TargetSCAddress b) /\
               map_Forall (λ _ w, nilPointer w = false) (Vars b)) blocks ->
  exists err calls, addBlocks blocks txb = (Returns (Err err), calls).
Proof.
  intros Hin Hbad Hall. revert txb.
  induction blocks as [|b blocks IH]; intros txb;
    [by apply elem_of_nil in Hin|].
  apply Forall_cons in Hall as [[[target Ht] Hnil] Hall].
  cbn [addRequestBlocks]. rewrite Ht.
  destruct (convertArgs_in_returns (Vars b) (map_to_list (Vars b))
              (reflexivity _) Hnil) as [res Hres].
  fold (convertArgs (Vars b)) in Hres. rewrite Hres.
  destruct res as [args|]; [|by eauto].
  destruct (AddRequestBlockWithTransfer _ _ _ _) as [txb'|e]; [|by eauto].
  apply elem_of_cons in Hin as [->|Hin]; [congruence|].
  destruct (IH Hin Hall txb') as (err & calls & ->). by eauto.
Qed.

(** C9, amended. When the argument map of some block holds a value of a
    type the switch does not list, and no argument of any block is a nil
    pointer and no block has a nil target address: [convertArgs] returns
    nil for that map (in whatever order Go iterates over it), adding the
    blocks ends with an error for every builder, and
    [CreateRequestTransaction] returns an error and no transaction.  By
    then it has made one call to the ledger node, the fetch of the sender's
    confirmed outputs with which it starts, and after it only calls to the
    builder that do not make the transaction: [Build] and [Sign] are not
    called, nothing is posted, no subscription is opened. *)
Theorem C9_unrecognized_argument_rejected (par : Params) blockPar key v :
  blockPar ∈ BlockParams par ->
  Vars blockPar !! key = Some v ->
  recognized v = false ->
  Forall (λ b, is_Some (TargetSCAddress b) /\
               map_Forall (λ _ w, nilPointer w = false) (Vars b))
         (BlockParams par) ->
  convertArgs (Vars blockPar) = Returns None /\
  (forall entries, entries ≡ₚ map_to_list (Vars blockPar) ->
                   convertArgs_in entries = Returns None) /\
  (forall txb : TxB, exists err calls,
      addBlocks (BlockParams par) txb = (Returns (Err err), calls)) /\
  exists err events,
    create par =
      (Returns (Err err),
       NetGetConfirmedAccountOutputs (SchemeAddress (SenderSigScheme par))
         :: events) /\
    Forall (λ e, isNet e = false) events /\
    (CallBuild ∉ events) /\ (CallSign ∉ events).
Proof.
  intros Hin Hk Hr Hall.
  assert (map_Forall (λ _ w, nilPointer w = false) (Vars blockPar)) as Hnil.
  { rewrite Forall_forall in Hall. by destruct (Hall _ Hin). }
  assert (forall entries, entries ≡ₚ map_to_list (Vars blockPar) ->
                          convertArgs_in entries = Returns None) as Hrej.
  { intros entries Hp. by eapply convertArgs_in_rejects. }
  split; [by apply Hrej|]. split; [done|]. split.
  { intros txb. eapply addRequestBlocks_rejects; [done| |done].
    by apply Hrej. }
  unfold CreateRequestTransaction.
  destruct (GetConfirmedAccountOutputs _ _) as [allOuts|e].
  2:{ eexists _, []. split; [reflexivity|]. split; [constructor|].
      split; by intros ?%elem_of_nil. }
  destruct (NewFromOutputBalances allOuts) as [txb|e].
  2:{ eexists _, [_]. split; [reflexivity|].
      split; [by repeat constructor|].
      split; intros ?%list_elem_of_singleton; discriminate. }
  pose proof (addRequestBlocks_calls (BlockParams par) txb) as Hcalls.
  destruct (addRequestBlocks_rejects _ _ txb Hin (Hrej _ (reflexivity _)) Hall)
    as (err & calls & Hadd).
  rewrite Hadd in Hcalls |- *. cbn [snd] in Hcalls.
  eexists _, (CallNewFromOutputBalances :: calls).
  split; [reflexivity|]. rewrite Forall_forall in Hcalls. split; [|split].
  - constructor; [done|]. apply Forall_forall. intros e He.
    by destruct (Hcalls e He) as (r & t & tr & ->).
  - intros [?|He]%elem_of_cons; [discriminate|].
    by destruct (Hcalls _ He) as (r & t & tr & ?).
  - intros [?|He]%elem_of_cons; [discriminate|].
    by destruct (Hcalls _ He) as (r & t & tr & ?).
Qed.

End Api.

(** A boolean argument: the map is refused and the request fails, after
    the fetch and the making of the builder. *)
Lemma C9_witness :
  convertArgs {["flag" := VBool true]} = Returns None /\
  exists err events,
    CreateRequestTransaction Scenario.schemeAddress Scenario.sign
      Scenario.newFromOutputBalances Scenario.addRequestBlockWithTransfer
      Scenario.buildRequest Scenario.subscribeMulti Scenario.waitForPatterns
      Scenario.addressString Scenario.idString Scenario.itoa
      Scenario.durationString
      (Scenario.requestParams {["flag" := VBool true]})
    = (Returns (Err err), NetGetConfirmedAccountOutputs 5%N :: events) /\
    (CallBuild ∉ events) /\ (CallSign ∉ events).
Proof.
  assert (Forall (λ b, is_Some (TargetSCAddress b) /\
                       map_Forall (λ _ w, nilPointer w = false) (Vars b))
            (BlockParams (Scenario.requestParams {["flag" := VBool true]})))
    as Hall.
  { repeat constructor; [by eexists|].
    intros k w Hk. cbn in Hk.
    apply lookup_singleton_Some in Hk as [<- <-]. reflexivity. }
  destruct (C9_unrecognized_argument_rejected
              Scenario.schemeAddress Scenario.sign
              Scenario.newFromOutputBalances
              Scenario.addRequestBlockWithTransfer
              Scenario.buildRequest Scenario.subscribeMulti
              Scenario.waitForPatterns
              Scenario.addressString Scenario.idString Scenario.itoa
              Scenario.durationString
              (Scenario.requestParams {["flag" := VBool true]})
              (mkRequestBlockParams (Some 6%N) 1 0 ∅ {["flag" := VBool true]})
              "flag" (VBool true)
              ltac:(left) (lookup_singleton_eq _ _) eq_refl Hall)
    as (Hnil & _ & _ & err & events & Hcreate & _ & Hb & Hs).
  split; [exact Hnil|]. exists err, events.
  split; [exact Hcreate|]. split; [exact Hb | exact Hs].
Defined.

(** C9 as stated fails.  The rejection comes after a call to the ledger
    node.  And beside a nil pointer the unrecognized value is rejected or
    not according to the order in which Go visits the map: the nil address
    visited first makes [convertArgs] panic. *)
Lemma C9_rejected_after_fetching_outputs :
  CreateRequestTransaction Scenario.schemeAddress Scenario.sign
    Scenario.newFromOutputBalances Scenario.addRequestBlockWithTransfer
    Scenario.buildRequest Scenario.subscribeMulti Scenario.waitForPatterns
    Scenario.addressString Scenario.idString Scenario.itoa
    Scenario.durationString
    (Scenario.requestParams {["flag" := VBool true]})
  = (Returns (Err "wrong arguments"),
     [NetGetConfirmedAccountOutputs 5%N; CallNewFromOutputBalances]) /\
  convertArgs_in [("flag", VBool true); ("target", VAddress None)]
  = Returns None /\
  convertArgs_in [("target", VAddress None); ("flag", VBool true)]
  = Panics nilDereference.
Proof. vm_compute. repeat split. Qed.

(** C10, amended. [convertArgs] stores a [uint64] argument as the [int64]
    with the same 64 bits, without a range check: values below [2^63] are
    kept, values from [2^63] on are stored as the negative number
    [n - 2^64].  No value of the integer types the switch lists ([int],
    [byte], [int16], [int32], [int64], [uint16], [uint32], [uint64]) is
    refused. *)
Theorem C10_uint64_stored_without_range_check :
  (forall key n args,
     0 <= n <= Int64.max_unsigned ->
     convertArg key (VUint64 n) args =
       Returns
         (Some (<[key := AInt64 (if decide (n < 2 ^ 63) then n
                                 else n - 2 ^ 64)]> args))) /\
  (forall key n,
     2 ^ 63 <= n <= Int64.max_unsigned ->
     convertArgs {[key := VUint64 n]}
       = Returns (Some {[key := AInt64 (n - 2 ^ 64)]}) /\
     n - 2 ^ 64 < 0) /\
  (forall key v args,
     switchInteger v = true ->
     exists args', convertArg key v args = Returns (Some args')) /\
  (forall vars : gmap string GoValue,
     map_Forall (λ _ v, switchInteger v = true) vars ->
     exists args, convertArgs vars = Returns (Some args)).
Proof.
  split; [|split; [|split]].
  - intros key n args Hn. cbn. unfold SetInt64. by rewrite wrap_uint64.
  - intros key n Hn. split; [|unfold Int64.max_unsigned in Hn; lia].
    unfold convertArgs, convertArgs_in. rewrite map_to_list_singleton. cbn.
    unfold SetInt64. rewrite wrap_uint64 by lia.
    rewrite decide_False by lia. by rewrite insert_empty.
  - intros key v args Hv.
    destruct v as [| | | | | | | | | |[?|]|[?|]|[?|]| | | | |];
      try discriminate Hv; by eexists.
  - intros vars Hall. eexists.
    apply (convertArgs_in_accepts vars (map_to_list vars) (reflexivity _)).
    intros k v Hk. apply switchInteger_stops. by apply (Hall k v).
Qed.

(** The largest [uint64] is stored as -1. *)
Lemma C10_witness :
  convertArgs {["n" := VUint64 (2 ^ 64 - 1)]}
    = Returns (Some {["n" := AInt64 (2 ^ 64 - 1 - 2 ^ 64)]}) /\
  2 ^ 64 - 1 - 2 ^ 64 < 0.
Proof.
  apply (proj1 (proj2 C10_uint64_stored_without_range_check) "n" (2 ^ 64 - 1)).
  vm_compute. split; discriminate.
Defined.

(** C10 as stated fails in its last clause: an [int8] argument, and a
    [uint] argument, make [convertArgs] return nil. *)
Lemma C10_int8_and_uint_refused :
  isInteger (VInt8 1) = true /\
  convertArgs {["n" := VInt8 1]} = Returns None /\
  isInteger (VUint 1) = true /\
  convertArgs {["n" := VUint 1]} = Returns None.
Proof. vm_compute. repeat split. Qed.

End ApilibTheory.

(** ** Property analysis: senders, minting figures, request-only
    transactions *)

Module PropertiesCoverage.
Import Ledger Sctransaction Notions Derived PropertiesTheory.

Lemma analyzeSender_loop_total addrs prop found :
  numMintedTokens (analyzeSender_loop addrs prop found).1
  = numMintedTokens prop.
Proof.
  revert prop found. induction addrs as [|a addrs IH]; intros prop found; cbn.
  - done.
  - destruct found; [done|]. apply (IH (set_sender a prop) true).
Qed.

Lemma analyzeSender_loop_sender addrs prop found p :
  analyzeSender_loop addrs prop found = (p, None) ->
  (addrs = [] /\ sender p = sender prop) \/
  (found = false /\ addrs = [sender p]).
Proof.
  destruct addrs as [|a [|b rest]]; cbn.
  - intros [= <-]. by left.
  - destruct found; [done|]. intros [= <-]. by right.
  - destruct found; done.
Qed.

Lemma foldl_countMinted_total outs p0 :
  Int64.in_range (numMintedTokens p0) ->
  numMintedTokens (foldl countMintedTokens_visit p0 outs)
  = Int64.wrap (numMintedTokens p0
                + sumZ (map (λ out, BalanceOfColor out.2 ColorNew) outs)).
Proof.
  intros Hr. induction outs as [|out outs IH] using rev_ind.
  - cbn. rewrite Z.add_0_r. by rewrite Int64.wrap_id.
  - rewrite foldl_snoc, map_app, sumZ_app. cbn [map].
    unfold countMintedTokens_visit at 1.
    set (p := foldl countMintedTokens_visit p0 outs) in *.
    replace (sumZ [BalanceOfColor out.2 ColorNew])
      with (BalanceOfColor out.2 ColorNew) by (unfold sumZ; cbn; lia).
    rewrite Z.add_assoc. case_decide as Hz.
    + by rewrite Hz, Z.add_0_r.
    + cbn. unfold Int64.add. rewrite IH. by rewrite Int64.wrap_wrap_add.
Qed.

Lemma foldl_countMinted_dom outs p0 a :
  numMintedTokensByAddr p0 = ∅ ->
  is_Some (numMintedTokensByAddr (foldl countMintedTokens_visit p0 outs) !! a)
  <-> exists bals, (a, bals) ∈ outs /\ BalanceOfColor bals ColorNew ≠ 0.
Proof.
  intros H0. induction outs as [|out outs IH] using rev_ind.
  - cbn. rewrite H0, lookup_empty. split; [by intros [? ?]|].
    by intros (? & ?%elem_of_nil & _).
  - rewrite foldl_snoc. unfold countMintedTokens_visit at 1.
    set (p := foldl countMintedTokens_visit p0 outs) in *.
    destruct out as [a' bals']. cbn [fst snd].
    case_decide as Hz.
    + rewrite IH. split; intros (bals & Hin & Hnz); exists bals; split; try done.
      * apply elem_of_app. by left.
      * apply elem_of_app in Hin as [Hin|Hin]; [done|].
        apply list_elem_of_singleton in Hin. congruence.
    + cbn. destruct (decide (a' = a)) as [->|Hne].
      * rewrite lookup_insert_eq. split; [|by eauto].
        intros _. exists bals'. split; [|done]. apply elem_of_app. right. by left.
      * rewrite lookup_insert_ne by done. rewrite IH.
        split; intros (bals & Hin & Hnz); exists bals; split; try done.
        -- apply elem_of_app. by left.
        -- apply elem_of_app in Hin as [Hin|Hin]; [done|].
           apply list_elem_of_singleton in Hin. congruence.
Qed.

Lemma scTokenScan_total outs prop v :
  numMintedTokens (scTokenScan outs prop v).1 = numMintedTokens prop.
Proof.
  revert prop v.
  induction outs as [|[addr bals] outs IH]; intros prop v; [done|].
  cbn [scTokenScan]. case_decide; [done|]. by rewrite IH.
Qed.

Lemma analyzeStateBlock_total prop tx :
  numMintedTokens (analyzeStateBlock prop tx).1 = numMintedTokens prop.
Proof.
  unfold analyzeStateBlock. destruct (State tx) as [sb|]; [|done].
  case_decide.
  - pose proof (scTokenScan_total (Outputs tx)
                  (set_stateColor (sbColor sb) (set_isState true prop)) 0) as H1.
    destruct (scTokenScan _ _ _) as [p [e|]]; [done|].
    by case_decide.
  - by case_decide.
Qed.

Lemma analyzeStateBlock_sender prop tx :
  sender (analyzeStateBlock prop tx).1 = sender prop.
Proof.
  unfold analyzeStateBlock. destruct (State tx) as [sb|]; [|done].
  case_decide.
  - pose proof (scTokenScan_fields (Outputs tx)
                  (set_stateColor (sbColor sb) (set_isState true prop)) 0)
      as (H1 & _).
    destruct (scTokenScan _ _ _) as [p [e|]]; [done|].
    by case_decide.
  - by case_decide.
Qed.

(** The stages of [calcProperties] on an accepted transaction. *)
Lemma calcProperties_Ok_stages tx prop :
  calcProperties tx = Ok prop ->
  exists p1,
    analyzeSender emptyProperties tx = (p1, None) /\
    analyzeStateBlock (countMintedTokens p1 tx) tx = (prop, None) /\
    analyzeRequestBlocks prop tx = (prop, None).
Proof.
  unfold calcProperties.
  destruct (analyzeSender emptyProperties tx) as [p1 [e|]] eqn:E1; [done|].
  destruct (analyzeStateBlock _ tx) as [p2 [e|]] eqn:E2; [done|].
  pose proof (analyzeRequestBlocks_prop p2 tx) as Hp.
  destruct (analyzeRequestBlocks p2 tx) as [p3 [e|]] eqn:E3; [done|].
  cbn in Hp. subst p3. intros [= <-]. by exists p1.
Qed.

(** The sender of an accepted transaction is its one input address, or
    the zero address if the transaction has no input address; and a
    transaction without input address is analysed exactly like the same
    transaction with the zero address as its one input: the sender scan
    refuses a second address and nothing else. *)
Theorem calcProperties_sender (tx : Transaction) :
  (forall prop,
     calcProperties tx = Ok prop ->
     (Inputs tx = [] /\ sender prop = zeroAddress) \/
     Inputs tx = [sender prop]) /\
  (Inputs tx = [] ->
   calcProperties tx = calcProperties (withInputs [zeroAddress] tx)).
Proof.
  split.
  - intros prop (p1 & H1 & H2 & _)%calcProperties_Ok_stages.
    pose proof (analyzeStateBlock_sender (countMintedTokens p1 tx) tx) as Hs.
    rewrite H2 in Hs. cbn in Hs.
    destruct (countMintedTokens_fields p1 tx) as (Hs' & _).
    rewrite Hs' in Hs. rewrite Hs.
    apply analyzeSender_loop_sender in H1 as [[-> ->]|[_ ->]];
      [by left|by right].
  - destruct tx as [id ins outs st reqs]. cbn [Inputs]. intros ->.
    reflexivity.
Qed.

(** The minting figures of an accepted transaction: the total is the
    [int64] sum of the new-color amounts of all outputs, the figure of an
    address the [int64] sum over the outputs to that address, and the map
    has an entry exactly for the addresses that have an output with a
    non-zero new-color amount. *)
Theorem calcProperties_minted_accounting (tx : Transaction) prop :
  calcProperties tx = Ok prop ->
  numMintedTokens prop = mintedTotal (Outputs tx) /\
  (forall a, default 0 (numMintedTokensByAddr prop !! a)
             = mintedTo (Outputs tx) a) /\
  (forall a, is_Some (numMintedTokensByAddr prop !! a) <->
             exists bals, (a, bals) ∈ Outputs tx /\
                          BalanceOfColor bals ColorNew ≠ 0).
Proof.
  intros (p1 & H1 & H2 & _)%calcProperties_Ok_stages.
  pose proof (analyzeStateBlock_total (countMintedTokens p1 tx) tx) as Ht.
  pose proof (analyzeStateBlock_minted (countMintedTokens p1 tx) tx) as Hm.
  rewrite H2 in Ht, Hm. cbn in Ht, Hm. rewrite Ht, Hm.
  pose proof (analyzeSender_loop_total (Inputs tx) emptyProperties false) as Ht1.
  unfold analyzeSender in H1. rewrite H1 in Ht1. cbn in Ht1.
  split; [|split].
  - unfold countMintedTokens, mintedTotal.
    rewrite foldl_countMinted_total; cbn; rewrite Ht1; [done | by vm_compute].
  - intros a. apply countMintedTokens_lookup.
  - intros a. unfold countMintedTokens. by apply foldl_countMinted_dom.
Qed.

Lemma analyzeSender_None_iff tx :
  (exists p1, analyzeSender emptyProperties tx = (p1, None)) <->
  (length (Inputs tx) <= 1)%nat.
Proof.
  unfold analyzeSender. destruct (Inputs tx) as [|a [|b rest]]; cbn.
  - split; [lia | by eauto].
  - split; [lia | by eauto].
  - split; [by intros [? ?] | lia].
Qed.

(** A transaction without state block is accepted exactly when it has at
    most one input address, at least one request block, and mints to every
    target address at least as many tokens as it sends requests there. *)
Theorem calcProperties_request_only (tx : Transaction) :
  State tx = None ->
  Z.of_nat (length (Requests tx)) <= Int64.max_signed ->
  (exists prop, calcProperties tx = Ok prop) <->
  (length (Inputs tx) <= 1)%nat /\
  Requests tx ≠ [] /\
  (forall a, a ∈ map rbAddress (Requests tx) ->
             requestCount (Requests tx) a <= mintedTo (Outputs tx) a).
Proof.
  intros Hs Hlen. split.
  - intros [prop (p1 & H1 & H2 & H3)%calcProperties_Ok_stages].
    split; [apply analyzeSender_None_iff; eauto|].
    unfold analyzeStateBlock in H2. rewrite Hs in H2. injection H2 as <-.
    assert (Requests tx ≠ []) as Hne.
    { intros Hnil. unfold analyzeRequestBlocks in H3. rewrite Hnil in H3.
      cbn in H3. discriminate. }
    split; [done|]. intros a Ha.
    destruct (analyzeRequestBlocks_nonempty
                (set_isState false (countMintedTokens p1 tx)) tx Hne) as [He|He];
      rewrite He in H3; [discriminate|].
    injection H3 as H3.
    destruct (Z_le_gt_dec (requestCount (Requests tx) a)
                (mintedTo (Outputs tx) a)) as [|Hgt]; [done|].
    assert (requestTokenCheck
              (numMintedTokensByAddr (set_isState false (countMintedTokens p1 tx)))
              (map_to_list (numReqByAddr (Requests tx)))
            = Some errRequestTokens) as Hbad; [|cbn in Hbad; congruence].
    apply requestTokenCheck_Some. exists a, (requestCount (Requests tx) a).
    split.
    + apply elem_of_map_to_list. rewrite numReqByAddr_lookup by done.
      apply requestCount_pos in Ha. rewrite decide_False; [done|lia].
    + cbn. rewrite countMintedTokens_lookup. lia.
  - intros (Hin & Hne & Hall).
    apply analyzeSender_None_iff in Hin as [p1 H1].
    unfold calcProperties. rewrite H1.
    unfold analyzeStateBlock. rewrite Hs.
    set (p2 := set_isState false (countMintedTokens p1 tx)).
    assert (isOrigin p2 = false) as Ho.
    { cbn. destruct (countMintedTokens_fields p1 tx) as (_ & _ & -> & _).
      pose proof (analyzeSender_loop_fields (Inputs tx) emptyProperties false)
        as (_ & Ho & _).
      unfold analyzeSender in H1. rewrite H1 in Ho. by cbn in Ho. }
    unfold analyzeRequestBlocks. rewrite Ho.
    rewrite bool_decide_eq_false_2
      by (destruct (Requests tx); [done | cbn; lia]).
    rewrite andb_false_r.
    destruct (requestTokenCheck_cases (numMintedTokensByAddr p2)
                (map_to_list (numReqByAddr (Requests tx)))) as [-> | Hbad];
      [by eauto|].
    apply requestTokenCheck_Some in Hbad as (a & n & Hin & Hlt).
    apply elem_of_map_to_list in Hin.
    rewrite numReqByAddr_lookup in Hin by done.
    case_decide as Hz; [discriminate|]. injection Hin as <-.
    cbn in Hlt. rewrite countMintedTokens_lookup in Hlt.
    assert (a ∈ map rbAddress (Requests tx)) as Ha.
    { apply requestCount_pos.
      pose proof (requestCount_bounds (Requests tx) a). lia. }
    specialize (Hall a Ha). lia.
Qed.

(** A transaction without input address is accepted, with the zero
    address as sender. *)
Lemma calcProperties_sender_witness :
  exists prop,
    calcProperties Scenario.txNoInputs = Ok prop /\
    sender prop = zeroAddress.
Proof.
  destruct (calcProperties Scenario.txNoInputs) as [prop|e] eqn:Hc;
    [|by vm_compute in Hc].
  exists prop. split; [done|].
  destruct (proj1 (calcProperties_sender Scenario.txNoInputs) prop Hc)
    as [[_ Hs]|Hin]; [exact Hs | discriminate Hin].
Defined.

Lemma calcProperties_minted_accounting_witness :
  numMintedTokens Scenario.txOriginProperties
  = mintedTotal (Outputs Scenario.txOrigin).
Proof.
  apply (proj1 (calcProperties_minted_accounting Scenario.txOrigin
                  Scenario.txOriginProperties
                  ltac:(vm_compute; reflexivity))).
Defined.

Lemma calcProperties_request_only_witness :
  exists prop, calcProperties (Scenario.txRequests 3) = Ok prop.
Proof.
  apply (proj2 (calcProperties_request_only (Scenario.txRequests 3)
                  eq_refl ltac:(vm_compute; discriminate))).
  split; [cbn; lia|]. split; [discriminate|].
  intros a Ha. cbn in Ha.
  assert (a = 6%N) as ->.
  { repeat (apply elem_of_cons in Ha as [->|Ha]; [done|]).
    by apply elem_of_nil in Ha. }
  vm_compute. discriminate.
Defined.

Lemma requestTokenCheck_perm_witness :
  requestTokenCheck {[6%N := 2]} [(6%N, 1); (7%N, 1)]
  = requestTokenCheck {[6%N := 2]} [(7%N, 1); (6%N, 1)].
Proof.
  apply requestTokenCheck_perm. apply perm_swap.
Defined.

End PropertiesCoverage.

(** ** The registry of the older plugin *)

Module RegistryTheory.
Import Ledger State VMPlugin Registry.

Section Registry.
Context {VS Mut TxB ResultTx Balances : Type}.
Context (vmnilNew : @Processor VS Mut TxB).
Context (NewTxBuilder : Balances -> Color -> Address -> result TxB)
        (AddressString : Address -> string)
        (BatchHash : list RequestId -> Z -> HashValue)
        (HashString : HashValue -> string)
        (BackgroundWorker : string -> option error).

Lemma RegisterProcessor_cases programHash
    (processors : gmap string (@Processor VS Mut TxB)) :
  (programHash = sc1 /\
   RegisterProcessor vmnilNew programHash processors
     = (<[sc1 := vmnilNew]> processors, None)) \/
  (programHash ≠ sc1 /\
   exists e, RegisterProcessor vmnilNew programHash processors
             = (processors, Some e)).
Proof.
  unfold RegisterProcessor.
  destruct (decide (programHash = sc1)) as [->|Hne]; [by left|right].
  split; [done|]. repeat case_decide; by eauto.
Qed.

(** [RegisterProcessor] reports success for the hash of [sc1] and for no
    other; after a successful registration [getProcessor] finds the nil
    processor under that hash; a failed registration leaves the registry
    as it was; and no registration changes what [getProcessor] finds under
    another hash. *)
Theorem RegisterProcessor_then_getProcessor programHash
    (processors : gmap string (@Processor VS Mut TxB)) :
  ((RegisterProcessor vmnilNew programHash processors).2 = None
   <-> programHash = sc1) /\
  (programHash = sc1 ->
   getProcessor (RegisterProcessor vmnilNew programHash processors).1
     programHash = Ok vmnilNew) /\
  (programHash ≠ sc1 ->
   (RegisterProcessor vmnilNew programHash processors).1 = processors) /\
  (forall h, h ≠ programHash ->
     getProcessor (RegisterProcessor vmnilNew programHash processors).1 h
     = getProcessor processors h).
Proof.
  destruct (RegisterProcessor_cases programHash processors)
    as [[-> ->]|[Hne [e ->]]]; cbn [fst snd]; unfold getProcessor.
  - split; [done|]. split; [by rewrite lookup_insert_eq|].
    split; [done|]. intros h Hh. by rewrite lookup_insert_ne.
  - split; [by split|]. by repeat split.
Qed.

Lemma registerAll_lookup hashes
    (processors : gmap string (@Processor VS Mut TxB)) h :
  registerAll vmnilNew hashes processors !! h =
    if decide (h = sc1 /\ sc1 ∈ hashes) then Some vmnilNew
    else processors !! h.
Proof.
  revert processors. induction hashes as [|x hashes IH]; intros processors.
  - cbn. rewrite decide_False; [done|]. by intros [_ ?%elem_of_nil].
  - unfold registerAll in *. cbn [foldl]. rewrite IH.
    destruct (RegisterProcessor_cases x processors)
      as [[-> ->]|[Hne [e ->]]]; cbn [fst].
    + destruct (decide (h = sc1)) as [->|Hh].
      * rewrite (decide_True (P := sc1 = sc1 /\ sc1 ∈ sc1 :: hashes))
          by (split; [done|left]).
        case_decide; [done|]. by rewrite lookup_insert_eq.
      * rewrite !decide_False by (by intros [? _]).
        by rewrite lookup_insert_ne.
    + destruct (decide (h = sc1 /\ sc1 ∈ hashes)) as [[-> Hin]|Hn].
      * rewrite decide_True; [done|]. split; [done|by right].
      * rewrite decide_False; [done|]. intros [-> Hin].
        apply elem_of_cons in Hin as [?|?]; [congruence|]. by apply Hn.
Qed.

(** After any sequence of registrations [getProcessor] finds the nil
    processor under the hash of [sc1] if that hash was among them, and
    otherwise, and under every other hash, what it found before: no
    registration removes or replaces another program's processor. *)
Theorem getProcessor_after_registerAll hashes
    (processors : gmap string (@Processor VS Mut TxB)) h :
  getProcessor (registerAll vmnilNew hashes processors) h =
    if decide (h = sc1 /\ sc1 ∈ hashes) then Ok vmnilNew
    else getProcessor processors h.
Proof.
  unfold getProcessor. rewrite registerAll_lookup. by case_decide.
Qed.

(** Started from the empty registry, the plugin can only ever run tasks of
    the program [sc1], and only once that hash was registered: for every
    other task [RunComputationsAsync] returns the error of [getProcessor],
    makes no builder and schedules nothing. *)
Theorem RunComputationsAsync_needs_registered_sc1 hashes
    (ctx : @VMTask Mut ResultTx Balances) :
  ProgramHash ctx ≠ sc1 \/ sc1 ∉ hashes ->
  RunComputationsAsync NewTxBuilder AddressString BatchHash HashString
    BackgroundWorker (registerAll vmnilNew hashes ∅) ctx
  = (Some "no such processor", [], None).
Proof.
  intros Hno. unfold RunComputationsAsync, getProcessor.
  rewrite registerAll_lookup, lookup_empty.
  rewrite decide_False; [done|]. intros [? ?]. by destruct Hno.
Qed.

End Registry.

(** The task of program [sc1] is refused while only [sc2] and [sc3] were
    registered. *)
Lemma RunComputationsAsync_needs_registered_sc1_witness :
  RunComputationsAsync Scenario.newTxBuilder Scenario.addressName
    Scenario.batchHash Scenario.hashName Scenario.backgroundWorker
    (registerAll Scenario.echoProcessor [sc2; sc3] ∅) (Scenario.vmTask [])
  = (Some "no such processor", [], None).
Proof.
  apply RunComputationsAsync_needs_registered_sc1. right. intros Hin.
  repeat (apply elem_of_cons in Hin as [Hin|Hin]; [discriminate Hin|]).
  by apply elem_of_nil in Hin.
Defined.

End RegistryTheory.

(** ** The older plugin: what the loop and [runVM] always do *)

Module VMCoverage.
Import Ledger State VMPlugin Notions.

Section Runner.
Context {VS Mut TxB ResultTx Balances : Type} `{!State.VirtualState VS Mut}.
Context (NewTxBuilder : Balances -> Color -> Address -> result TxB)
        (EraseColor : TxB -> Address -> Color -> Z -> result TxB)
        (Finalize : TxB -> Z -> HashValue -> ResultTx)
        (AddressString : Address -> string)
        (BatchHash : list RequestId -> Z -> HashValue)
        (HashString : HashValue -> string)
        (BackgroundWorker : string -> option error).

Local Abbreviation Task := (@VMTask Mut ResultTx Balances).
Local Abbreviation body :=
  (@loopBody VS Mut TxB ResultTx Balances _ EraseColor).
Local Abbreviation processed :=
  (@Processed VS Mut TxB ResultTx Balances _ EraseColor).

(** An iteration panics only through a state pointer outside the store. *)
Lemma loopBody_valid (ctx : Task) processor st reqRef :
  (vmVariableState (loopCtx st) < length (loopStore st))%nat ->
  body ctx processor st reqRef ≠ NilPanic.
Proof.
  intros Hv. unfold loopBody.
  destruct (EraseColor _ _ _ _) as [txb|]; [|done]. cbn.
  destruct (lookup_lt_is_Some_2 _ _ Hv) as [vs ->].
  by destruct (processor _ vs) as [[txb' vs'] su].
Qed.

Lemma loopBody_Break (ctx : Task) processor st reqRef :
  body ctx processor st reqRef = Break ->
  exists e, EraseColor (vmTxBuilder (loopCtx st)) (TaskAddress ctx)
              (Sctransaction.ID (Tx reqRef)) 1 = Err e.
Proof.
  unfold loopBody. destruct (EraseColor _ _ _ _) as [txb|e]; [|by eauto].
  cbn. destruct (loopStore st !! _) as [vs|]; [|done].
  by destruct (processor _ vs) as [[txb' vs'] su].
Qed.

(** From a valid state the loop ends, with at most one more state update
    per request. *)
Lemma requestLoop_returns (ctx : Task) processor reqs st :
  (vmVariableState (loopCtx st) < length (loopStore st))%nat ->
  exists st',
    requestLoop EraseColor ctx processor reqs st = Some st' /\
    (length (loopUpdates st) <= length (loopUpdates st')
     <= length (loopUpdates st) + length reqs)%nat.
Proof.
  revert st. induction reqs as [|r reqs IH]; intros st Hv.
  - exists st. cbn. split; [done | lia].
  - cbn [requestLoop].
    destruct (body ctx processor st r) as [st1| |] eqn:Hb.
    + pose proof (VMTheory.loopBody_Continue EraseColor _ _ _ _ _ Hb)
        as (Hp & Hl & _ & su & _ & Hu).
      destruct (IH st1) as (st' & Hrun & Hlen); [lia|].
      exists st'. split; [done|].
      rewrite Hu, length_app in Hlen. cbn in *. lia.
    + exists st. split; [done | cbn; lia].
    + by apply loopBody_valid in Hb.
Qed.

(** From a valid state the loop of [runVM] ends, and it has then run the
    loop body to its end for a prefix of the requests, one state update
    each: for all of them, or up to the first request whose token
    [EraseColor] cannot erase. *)
Theorem requestLoop_runs_a_prefix (ctx : Task) processor reqs st :
  (vmVariableState (loopCtx st) < length (loopStore st))%nat ->
  exists st' k,
    requestLoop EraseColor ctx processor reqs st = Some st' /\
    (k <= length reqs)%nat /\
    processed ctx processor (take k reqs) st st' /\
    length (loopUpdates st') = (length (loopUpdates st) + k)%nat /\
    (k = length reqs \/
     exists reqRef e,
       reqs !! k = Some reqRef /\
       EraseColor (vmTxBuilder (loopCtx st')) (TaskAddress ctx)
         (Sctransaction.ID (Tx reqRef)) 1 = Err e).
Proof.
  revert st. induction reqs as [|r reqs IH]; intros st Hv.
  - exists st, 0%nat. cbn. repeat split; try done; try lia.
    constructor.
  - cbn [requestLoop].
    destruct (body ctx processor st r) as [st1| |] eqn:Hb.
    + pose proof (VMTheory.loopBody_Continue EraseColor _ _ _ _ _ Hb)
        as (Hp & Hl & _ & su & _ & Hu).
      destruct (IH st1) as (st' & k & Hrun & Hk & HP & Hlen & Hstop);
        [lia|].
      exists st', (S k). split; [done|]. split; [cbn; lia|].
      split; [by econstructor|]. split.
      { rewrite Hlen, Hu, length_app. cbn. lia. }
      destruct Hstop as [->|Hstop]; [by left | by right].
    + exists st, 0%nat. split; [done|]. split; [cbn; lia|].
      split; [constructor|]. split; [lia|]. right.
      apply loopBody_Break in Hb as [e He]. by exists r, e.
    + by apply loopBody_valid in Hb.
Qed.

(** [runVM] on a task whose state pointer is in the store: it returns; it
    calls [OnFinish] exactly when it returns no error, and then once; on
    success the batch holds between one state update and one per request,
    is for the state index after the task's, and a result transaction is
    set; it adds one object to the store (the working clone) and writes
    no object that existed other than the task's own. *)
Theorem runVM_outcome (ctx : Task) txbuilder processor (σ : list VS) orig :
  σ !! VariableState ctx = Some orig ->
  exists ctx' σ' events err,
    runVM EraseColor Finalize ctx txbuilder processor σ
      = Some (ctx', σ', events, err) /\
    events = match err with None => [EvOnFinish None] | Some _ => [] end /\
    (err = None ->
     exists batch tx,
       ResultBatch ctx' = Some batch /\
       (1 <= Size batch <= length (Requests ctx))%nat /\
       batchStateIndex batch = StateIndex orig + 1 /\
       ResultTransaction ctx' = Some tx) /\
    length σ' = S (length σ) /\
    (forall l, (l < length σ)%nat -> l ≠ VariableState ctx ->
               σ' !! l = σ !! l).
Proof.
  intros Ho. pose proof (lookup_lt_Some _ _ _ Ho) as Hlt.
  destruct (requestLoop_returns ctx processor (Requests ctx)
              (startState ctx txbuilder σ orig))
    as (st & Hloop & Hlen).
  { cbn. rewrite length_app. cbn. lia. }
  rewrite (VMTheory.runVM_after_loop EraseColor Finalize _ _ _ _ _ _ Ho Hloop).
  pose proof (VMTheory.requestLoop_frame EraseColor _ _ _ _ _ Hloop)
    as (_ & Hl & Hf).
  cbn in Hl, Hf, Hlen. rewrite length_app in Hl. cbn in Hl.
  assert (forall l, (l < length σ)%nat -> loopStore st !! l = σ !! l) as Hfr.
  { intros l Hl'. rewrite Hf by lia. by rewrite lookup_app_l. }
  destruct (loopUpdates st) as [|su sus] eqn:Hu.
  - eexists _, _, _, _. split; [reflexivity|]. split; [done|].
    split; [done|]. split; [lia|]. intros l Hl' _. by apply Hfr.
  - cbn zeta.
    set (batch := mkBatch (su :: sus) (StateIndex orig + 1)).
    destruct (ApplyBatch orig batch) as [vs' [e|]]; cbn [fst snd];
      eexists _, _, _, _; (split; [reflexivity|]); (split; [done|]);
      (split; [|split; [rewrite length_insert; lia|
                        intros l Hl' Hne; rewrite list_lookup_insert_ne by done;
                        by apply Hfr]]); [done|].
    intros _. eexists batch, _. cbn [ResultBatch ResultTransaction set_results].
    split; [done|]. split; [|done]. unfold Size. cbn [batchUpdates batch].
    cbn [length] in *. lia.
Qed.

(** [RunComputationsAsync] of the older plugin returns no error exactly
    when it handed a worker to the daemon; the worker then runs with the
    processor registered under the task's program hash and a builder made
    from the task's balances, and it is the only worker scheduled.  When an
    error is returned no worker was scheduled. *)
Theorem RunComputationsAsync_error_or_worker
    (processors : gmap string (@Processor VS Mut TxB)) (ctx : Task) :
  exists err events worker,
    RunComputationsAsync NewTxBuilder AddressString BatchHash HashString
      BackgroundWorker processors ctx = (err, events, worker) /\
    (err = None <-> is_Some worker) /\
    (err = None ->
     (exists txb processor,
        worker = Some (txb, processor) /\
        getProcessor processors (ProgramHash ctx) = Ok processor /\
        NewTxBuilder (TaskBalances ctx) (TaskColor ctx) (TaskAddress ctx)
          = Ok txb) /\
     events = [EvNewTxBuilder;
               EvBackgroundWorker
                 (taskName AddressString BatchHash HashString ctx)]) /\
    (err <> None -> forall name, EvBackgroundWorker name ∉ events).
Proof.
  unfold RunComputationsAsync.
  destruct (getProcessor processors (ProgramHash ctx)) as [processor|e].
  2:{ eexists _, _, _. split; [reflexivity|].
      split; [split; [done|by intros [? ?]]|]. split; [done|].
      intros _ name Hin. by apply elem_of_nil in Hin. }
  destruct (NewTxBuilder _ _ _) as [txb|e].
  2:{ eexists _, _, _. split; [reflexivity|].
      split; [split; [done|by intros [? ?]]|]. split; [done|].
      intros _ name Hin. by apply elem_of_nil in Hin. }
  cbn zeta. destruct (BackgroundWorker _) as [e|].
  - eexists _, _, _. split; [reflexivity|].
    split; [split; [done|by intros [? ?]]|]. split; [done|].
    intros _ name Hin. apply list_elem_of_singleton in Hin. discriminate.
  - eexists _, _, _. split; [reflexivity|]. split; [by split|].
    split; [|done]. intros _. split; [|done]. by exists txb, processor.
Qed.

End Runner.

#[local] Existing Instance Scenario.logState_VirtualState.

(** Three requests, tokens for the first two: the loop ends. *)
Lemma requestLoop_runs_a_prefix_witness :
  is_Some
    (requestLoop Scenario.eraseColor
       (Scenario.vmTask [Scenario.request 101; Scenario.request 102;
                         Scenario.request 103])
       Scenario.echoProcessor
       [Scenario.request 101; Scenario.request 102; Scenario.request 103]
       (startState
          (Scenario.vmTask [Scenario.request 101; Scenario.request 102;
                            Scenario.request 103])
          Scenario.twoTokens [Scenario.genesis] Scenario.genesis)).
Proof.
  destruct (requestLoop_runs_a_prefix Scenario.eraseColor
              (Scenario.vmTask [Scenario.request 101; Scenario.request 102;
                                Scenario.request 103])
              Scenario.echoProcessor
              [Scenario.request 101; Scenario.request 102;
               Scenario.request 103]
              (startState
                 (Scenario.vmTask [Scenario.request 101;
                                   Scenario.request 102;
                                   Scenario.request 103])
                 Scenario.twoTokens [Scenario.genesis] Scenario.genesis)
              ltac:(cbn; lia))
    as (st' & k & Hrun & _).
  rewrite Hrun. by exists st'.
Defined.

(** [runVM] on one funded request returns. *)
Lemma runVM_outcome_witness :
  is_Some
    (runVM Scenario.eraseColor Scenario.finalize
       (Scenario.vmTask [Scenario.request 101])
       Scenario.twoTokens Scenario.echoProcessor [Scenario.genesis]).
Proof.
  destruct (runVM_outcome Scenario.eraseColor Scenario.finalize
              (Scenario.vmTask [Scenario.request 101])
              Scenario.twoTokens Scenario.echoProcessor [Scenario.genesis]
              Scenario.genesis eq_refl)
    as (ctx' & σ' & events & err & Hrun & _).
  rewrite Hrun. by eexists.
Defined.

End VMCoverage.

(** ** The [RunVM] plugin: scheduling and the result batch *)

Module RunVMCoverage.
Import Ledger State RunVMPlugin Notions.

Section Task.
Context {VS Mut TxB Balances : Type} `{!State.VirtualState VS Mut}.
Context (NewFromAddressBalances : Address -> Balances -> result TxB)
        (BalancesToString : Balances -> string)
        (AddressString : Address -> string)
        (BatchHash : list RequestId -> Z -> Z -> HashValue)
        (HashString : HashValue -> string)
        (BackgroundWorker : string -> option error)
        (prepareBuilder : @VMTask Mut Balances -> TxB -> result TxB)
        (runTheRequest :
           @VMContext Mut TxB -> VS -> TxB * VS * StateUpdate Mut)
        (HashData : HashValue -> HashValue)
        (SetStateParams : TxB -> Z -> HashValue -> Z -> result TxB)
        (Build : TxB -> bool -> result Sctransaction.Transaction).

Local Abbreviation Task := (@VMTask Mut Balances).

(** [RunComputationsAsync] of the [RunVM] plugin returns no error exactly
    when it handed a worker to the daemon; the task then has a request, the
    worker runs with the builder made from the task's address and balances,
    and it is the only worker scheduled.  When an error is returned no
    worker was scheduled. *)
Theorem RunComputationsAsync_accepts_iff_scheduled (ctx : Task) :
  exists err events worker,
    RunComputationsAsync NewFromAddressBalances BalancesToString
      AddressString BatchHash HashString BackgroundWorker ctx
      = (err, events, worker) /\
    (err = None <-> is_Some worker) /\
    (err = None ->
     Requests ctx ≠ [] /\
     (exists txb,
        worker = Some txb /\
        NewFromAddressBalances (TaskAddress ctx) (TaskBalances ctx)
          = Ok txb) /\
     events = [EvNewTxBuilder;
               EvBackgroundWorker
                 (taskName AddressString BatchHash HashString ctx)]) /\
    (err <> None -> forall name, EvBackgroundWorker name ∉ events).
Proof.
  unfold RunComputationsAsync. case_bool_decide as Hreq.
  { eexists _, _, _. split; [reflexivity|].
    split; [split; [done|by intros [? ?]]|]. split; [done|].
    intros _ name Hin. by apply elem_of_nil in Hin. }
  destruct (NewFromAddressBalances _ _) as [txb|e].
  2:{ eexists _, _, _. split; [reflexivity|].
      split; [split; [done|by intros [? ?]]|]. split; [done|].
      intros _ name Hin. apply list_elem_of_singleton in Hin. discriminate. }
  cbn zeta. destruct (BackgroundWorker _) as [e|].
  - eexists _, _, _. split; [reflexivity|].
    split; [split; [done|by intros [? ?]]|]. split; [done|].
    intros _ name Hin. apply list_elem_of_singleton in Hin. discriminate.
  - eexists _, _, _. split; [reflexivity|]. split; [by split|].
    split; [|done]. intros _. split; [|split; [by exists txb | done]].
    intros Hnil. by rewrite Hnil in Hreq.
Qed.

(** [runTask] on a task with at least one request, once [createVMContext]
    has succeeded: it returns after exactly one [OnFinish] call; whatever
    the outcome, the task's result batch holds exactly one state update per
    request (this runner never truncates) for the state index after the
    task's; two objects were added to the store (the working clone and the
    clone the hash is taken from) and none that existed was written; and
    when no error is reported the result transaction is set, carries a
    state block and has passed the property analysis. *)
Theorem runTask_batch_per_request (ctx : Task) txb txb1 (σ : list VS) orig :
  (forall t tx, Build t false = Ok tx -> is_Some (Sctransaction.State tx)) ->
  σ !! VirtualState ctx = Some orig ->
  prepareBuilder ctx txb = Ok txb1 ->
  Requests ctx ≠ [] ->
  exists ctx' σ' err batch,
    runTask prepareBuilder runTheRequest HashData SetStateParams Build
      ctx txb σ = Some (ctx', σ', [EvOnFinish err]) /\
    ResultBatch ctx' = Some batch /\
    Size batch = length (Requests ctx) /\
    batchStateIndex batch = StateIndex orig + 1 /\
    length σ' = S (S (length σ)) /\
    (forall l, (l < length σ)%nat -> σ' !! l = σ !! l) /\
    (err = None ->
     exists tx prop,
       ResultTransaction ctx' = Some tx /\
       Sctransaction.calcProperties tx = Ok prop /\
       is_Some (Sctransaction.State tx)).
Proof.
  intros HBuild Ho Hprep Hreq. pose proof (lookup_lt_Some _ _ _ Ho) as Hlt.
  unfold runTask, createVMContext. rewrite Ho, Hprep.
  cbn [alloc mbind option_bind].
  set (st0 := mkLoopState _ _ _).
  assert (validLoopState st0) as Hv0.
  { unfold validLoopState, st0. cbn. rewrite length_app. cbn. lia. }
  destruct (RunVMTheory.requestLoop_all runTheRequest HashData
              (Requests ctx) st0 Hv0)
    as (st & Hrun & Hv & Hptr & Hlen & Hfr & Hup).
  rewrite Hrun. cbn [mbind option_bind].
  assert (forall l, (l < length σ)%nat -> loopStore st !! l = σ !! l)
    as Hframe.
  { intros l Hl. rewrite Hfr by (unfold st0; cbn; lia).
    unfold st0. cbn. by rewrite lookup_app_l. }
  assert (length (loopStore st) = S (length σ)) as Hlen'.
  { rewrite Hlen. unfold st0. cbn. rewrite length_app. cbn. lia. }
  assert (length (loopUpdates st) = length (Requests ctx)) as Hsize.
  { rewrite Hup. by unfold st0. }
  case_bool_decide as Hempty.
  { rewrite Hempty in Hsize. symmetry in Hsize.
    by apply nil_length_inv in Hsize. }
  unfold NewBatch. destruct (loopUpdates st) as [|su sus] eqn:Hu; [done|].
  rewrite Hframe, Ho by done. cbn [mbind option_bind].
  erewrite RunVMTheory.resultingStateHash_spec; [|cbn; by rewrite Hframe].
  cbn [mbind option_bind].
  set (batch := WithStateIndex _ _).
  assert (forall x : VS, forall l, (l < length σ)%nat ->
            (loopStore st ++ [x]) !! l = σ !! l) as Hframe2.
  { intros x l Hl. rewrite lookup_app_l by lia. by apply Hframe. }
  assert (forall x : VS, length (loopStore st ++ [x]) = S (S (length σ)))
    as Hlen2.
  { intros x. rewrite length_app. cbn. lia. }
  assert (Size batch = length (Requests ctx)) as Hbsize.
  { by rewrite <- Hsize. }
  destruct (ApplyBatch orig batch) as [vs' [e|]] eqn:Hab; cbn [fst snd].
  { unfold finish. eexists _, _, _, batch. split; [reflexivity|].
    by repeat split; auto. }
  cbn [VirtualState set_results]. rewrite (Hframe2 vs' _ Hlt), Ho.
  cbn [mbind option_bind].
  rewrite lookup_app_r, Nat.sub_diag by lia.
  cbn [lookup list_lookup mbind option_bind].
  destruct (SetStateParams _ _ _ _) as [txb2|e] eqn:Hset.
  2:{ unfold finish. eexists _, _, _, batch. split; [reflexivity|].
      by repeat split; auto. }
  destruct (Build txb2 false) as [tx|e] eqn:Hbuild.
  2:{ unfold finish. eexists _, _, _, batch. split; [reflexivity|].
      by repeat split; auto. }
  destruct (Sctransaction.calcProperties tx) as [props|e] eqn:Hprops.
  2:{ unfold finish. eexists _, _, _, batch. split; [reflexivity|].
      by repeat split; auto. }
  destruct (HBuild _ _ Hbuild) as [sb Hsb]. rewrite Hsb.
  cbn [mbind option_bind].
  unfold finish. eexists _, _, _, batch. split; [reflexivity|].
  repeat split; auto. intros _. exists tx, props. by rewrite Hsb.
Qed.

End Task.

#[local] Existing Instance Scenario.logState_VirtualState.

(** Two requests: the result batch holds two state updates. *)
Lemma runTask_batch_per_request_witness :
  (λ r, Size <$> ResultBatch r.1.1) <$>
    runTask Scenario.keepBuilder Scenario.echoRequest N.succ
      Scenario.setStateParams Scenario.buildState
      (Scenario.runVMTask 5 [Scenario.request 101; Scenario.request 102])
      tt [Scenario.genesis]
  = Some (Some 2%nat).
Proof.
  destruct (runTask_batch_per_request
              Scenario.keepBuilder Scenario.echoRequest N.succ
              Scenario.setStateParams Scenario.buildState
              (Scenario.runVMTask 5 [Scenario.request 101;
                                     Scenario.request 102])
              tt tt [Scenario.genesis] Scenario.genesis
              ltac:(by intros t tx [= <-]) eq_refl eq_refl
              ltac:(discriminate))
    as (ctx' & σ' & err & batch & Hrun & Hb & Hs & _).
  rewrite Hrun. cbn [fmap option_fmap option_map fst snd].
  rewrite Hb. cbn [fmap option_fmap option_map]. by rewrite Hs.
Defined.

End RunVMCoverage.

(** ** The request API: converted arguments and network calls *)

Module ApilibCoverage.
Import Ledger State Apilib Notions Derived ApilibTheory.

(** [convertArgs], whatever the order in which Go iterates over the map,
    ends at the first entry it visits whose value is of an unrecognized
    type or a nil pointer: with nil for the former, with a panic for the
    latter.  Without such an entry the result holds exactly the keys of
    the map, each with the typed value of its argument.  So the outcome
    does not depend on the order when the map holds no nil pointer, or no
    value of an unrecognized type. *)
Theorem convertArgs_result (vars : gmap string GoValue) entries :
  entries ≡ₚ map_to_list vars ->
  convertArgs_in entries =
    match list_find (λ kv : string * GoValue, stops kv.2 = true) entries with
    | Some (_, (_, v)) =>
        if nilPointer v then Panics nilDereference else Returns None
    | None => Returns (Some (omap stored vars))
    end /\
  (map_Forall (λ _ v, nilPointer v = false) vars \/
   map_Forall (λ _ v, recognized v = true) vars ->
   convertArgs_in entries = convertArgs vars) /\
  (forall args,
     convertArgs vars = Returns (Some args) -> args = omap stored vars).
Proof.
  intros Hp. split; [by apply convertArgs_in_spec|]. split.
  - intros Hside. unfold convertArgs.
    destruct (list_find (λ kv : string * GoValue, stops kv.2 = true)
                (map_to_list vars)) as [[i [k v]]|] eqn:Hfind.
    + apply list_find_Some in Hfind as (Hi & Hs & _).
      apply list_elem_of_lookup_2, elem_of_map_to_list in Hi. cbn in Hs.
      apply stops_cases in Hs. destruct Hside as [Hnil|Hrec].
      * destruct Hs as [Hs|Hs]; [|by rewrite (Hnil _ _ Hi) in Hs].
        by rewrite (convertArgs_in_rejects vars entries k v),
                   (convertArgs_in_rejects vars (map_to_list vars) k v).
      * destruct Hs as [Hs|Hs]; [by rewrite (Hrec _ _ Hi) in Hs|].
        by rewrite (convertArgs_in_panics vars entries k v),
                   (convertArgs_in_panics vars (map_to_list vars) k v).
    + apply list_find_None in Hfind. rewrite Forall_forall in Hfind.
      assert (map_Forall (λ _ w, stops w = false) vars) as Hall.
      { intros k v Hk. apply not_true_is_false.
        apply (Hfind (k, v)). by apply elem_of_map_to_list. }
      by rewrite (convertArgs_in_accepts vars entries),
                 (convertArgs_in_accepts vars (map_to_list vars)).
  - intros args Hc. unfold convertArgs in Hc.
    rewrite (convertArgs_in_spec vars) in Hc by done.
    destruct (list_find _ _) as [[i [k v]]|].
    + by destruct (nilPointer v).
    + by injection Hc as <-.
Qed.

(** An integer of a type the type switch lists that fits [int64] is stored
    as the same number. *)
Theorem convertArgs_keeps_int64_values (vars : gmap string GoValue) args k v :
  convertArgs vars = Returns (Some args) ->
  vars !! k = Some v ->
  switchInteger v = true ->
  wellTyped v ->
  intValue v <= Int64.max_signed ->
  args !! k = Some (AInt64 (intValue v)).
Proof.
  intros Hc Hk Hint Hwt Hmax.
  assert (args = omap stored vars) as ->.
  { unfold convertArgs in Hc.
    rewrite (convertArgs_in_spec vars) in Hc by done.
    destruct (list_find _ _) as [[i [k' v']]|].
    - by destruct (nilPointer v').
    - by injection Hc as <-. }
  rewrite lookup_omap, Hk. cbn [mbind option_bind].
  unfold Int64.max_signed in Hmax.
  destruct v as [| | | | | | | | | |[?|]|[?|]|[?|]| | | | |];
    try discriminate Hint; cbn in *; try done;
    rewrite Int64.wrap_id; try done;
    unfold Int64.in_range, Int64.min_signed, Int64.max_signed,
           Int64.max_unsigned in *; lia.
Qed.

Section Api.
Context {TxB Outs SigScheme Subscription : Type}.
Context (SchemeAddress : SigScheme -> Address)
        (Sign : Sctransaction.Transaction -> SigScheme ->
                Sctransaction.Transaction)
        (NewFromOutputBalances : Outs -> result TxB)
        (AddRequestBlockWithTransfer :
           TxB -> RequestBlock -> Address -> gmap N Z -> result TxB)
        (Build : TxB -> bool -> result Sctransaction.Transaction)
        (SubscribeMulti : list string -> string -> Z -> result Subscription)
        (WaitForPatterns :
           Subscription -> list (list string) -> Z -> Z -> bool)
        (AddressString : Address -> string)
        (IDString : TransactionID -> string)
        (Itoa : nat -> string)
        (DurationString : Z -> string).

Local Abbreviation Params := (@CreateRequestTransactionParams Outs SigScheme).
Local Abbreviation postWait :=
  (@postAndWait Outs SigScheme Subscription SubscribeMulti WaitForPatterns
     AddressString IDString Itoa DurationString).
Local Abbreviation patternsOf :=
  (completionPatterns AddressString IDString Itoa).

Lemma completionPatterns_returns blocks tx i :
  Forall (λ blockPar, is_Some (TargetSCAddress blockPar)) blocks ->
  exists patterns, patternsOf blocks tx i = Returns patterns.
Proof.
  revert i. induction blocks as [|b blocks IH]; intros i Hall;
    cbn [completionPatterns]; [by eauto|].
  apply Forall_cons in Hall as [[target ->] Hall].
  destruct (IH (S i) Hall) as [patterns ->]. by eauto.
Qed.

(** The completion patterns are one per request block, and pattern [j]
    names the target of block [j] and the index [j]; they are made when
    no block has a nil target address. *)
Theorem completionPatterns_lookup blocks tx i :
  (Forall (λ blockPar, is_Some (TargetSCAddress blockPar)) blocks ->
   exists patterns,
     completionPatterns AddressString IDString Itoa blocks tx i
     = Returns patterns) /\
  (forall patterns,
     completionPatterns AddressString IDString Itoa blocks tx i
     = Returns patterns ->
     forall j,
       patterns !! j =
         blockPar ← blocks !! j;
         target ← TargetSCAddress blockPar;
         Some ["request_out"; AddressString target;
               IDString (Sctransaction.ID tx); Itoa (i + j)]).
Proof.
  split; [apply completionPatterns_returns|].
  revert i. induction blocks as [|b blocks IH]; intros i patterns;
    cbn [completionPatterns].
  - by intros [= <-].
  - destruct (TargetSCAddress b) as [target|] eqn:Ht; [|done].
    destruct (patternsOf blocks tx (S i)) as [rest|] eqn:Hrest; [|done].
    intros [= <-] [|j].
    + cbn. by rewrite Ht, Nat.add_0_r.
    + rewrite !lookup_cons. rewrite (IH _ _ Hrest j).
      by replace (S i + j)%nat with (i + S j)%nat by lia.
Qed.

(** What the loop over the blocks has done when it ends with a builder:
    one call of [AddRequestBlockWithTransfer] per block, in order, with
    the block's target, code, timelock, converted arguments and
    transfer. *)
Lemma addRequestBlocks_Ok blocks txb txb' calls :
  addRequestBlocks AddRequestBlockWithTransfer blocks txb
    = (Returns (Ok txb'), calls) ->
  Forall2 (λ blockPar call,
             exists target args,
               TargetSCAddress blockPar = Some target /\
               convertArgs (Vars blockPar) = Returns (Some args) /\
               call = CallAddRequestBlockWithTransfer
                        (mkRequestBlock target (RequestCode blockPar)
                           (Timelock blockPar) args)
                        target (Transfer blockPar))
          blocks calls.
Proof.
  revert txb calls. induction blocks as [|b blocks IH]; intros txb calls;
    cbn [addRequestBlocks].
  - intros [= <- <-]. constructor.
  - destruct (TargetSCAddress b) as [target|] eqn:Ht; [|done].
    destruct (convertArgs (Vars b)) as [[args|]|] eqn:Hc; try done.
    destruct (AddRequestBlockWithTransfer _ _ _ _) as [txb1|]; [|done].
    destruct (addRequestBlocks _ blocks txb1) as [res calls'] eqn:Hrest.
    intros [= -> <-]. constructor; [|by eapply IH].
    by exists target, args.
Qed.

Local Ltac elim_in He tac :=
  first [by apply elem_of_nil in He
        |apply elem_of_cons in He as [He|He]; [subst; tac | elim_in He tac]].

Local Ltac intro_in :=
  repeat (apply elem_of_cons; first [by left | right]).

Local Ltac close_discipline :=
  split; [intros; first [done | discriminate]|];
  split; [cbn; repeat case_decide; cbn; lia|];
  split;
    [let He := fresh in let Hp := fresh in
     intros ? ? He Hp; elim_in He ltac:(cbn in Hp; congruence)|];
  split; [repeat (constructor; [by intros ?|]); constructor|];
  split;
    [split;
       [let He := fresh in
        intros He;
        first [by (repeat split; eauto) | elim_in He ltac:(discriminate)]
       |intros (? & ? & ? & ? & ?); first [discriminate | intro_in]]|];
  let He := fresh in
  intros He; first [done | elim_in He ltac:(discriminate)].

Lemma postAndWait_Ok (par : Params) tx tx' events :
  postWait par tx = (Returns (Ok tx'), events) ->
  tx' = tx /\
  events =
    if Post par then
      if WaitForConfirmation par then
        if WaitForCompletion par then
          [NetSubscribeMulti (PublisherHosts par);
           NetPostAndWaitForConfirmation tx;
           NetWaitForPatterns
             (match patternsOf (BlockParams par) tx 0 with
              | Returns patterns => patterns
              | Panics _ => []
              end);
           NetClose]
        else [NetPostAndWaitForConfirmation tx]
      else [NetPostTransaction tx]
    else [].
Proof.
  unfold postAndWait.
  destruct (Post par); cbn; [|by intros [= <- <-]].
  destruct (WaitForConfirmation par); cbn.
  2:{ destruct (PostTransaction _ _); by intros [= <- <-]. }
  destruct (WaitForCompletion par).
  - destruct (SubscribeMulti _ _ _) as [subs|]; [|done].
    destruct (PostAndWaitForConfirmation _ _); [done|].
    destruct (patternsOf _ _ _) as [patterns|]; [|done].
    destruct (WaitForPatterns _ _ _ _); cbn; [|done]. by intros [= <- <-].
  - destruct (PostAndWaitForConfirmation _ _); [done|]. by intros [= <- <-].
Qed.

Lemma postAndWait_discipline (par : Params) tx :
  let events := (postWait par tx).2 in
  (Post par = false -> events = []) /\
  (length (filter (λ e, isPost e = true) events) <= 1)%nat /\
  (forall e tx', e ∈ events -> posted e = Some tx' -> tx' = tx) /\
  Forall (λ e, forall addr, e ≠ NetGetConfirmedAccountOutputs addr) events /\
  (NetClose ∈ events <->
   Post par = true /\ WaitForConfirmation par = true /\
   WaitForCompletion par = true /\
   exists subs, SubscribeMulti (PublisherHosts par) "request_out"
                  (PublisherQuorum par) = Ok subs) /\
  (NetClose ∈ events -> last events = Some NetClose).
Proof.
  unfold postAndWait.
  destruct (Post par); cbn; [|by close_discipline].
  destruct (WaitForConfirmation par); cbn.
  2:{ destruct (PostTransaction _ _); cbn; by close_discipline. }
  destruct (WaitForCompletion par).
  - destruct (SubscribeMulti _ _ _) as [subs|err]; cbn;
      [|by close_discipline].
    destruct (PostAndWaitForConfirmation _ _); cbn; [by close_discipline|].
    destruct (patternsOf _ _ _) as [patterns|]; cbn; [|by close_discipline].
    destruct (WaitForPatterns _ _ _ _); cbn; by close_discipline.
  - destruct (PostAndWaitForConfirmation _ _); cbn; by close_discipline.
Qed.

(** The calls to the builder and the signature scheme are no calls to the
    ledger node or the publisher. *)
Lemma local_calls_then_posts (pre posts : list NetEvent) :
  Forall (λ e, isNet e = false) pre ->
  filter (λ e, isNet e = true) (pre ++ posts)
    = filter (λ e, isNet e = true) posts /\
  filter (λ e, isPost e = true) (pre ++ posts)
    = filter (λ e, isPost e = true) posts /\
  (forall e, e ∈ pre ++ posts -> isNet e = true -> e ∈ posts) /\
  (posts ≠ [] -> last (pre ++ posts) = last posts).
Proof.
  intros Hpre. rewrite Forall_forall in Hpre.
  assert (forall P : NetEvent -> bool,
            (forall e, P e = true -> isNet e = true) ->
            filter (λ e, P e = true) pre = []) as Hnone.
  { intros P HP. clear posts. induction pre as [|e pre IH]; [done|].
    rewrite filter_cons_False.
    - apply IH. intros e' He'. apply Hpre. by right.
    - intros HPe. apply HP in HPe. rewrite (Hpre e) in HPe by left.
      discriminate. }
  split; [|split; [|split]].
  - by rewrite filter_app, (Hnone isNet).
  - rewrite filter_app, (Hnone isPost); [done|]. by intros [].
  - intros e [He|He]%elem_of_app Hn; [|done].
    rewrite (Hpre e He) in Hn. discriminate.
  - intros Hne. destruct posts as [|p posts] using rev_ind; [done|].
    by rewrite app_assoc, !last_snoc.
Qed.

(** When [CreateRequestTransaction] returns a transaction, that
    transaction was built from the sender's confirmed outputs with every
    request block added (the arguments of each converted), signed with the
    sender's scheme and accepted by the property analysis; and the calls
    were, in this order: the fetch of the outputs, the making of the
    builder, the adding of each block, [Build], [Sign], and then nothing if
    [Post] is off, one [PostTransaction] if the caller does not wait for
    confirmation, one [PostAndWaitForConfirmation] if it does, put between
    the opening of the subscription and the wait for the completion
    patterns followed by the closing if the caller waits for completion. *)
Theorem CreateRequestTransaction_Ok (par : Params) tx events :
  CreateRequestTransaction SchemeAddress Sign NewFromOutputBalances
    AddRequestBlockWithTransfer Build SubscribeMulti WaitForPatterns
    AddressString IDString Itoa DurationString par
    = (Returns (Ok tx), events) ->
  exists allOuts txb0 txb1 tx0 prop calls patterns,
    GetConfirmedAccountOutputs (Client par)
      (SchemeAddress (SenderSigScheme par)) = Ok allOuts /\
    NewFromOutputBalances allOuts = Ok txb0 /\
    addRequestBlocks AddRequestBlockWithTransfer (BlockParams par) txb0
      = (Returns (Ok txb1), calls) /\
    Forall2 (λ blockPar call,
               exists target args,
                 TargetSCAddress blockPar = Some target /\
                 convertArgs (Vars blockPar) = Returns (Some args) /\
                 call = CallAddRequestBlockWithTransfer
                          (mkRequestBlock target (RequestCode blockPar)
                             (Timelock blockPar) args)
                          target (Transfer blockPar))
            (BlockParams par) calls /\
    Build txb1 false = Ok tx0 /\
    tx = Sign tx0 (SenderSigScheme par) /\
    Sctransaction.calcProperties tx = Ok prop /\
    completionPatterns AddressString IDString Itoa (BlockParams par) tx 0
      = Returns patterns /\
    events =
      [NetGetConfirmedAccountOutputs (SchemeAddress (SenderSigScheme par));
       CallNewFromOutputBalances] ++ calls ++ [CallBuild; CallSign] ++
      if Post par then
        if WaitForConfirmation par then
          if WaitForCompletion par then
            [NetSubscribeMulti (PublisherHosts par);
             NetPostAndWaitForConfirmation tx;
             NetWaitForPatterns patterns;
             NetClose]
          else [NetPostAndWaitForConfirmation tx]
        else [NetPostTransaction tx]
      else [].
Proof.
  unfold CreateRequestTransaction.
  destruct (GetConfirmedAccountOutputs _ _) as [allOuts|] eqn:Hget; [|done].
  destruct (NewFromOutputBalances allOuts) as [txb0|] eqn:Hnew; [|done].
  destruct (addRequestBlocks _ _ txb0) as [[[txb1|]|] calls] eqn:Hadd;
    try done.
  destruct (Build txb1 false) as [tx0|] eqn:Hbuild; [|done].
  destruct (Sctransaction.calcProperties _) as [prop|] eqn:Hprop; [|done].
  destruct (postAndWait _ _ _ _ _ _ _ _) as [res ev] eqn:Hpost.
  intros [= -> <-].
  apply postAndWait_Ok in Hpost as [-> ->].
  pose proof (addRequestBlocks_Ok _ _ _ _ Hadd) as Hcalls.
  destruct (completionPatterns_returns (BlockParams par)
              (Sign tx0 (SenderSigScheme par)) 0) as [patterns Hpat].
  { eapply Forall2_Forall_l; [exact Hcalls|].
    apply Forall_forall. by intros call _ b (target & args & -> & _). }
  exists allOuts, txb0, txb1, tx0, prop, calls, patterns.
  rewrite Hpat. repeat split; try done.
  by rewrite <- !app_assoc.
Qed.

(** Whatever [CreateRequestTransaction] does (return a transaction or an
    error, or panic), its calls start with the fetch of the sender's
    outputs, and it fetches only once; with [Post] off there is no other
    call that leaves the process; at most one call hands a transaction to
    the node, and only a transaction that passed the property analysis;
    and the subscription is closed exactly when it was opened, as the last
    call, on the error paths too. *)
Theorem CreateRequestTransaction_network_discipline (par : Params) :
  exists rest,
    (CreateRequestTransaction SchemeAddress Sign NewFromOutputBalances
       AddRequestBlockWithTransfer Build SubscribeMulti WaitForPatterns
       AddressString IDString Itoa DurationString par).2
      = NetGetConfirmedAccountOutputs (SchemeAddress (SenderSigScheme par))
          :: rest /\
    Forall (λ e, forall addr, e ≠ NetGetConfirmedAccountOutputs addr) rest /\
    (Post par = false -> filter (λ e, isNet e = true) rest = []) /\
    (length (filter (λ e, isPost e = true) rest) <= 1)%nat /\
    (forall e tx, e ∈ rest -> posted e = Some tx ->
                  exists prop, Sctransaction.calcProperties tx = Ok prop) /\
    (NetClose ∈ rest <->
     NetSubscribeMulti (PublisherHosts par) ∈ rest /\
     exists subs, SubscribeMulti (PublisherHosts par) "request_out"
                    (PublisherQuorum par) = Ok subs) /\
    (NetClose ∈ rest -> last rest = Some NetClose).
Proof.
  (* The calls before the posting part are calls to the builder. *)
  assert (forall (res : outcome (result Sctransaction.Transaction)) events pre,
    events = NetGetConfirmedAccountOutputs
               (SchemeAddress (SenderSigScheme par)) :: pre ->
    Forall (λ e, isNet e = false) pre ->
    exists rest : list NetEvent,
      (res, events).2
        = NetGetConfirmedAccountOutputs (SchemeAddress (SenderSigScheme par))
            :: rest /\
      Forall (λ e, forall addr, e ≠ NetGetConfirmedAccountOutputs addr) rest /\
      (Post par = false -> filter (λ e, isNet e = true) rest = []) /\
      (length (filter (λ e, isPost e = true) rest) <= 1)%nat /\
      (forall e tx, e ∈ rest -> posted e = Some tx ->
                    exists prop, Sctransaction.calcProperties tx = Ok prop) /\
      (NetClose ∈ rest <->
       NetSubscribeMulti (PublisherHosts par) ∈ rest /\
       exists subs, SubscribeMulti (PublisherHosts par) "request_out"
                      (PublisherQuorum par) = Ok subs) /\
      (NetClose ∈ rest -> last rest = Some NetClose)) as Hquiet.
  { intros res events pre -> Hpre. exists pre. cbn [snd]. split; [done|].
    destruct (local_calls_then_posts pre [] Hpre) as (Hnet & Hpost & Hin & _).
    rewrite app_nil_r in Hnet, Hpost, Hin. rewrite Forall_forall in Hpre.
    assert (forall e, e ∈ pre -> isNet e = true -> False) as Hno.
    { intros e He Hn. by apply Hin, elem_of_nil in Hn. }
    split; [|split; [|split; [|split; [|split]]]].
    - apply Forall_forall. intros e He addr ->. by apply (Hno _ He).
    - done.
    - rewrite Hpost. cbn. lia.
    - intros e tx He Hp. destruct (Hno e He). by destruct e.
    - split; [intros He | intros [He _]]; by destruct (Hno _ He).
    - intros He. by destruct (Hno _ He). }
  unfold CreateRequestTransaction.
  destruct (GetConfirmedAccountOutputs _ _) as [allOuts|];
    [|by apply (Hquiet _ _ [])].
  destruct (NewFromOutputBalances allOuts) as [txb0|];
    [|by apply (Hquiet _ _ [CallNewFromOutputBalances]);
       repeat constructor].
  pose proof (ApilibTheory.addRequestBlocks_calls AddRequestBlockWithTransfer
                (BlockParams par) txb0) as Hcalls.
  destruct (addRequestBlocks _ _ txb0) as [added calls].
  cbn [snd] in Hcalls.
  assert (Forall (λ e, isNet e = false) calls) as Hlocal.
  { eapply Forall_impl; [exact Hcalls|]. by intros e (r & t & tr & ->). }
  assert (forall tail, Forall (λ e, isNet e = false) tail ->
            Forall (λ e, isNet e = false)
                   (CallNewFromOutputBalances :: calls ++ tail)) as Hpre.
  { intros tail Htail. constructor; [done|]. by apply Forall_app. }
  destruct added as [[txb1|]|].
  2:{ apply (Hquiet _ _ (CallNewFromOutputBalances :: calls ++ []));
        [by rewrite app_nil_r | apply Hpre; constructor]. }
  2:{ apply (Hquiet _ _ (CallNewFromOutputBalances :: calls ++ []));
        [by rewrite app_nil_r | apply Hpre; constructor]. }
  destruct (Build txb1 false) as [tx0|].
  2:{ apply (Hquiet _ _ (CallNewFromOutputBalances :: calls ++ [CallBuild]));
        [by rewrite <- !app_assoc | apply Hpre; by repeat constructor]. }
  destruct (Sctransaction.calcProperties _) as [prop|] eqn:Hprop.
  2:{ apply (Hquiet _ _ (CallNewFromOutputBalances
                           :: calls ++ [CallBuild; CallSign]));
        [by rewrite <- !app_assoc | apply Hpre; by repeat constructor]. }
  pose proof (postAndWait_discipline par (Sign tx0 (SenderSigScheme par)))
    as (Hoff & Hone & Hposted & Hfetch & Hclose & Hlast).
  destruct (postAndWait _ _ _ _ _ _ _ _) as [res posts] eqn:Hpost.
  cbn [snd] in *.
  set (pre := CallNewFromOutputBalances :: calls ++ [CallBuild; CallSign]).
  assert (Forall (λ e, isNet e = false) pre) as Hpre'
    by (apply Hpre; by repeat constructor).
  destruct (local_calls_then_posts pre posts Hpre')
    as (Hnet & Hpostf & Hin & Hlastp).
  exists (pre ++ posts). split.
  { unfold pre. cbn [app]. by rewrite <- !app_assoc. }
  split; [|split; [|split; [|split; [|split]]]].
  - apply Forall_app. split; [|done].
    eapply Forall_impl; [exact Hpre'|]. by intros e He addr ->.
  - intros Hp. by rewrite Hnet, (Hoff Hp).
  - by rewrite Hpostf.
  - intros e tx He Hp. assert (e ∈ posts) as He'.
    { apply Hin; [done|]. by destruct e. }
    rewrite (Hposted _ _ He' Hp). by exists prop.
  - split.
    + intros He. assert (NetClose ∈ posts) as He' by (by apply Hin).
      pose proof (proj1 Hclose He') as (Hp & Hc & Hw & subs & Hs).
      split; [|by eauto]. apply elem_of_app. right.
      revert Hpost. unfold postAndWait. rewrite Hp, Hc, Hw, Hs. cbn.
      destruct (PostAndWaitForConfirmation _ _);
        [intros [= <- <-]; intro_in|].
      destruct (patternsOf _ _ _) as [patterns|];
        [|intros [= <- <-]; intro_in].
      destruct (WaitForPatterns _ _ _ _); cbn; intros [= <- <-]; intro_in.
    + intros (He & subs & Hs). apply elem_of_app. right.
      assert (NetSubscribeMulti (PublisherHosts par) ∈ posts) as He'
        by (by apply Hin).
      apply Hclose. revert Hpost He'. unfold postAndWait.
      destruct (Post par); cbn; [|intros [= <- <-]; by intros ?%elem_of_nil].
      destruct (WaitForConfirmation par); cbn.
      2:{ destruct (PostTransaction _ _); intros [= <- <-];
            intros Hin0%list_elem_of_singleton; discriminate. }
      destruct (WaitForCompletion par); [by eauto 10|].
      destruct (PostAndWaitForConfirmation _ _); intros [= <- <-];
        intros Hin0%list_elem_of_singleton; discriminate.
  - intros He. assert (NetClose ∈ posts) as He' by (by apply Hin).
    rewrite Hlastp; [by apply Hlast|]. intros ->. by apply elem_of_nil in He'.
Qed.

End Api.

(** Two arguments, visited in either order. *)
Lemma convertArgs_result_witness :
  convertArgs_in [("b", VString "x"); ("a", VInt 1)]
  = convertArgs {["a" := VInt 1; "b" := VString "x"]}.
Proof.
  assert ([("b", VString "x"); ("a", VInt 1)]
          ≡ₚ map_to_list
               ({["a" := VInt 1; "b" := VString "x"]} : gmap string GoValue))
    as Hp by (vm_compute; apply perm_swap).
  apply (proj1 (proj2 (convertArgs_result _ _ Hp))). left.
  intros k v Hk.
  apply lookup_insert_Some in Hk as [[_ <-]|[_ Hk]]; [done|].
  by apply lookup_singleton_Some in Hk as [_ <-].
Defined.

(** A [uint32] argument 7 is stored as 7. *)
Lemma convertArgs_keeps_int64_values_witness :
  (λ res : option (gmap string ArgValue), args ← res; args !! "n")
    <$> match convertArgs {["n" := VUint32 7]} with
        | Returns res => Some res
        | Panics _ => None
        end
  = Some (Some (AInt64 7)).
Proof.
  destruct (convertArgs {["n" := VUint32 7]}) as [[args|]|] eqn:Hc;
    [|by vm_compute in Hc|by vm_compute in Hc].
  cbn [fmap option_fmap option_map mbind option_bind]. f_equal.
  apply (convertArgs_keeps_int64_values {["n" := VUint32 7]} args "n"
           (VUint32 7) Hc);
    [reflexivity | reflexivity | cbn; lia | vm_compute; discriminate].
Defined.

(** A posted request transaction: it passed the property analysis. *)
Lemma CreateRequestTransaction_Ok_witness :
  exists prop, Sctransaction.calcProperties (Scenario.txRequests 3) = Ok prop.
Proof.
  assert (exists events,
            CreateRequestTransaction Scenario.schemeAddress Scenario.sign
              Scenario.newFromOutputBalances
              Scenario.addRequestBlockWithTransfer
              Scenario.buildRequest Scenario.subscribeMulti
              Scenario.waitForPatterns
              Scenario.addressString Scenario.idString Scenario.itoa
              Scenario.durationString (Scenario.requestParams ∅)
            = (Returns (Ok (Scenario.txRequests 3)), events))
    as [events Hcreate] by (eexists; vm_compute; reflexivity).
  destruct (CreateRequestTransaction_Ok _ _ _ _ _ _ _ _ _ _ _ _ _ _ Hcreate)
    as (allOuts & txb0 & txb1 & tx0 & prop & calls & patterns
        & _ & _ & _ & _ & _ & _ & Hprop & _).
  by exists prop.
Defined.

End ApilibCoverage.
